(** * EmissionTracker backend: token verification, tenant context, admin gate

    A shallow embedding of the trust pipeline of the backend
    ([app/auth/cognito.py], [app/dependencies.py], [app/routers/admin.py],
    [app/models/tenant.py], [scripts/seed_superadmin.py]) and the proofs of
    its specified properties.

    Conventions.  A Python function that may raise becomes a function into
    [result]; one that also touches process-wide or session state becomes a
    [prog S A], a state-and-exception monad over the state [S].  The network,
    the clock and the identity provider's user pool are parameters. *)

From Stdlib Require Import ZArith NArith Ascii String.
From stdpp Require Import base option list gmap strings pretty.

Local Open Scope string_scope.
Local Open Scope Z_scope.

(** ** Exceptions and results *)

Module Http.

(** [jwt.exceptions]: the subclasses of [InvalidTokenError] that
    [jwt.get_unverified_header] and [jwt.decode] raise. *)
Inductive jwt_exception :=
| DecodeError (msg : string)
| InvalidAlgorithmError
| InvalidSignatureError
| InvalidIssuedAtError
| ImmatureSignatureError (claim : string)
| ExpiredSignatureError
| InvalidAudienceError.

(** [str(e)] for those exceptions: the message the library attaches. *)
Definition str (e : jwt_exception) : string :=
  match e with
  | DecodeError msg => msg
  | InvalidAlgorithmError => "The specified alg value is not allowed"
  | InvalidSignatureError => "Signature verification failed"
  | InvalidIssuedAtError => "Issued At claim (iat) must be an integer."
  | ImmatureSignatureError claim =>
      "The token is not yet valid (" ++ claim ++ ")"
  | ExpiredSignatureError => "Signature has expired"
  | InvalidAudienceError => "Invalid audience"
  end.

(** Every exception class that the modelled code can see. *)
Inductive exn :=
| HTTPException (status_code : Z) (detail : string)   (* fastapi *)
| InvalidTokenError (e : jwt_exception)               (* jwt *)
| InvalidKeyError                                     (* jwt, not an InvalidTokenError *)
| URLError (reason : string)                          (* urllib.error *)
| JSONDecodeError                                     (* json.loads *)
| KeyError (key : string)                             (* dict subscript *)
| MultipleResultsFound                                (* sqlalchemy.exc *)
| IntegrityError (constraint : string)                (* sqlalchemy.exc *)
| DataError (msg : string)                            (* sqlalchemy.exc *)
| ProgrammingError (msg : string)                     (* sqlalchemy.exc *)
| InvalidRequestError                                 (* sqlalchemy.exc *)
| ClientError (code : string).                        (* botocore.exceptions *)

Inductive result (A : Type) :=
| Return (a : A)
| Raise (e : exn).
Arguments Return {A} a.
Arguments Raise {A} e.

Definition HTTP_401_UNAUTHORIZED : Z := 401.
Definition HTTP_403_FORBIDDEN : Z := 403.
Definition HTTP_404_NOT_FOUND : Z := 404.
Definition HTTP_409_CONFLICT : Z := 409.

(** What the framework sends back: an [HTTPException] becomes a response
    with its status code and the body [{"detail": ...}]; any other
    exception is not handled by the application and becomes the generic
    500 response. *)
Record response := { status : Z; body : string }.

Definition handled (e : exn) : bool :=
  match e with
  | HTTPException _ _ => true
  | _ => false
  end.

Definition error_response (e : exn) : response :=
  match e with
  | HTTPException code detail => {| status := code; body := detail |}
  | _ => {| status := 500; body := "Internal Server Error" |}
  end.

(** State-and-exception monad: the state survives a raise. *)
Definition prog (S A : Type) : Type := S -> result A * S.

Definition ret {S A} (a : A) : prog S A := fun s => (Return a, s).
Definition raise {S A} (e : exn) : prog S A := fun s => (Raise e, s).
Definition lift {S A} (r : result A) : prog S A := fun s => (r, s).
Definition bind {S A B} (m : prog S A) (k : A -> prog S B) : prog S B :=
  fun s =>
    match m s with
    | (Return a, s') => k a s'
    | (Raise e, s') => (Raise e, s')
    end.
Definition try_except {S A} (m : prog S A) (h : exn -> prog S A) : prog S A :=
  fun s =>
    match m s with
    | (Return a, s') => (Return a, s')
    | (Raise e, s') => h e s'
    end.
Definition get {S} : prog S S := fun s => (Return s, s).
Definition put {S} (s : S) : prog S unit := fun _ => (Return tt, s).

End Http.
Import Http.

Notation "'let!' x ':=' m 'in' k" := (bind m (fun x => k))
  (at level 10, x name, m at level 100, k at level 200, only parsing).

(** ** app/auth/cognito.py *)

Module Cognito.

(** One entry of the key set.  [key["kid"]] raises [KeyError] when the
    entry has no identifier; [RSAAlgorithm.from_jwk] raises
    [InvalidKeyError] when the entry is not an RSA public key.  An RSA
    public key is represented by its modulus. *)
Record jwk := { jwk_kid : option string; jwk_rsa : option N }.

(** The parsed body of the key-set endpoint: a dict that has a ["keys"]
    list, or lacks it. *)
Record jwks_doc := { doc_keys : option (list jwk) }.

(** What one [urlopen] + [read] + [json.loads] gives. *)
Inductive fetch_outcome :=
| FetchURLError (reason : string)     (* DNS failure, timeout, refused *)
| FetchNotJson                        (* body is not JSON *)
| FetchDoc (d : jwks_doc).

(** Process-wide state: the single slot of [lru_cache(maxsize=1)] around
    [_get_jwks], and the number of network fetches made so far. *)
Record process := { jwks_cache : option jwks_doc; fetches : nat }.

(** The value of an issued-at or not-before claim: a number of seconds,
    or a JSON value that [int] refuses. *)
Inductive numeric_date :=
| Seconds (z : Z)
| NotInteger.

(** The decoded payload.  The registered claims that the code or the
    library reads are optional fields; everything else is in [extra]. *)
Record claim_set := {
  sub : option string;
  exp : option Z;
  aud : option string;
  iat : option numeric_date;
  nbf : option numeric_date;
  extra : gmap string string
}.

Record jose_header := { hdr_alg : string; hdr_kid : option string }.

(** A structurally sound token: header, payload, and the RSA key pair
    (named by its public modulus) that made the signature. *)
Record jws := { header : jose_header; payload : claim_set; signer : N }.

(** The credentials string.  Either the library cannot split it into
    three base64url segments with a JSON header ([Garbled], with the
    message of the [DecodeError] it raises); or the header is readable
    and the segments are sound but the payload segment is not a JSON
    object ([BadPayload], with the header, the key pair that signed, and
    the message); or it is a token. *)
Inductive bearer :=
| Garbled (msg : string)
| BadPayload (hdr : jose_header) (signed_by : N) (msg : string)
| Compact (t : jws).

(** [jwt.get_unverified_header(token)]: only the segments and the header
    are read. *)
Definition get_unverified_header (token : bearer) : result jose_header :=
  match token with
  | Garbled msg => Raise (InvalidTokenError (DecodeError msg))
  | BadPayload hdr _ _ => Return hdr
  | Compact t => Return (header t)
  end.

(** The first step of [jwt.decode]: the header's algorithm must be in
    the allow-list, and the signature must verify under the key. *)
Definition verify_signature (hdr : jose_header) (signed_by key : N)
    (algorithms : list string) : result unit :=
  if negb (bool_decide (hdr_alg hdr ∈ algorithms))
  then Raise (InvalidTokenError InvalidAlgorithmError)
  else if negb (N.eqb signed_by key)
  then Raise (InvalidTokenError InvalidSignatureError)
  else Return tt.

(** The last step of [jwt.decode], with the library's default options
    and no [audience] argument: the issued-at claim, the not-before
    claim and the expiry claim against the clock, in this order, then
    (only when enabled) the audience claim, which must be absent or
    empty when no audience is expected. *)
Definition validate_claims (now : Z) (verify_aud : bool)
    (payload : claim_set) : result claim_set :=
  if match iat payload with
     | Some NotInteger => true
     | _ => false
     end
  then Raise (InvalidTokenError InvalidIssuedAtError)
  else if match iat payload with
          | Some (Seconds i) => now <? i
          | _ => false
          end
  then Raise (InvalidTokenError (ImmatureSignatureError "iat"))
  else if match nbf payload with
          | Some NotInteger => true
          | _ => false
          end
  then Raise (InvalidTokenError
                (DecodeError "Not Before claim (nbf) must be an integer."))
  else if match nbf payload with
          | Some (Seconds n) => now <? n
          | _ => false
          end
  then Raise (InvalidTokenError (ImmatureSignatureError "nbf"))
  else if match exp payload with
          | Some e => e <=? now
          | None => false
          end
  then Raise (InvalidTokenError ExpiredSignatureError)
  else if verify_aud && match aud payload with
                        | Some a => negb (bool_decide (a = ""))
                        | None => false
                        end
  then Raise (InvalidTokenError InvalidAudienceError)
  else Return payload.

(** [jwt.decode(token, key, algorithms=..., options={"verify_aud": ...})]:
    the segments are read, the signature is verified, the payload is
    parsed, and its claims are validated. *)
Definition decode (now : Z) (token : bearer) (key : N)
    (algorithms : list string) (verify_aud : bool) : result claim_set :=
  match token with
  | Garbled msg => Raise (InvalidTokenError (DecodeError msg))
  | BadPayload hdr signed_by msg =>
      match verify_signature hdr signed_by key algorithms with
      | Raise e => Raise e
      | Return _ => Raise (InvalidTokenError (DecodeError msg))
      end
  | Compact t =>
      match verify_signature (header t) (signer t) key algorithms with
      | Raise e => Raise e
      | Return _ => validate_claims now verify_aud (payload t)
      end
  end.

(** [RSAAlgorithm.from_jwk(json.dumps(key))] *)
Definition from_jwk (key : jwk) : result N :=
  match jwk_rsa key with
  | Some n => Return n
  | None => Raise InvalidKeyError
  end.

(** The loop of [_get_public_key]: the first entry whose ["kid"] equals
    the header's; [key["kid"]] is evaluated before [header["kid"]]. *)
Fixpoint find_key (keys : list jwk) (hdr : jose_header) : result N :=
  match keys with
  | [] => Raise (HTTPException HTTP_401_UNAUTHORIZED "Public key not found")
  | key :: rest =>
      match jwk_kid key with
      | None => Raise (KeyError "kid")
      | Some k =>
          match hdr_kid hdr with
          | None => Raise (KeyError "kid")
          | Some k' => if bool_decide (k = k') then from_jwk key
                       else find_key rest hdr
          end
      end
  end.

Section Process.

(** [net n] is the outcome of the [n]-th fetch of the key-set URL. *)
Variable net : nat -> fetch_outcome.
(** The clock reading (whole seconds) that [jwt.decode] compares with. *)
Variable now : Z.

(** [urlopen(settings.cognito_jwks_url)] and [json.loads(response.read())] *)
Definition urlopen_json : prog process jwks_doc :=
  fun p =>
    let p' := {| jwks_cache := jwks_cache p; fetches := S (fetches p) |} in
    match net (fetches p) with
    | FetchURLError reason => (Raise (URLError reason), p')
    | FetchNotJson => (Raise JSONDecodeError, p')
    | FetchDoc d => (Return d, p')
    end.

(** [@lru_cache(maxsize=1) def _get_jwks()]: a cached value is returned
    as it is; otherwise the body runs and only a returned value is
    stored (an exception is not cached). *)
Definition _get_jwks : prog process jwks_doc :=
  let! cached := get in
  match jwks_cache cached with
  | Some d => ret d
  | None =>
      let! d := urlopen_json in
      let! p := get in
      let! _ := put {| jwks_cache := Some d; fetches := fetches p |} in
      ret d
  end.

Definition _get_public_key (token : bearer) : prog process N :=
  let! hdr := lift (get_unverified_header token) in
  let! jwks := _get_jwks in
  match doc_keys jwks with
  | None => raise (KeyError "keys")
  | Some keys => lift (find_key keys hdr)
  end.

Definition verify_token (credentials : bearer) : prog process claim_set :=
  let token := credentials in
  try_except
    (let! public_key := _get_public_key token in
     let! payload := lift (decode now token public_key ["RS256"] false) in
     ret payload)
    (fun e =>
       match e with
       | InvalidTokenError ExpiredSignatureError =>
           raise (HTTPException HTTP_401_UNAUTHORIZED "Token expired")
       | InvalidTokenError e' =>
           raise (HTTPException HTTP_401_UNAUTHORIZED (str e'))
       | other => raise other
       end).

End Process.

End Cognito.
Import Cognito.

(** ** app/models/base.py and app/models/tenant.py *)

Module Models.

(** [uuid.UUID]: a 128-bit number; [str] of it is 32 hexadecimal digits
    in groups of 8-4-4-4-12. *)
Definition uuid := N.

Definition hex_digit (d : N) : ascii :=
  match d with
  | 0 => "0" | 1 => "1" | 2 => "2" | 3 => "3" | 4 => "4" | 5 => "5"
  | 6 => "6" | 7 => "7" | 8 => "8" | 9 => "9" | 10 => "a" | 11 => "b"
  | 12 => "c" | 13 => "d" | 14 => "e" | _ => "f"
  end%N%char.

Fixpoint hex (width : nat) (n : N) : string :=
  match width with
  | O => ""
  | S w => hex w (n / 16)%N ++ String (hex_digit (n mod 16)%N) ""
  end.

Definition uuid_str (u : uuid) : string :=
  let h := hex 32 u in
  substring 0 8 h ++ "-" ++ substring 8 4 h ++ "-" ++ substring 12 4 h
    ++ "-" ++ substring 16 4 h ++ "-" ++ substring 20 12 h.

Module Company.
Definition tablename := "companies".
Record t := {
  id : uuid;
  name : string;
  slug : string;            (* unique *)
  created_at : Z;
  updated_at : Z
}.
(** The object as the constructor call makes it, before it is stored. *)
Record obj := { new_id : uuid; new_name : string; new_slug : string }.
Definition stored (clock : Z) (o : obj) : t :=
  {| id := new_id o; name := new_name o; slug := new_slug o;
     created_at := clock; updated_at := clock |}.
End Company.

Module User.
Definition tablename := "users".
Record t := {
  id : uuid;
  cognito_sub : string;     (* nullable=False, unique *)
  email : string;
  is_active : bool;
  is_superadmin : bool;
  company_id : uuid;        (* TenantMixin *)
  created_at : Z;
  updated_at : Z
}.
(** The object as the constructor call makes it: a keyword that the call
    leaves out is filled from the column default when the row is
    inserted ([is_active]: [True], [is_superadmin]: [False]). *)
Record obj := {
  new_id : uuid;
  new_cognito_sub : string;
  new_email : string;
  new_company_id : uuid;
  new_is_active : option bool;
  new_is_superadmin : option bool
}.
Definition stored (clock : Z) (o : obj) : t :=
  {| id := new_id o; cognito_sub := new_cognito_sub o;
     email := new_email o;
     is_active := default true (new_is_active o);
     is_superadmin := default false (new_is_superadmin o);
     company_id := new_company_id o;
     created_at := clock; updated_at := clock |}.
Definition with_is_superadmin (clock : Z) (v : bool) (u : t) : t :=
  {| id := id u; cognito_sub := cognito_sub u; email := email u;
     is_active := is_active u; is_superadmin := v;
     company_id := company_id u;
     created_at := created_at u; updated_at := clock |}.
End User.

Module Permission.
Definition tablename := "permissions".
Record t := {
  id : uuid;
  name : string;            (* unique *)
  description : option string
}.
End Permission.

Module Role.
Definition tablename := "roles".
Record t := {
  id : uuid;
  name : string;            (* unique together with company_id *)
  company_id : uuid;        (* TenantMixin *)
  created_at : Z;
  updated_at : Z
}.
End Role.

Module RolePermission.
Definition tablename := "role_permissions".
(** Primary key: both columns. *)
Record t := { role_id : uuid; permission_id : uuid }.
End RolePermission.

Module UserRole.
Definition tablename := "user_roles".
(** Primary key: (user_id, role_id). *)
Record t := {
  user_id : uuid;
  role_id : uuid;
  company_id : uuid;        (* TenantMixin *)
  created_at : Z;
  updated_at : Z
}.
End UserRole.

(** The tables, each as the list of its rows, and the server's clock
    ([func.now()]). *)
Record database := {
  companies : list Company.t;
  users : list User.t;
  permissions : list Permission.t;
  roles : list Role.t;
  role_permissions : list RolePermission.t;
  user_roles : list UserRole.t;
  clock : Z
}.

Definition with_companies (l : list Company.t) (d : database) : database :=
  {| companies := l; users := users d; permissions := permissions d;
     roles := roles d; role_permissions := role_permissions d;
     user_roles := user_roles d; clock := clock d |}.
Definition with_users (l : list User.t) (d : database) : database :=
  {| companies := companies d; users := l; permissions := permissions d;
     roles := roles d; role_permissions := role_permissions d;
     user_roles := user_roles d; clock := clock d |}.
Definition with_role_permissions (l : list RolePermission.t) (d : database)
    : database :=
  {| companies := companies d; users := users d;
     permissions := permissions d; roles := roles d;
     role_permissions := l; user_roles := user_roles d; clock := clock d |}.
Definition with_user_roles (l : list UserRole.t) (d : database) : database :=
  {| companies := companies d; users := users d;
     permissions := permissions d; roles := roles d;
     role_permissions := role_permissions d; user_roles := l;
     clock := clock d |}.

End Models.
Import Models.

(** ** The session and its connection

    What [AsyncSession] and the PostgreSQL connection under it do for the
    calls the code makes: [execute], [add], [flush], [commit], [refresh],
    closing the session, and [SET LOCAL]. *)

Module Db.

(** The session variable that the row-filtering policies read. *)
Definition marker : string := "app.current_company_id".

Inductive query :=
| Select (table : string)
| Insert (table : string)
| Update (table : string)
| Delete (table : string).

(** How a value reaches the server: written in the text of the
    statement, or sent apart from it as a bound parameter, which is what
    the drivers under [AsyncSession] ([psycopg], the one that
    [app/config.py] names) do with the parameters of [text(...)]. *)
Inductive operand :=
| Literal (value : string)
| Bound (value : string).

Inductive statement :=
| Data (q : query)
| SetLocal (name : string) (value : operand).

(** An open transaction: its number on the connection, the settings made
    with [SET LOCAL] inside it, and the tables as they were at its start. *)
Record transaction := {
  serial : nat;
  local_guc : gmap string string;
  at_begin : database
}.

(** A pooled connection: settings that last as long as the connection,
    the number of transactions begun on it, and the open transaction. *)
Record connection := {
  guc : gmap string string;
  begun : nat;
  tx : option transaction
}.

(** One statement sent to the server: the transaction it was sent in and
    the value of the marker at that point. *)
Record event := {
  ev_tx : nat;
  ev_stmt : statement;
  ev_marker : option string
}.

(** What the unit of work holds until the next flush. *)
Inductive work :=
| AddCompany (o : Company.obj)
| AddUser (o : User.obj)
| SetSuperadmin (id : uuid) (v : bool).

Record session := {
  store : database;
  conn : connection;
  pending : list work;
  log : list event
}.

(** [current_setting(name)]: a [SET LOCAL] value of the open transaction
    shadows the connection's own. *)
Definition current_setting (name : string) (c : connection) : option string :=
  match tx c with
  | Some t =>
      match local_guc t !! name with
      | Some v => Some v
      | None => guc c !! name
      end
  | None => guc c !! name
  end.

(** The session begins a transaction with the first statement. *)
Definition autobegin (s : session) : session :=
  match tx (conn s) with
  | Some _ => s
  | None =>
      {| store := store s;
         conn := {| guc := guc (conn s);
                    begun := S (begun (conn s));
                    tx := Some {| serial := begun (conn s);
                                  local_guc := ∅;
                                  at_begin := store s |} |};
         pending := pending s;
         log := log s |}
  end.

(** [SET LOCAL name = value]: lasts until the transaction ends; outside a
    transaction it has no effect. *)
Definition set_local (name value : string) (c : connection) : connection :=
  match tx c with
  | Some t =>
      {| guc := guc c; begun := begun c;
         tx := Some {| serial := serial t;
                       local_guc := <[name := value]> (local_guc t);
                       at_begin := at_begin t |} |}
  | None => c
  end.

(** COMMIT and ROLLBACK both discard the transaction's local settings. *)
Definition end_tx (c : connection) : connection :=
  {| guc := guc c; begun := begun c; tx := None |}.

Definition current_tx (c : connection) : nat :=
  match tx c with
  | Some t => serial t
  | None => begun c
  end.

(** What the server answers to a statement that it does not run.  A
    bound parameter is accepted only in a data statement: [SET] is a
    utility statement, so [SET LOCAL name = $1] is a syntax error. *)
Definition refused (st : statement) : option exn :=
  match st with
  | SetLocal _ (Bound _) =>
      Some (ProgrammingError "syntax error at or near $1")
  | _ => None
  end.

(** [db.execute(stmt)]: begin if needed, send the statement, and record
    it.  A refused statement changes nothing, and the transaction stays
    open until the session is rolled back or closed (the server refuses
    whatever else is sent in it; no path of the code sends anything). *)
Definition execute (st : statement) (s : session) : session :=
  let s1 := autobegin s in
  {| store := store s1;
     conn := match st with
             | SetLocal name (Literal value) => set_local name value (conn s1)
             | SetLocal _ (Bound _) => conn s1
             | Data _ => conn s1
             end;
     pending := pending s1;
     log := log s1 ++ [ {| ev_tx := current_tx (conn s1);
                           ev_stmt := st;
                           ev_marker := current_setting marker (conn s1) |} ] |}.

Definition with_store (d : database) (s : session) : session :=
  {| store := d; conn := conn s; pending := pending s; log := log s |}.

Definition rollback (s : session) : session :=
  {| store := match tx (conn s) with
              | Some t => at_begin t
              | None => store s
              end;
     conn := end_tx (conn s);
     pending := [];
     log := log s |}.

(** [result.scalar_one_or_none()] *)
Definition scalar_one_or_none {A} (rows : list A) : result (option A) :=
  match rows with
  | [] => Return None
  | [row] => Return (Some row)
  | _ => Raise MultipleResultsFound
  end.

(** [select(User).where(User.cognito_sub == sub)].  The column is not
    nullable, so a comparison with [None] (rendered [IS NULL]) selects
    no row. *)
Definition select_users_where_cognito_sub (sub : option string)
    : prog session (list User.t) :=
  fun s =>
    let s1 := execute (Data (Select User.tablename)) s in
    (Return (filter (fun u => Some (User.cognito_sub u) = sub)
                    (users (store s1))), s1).

(** [select(Company).where(Company.id == id)] *)
Definition select_companies_where_id (id : uuid)
    : prog session (list Company.t) :=
  fun s =>
    let s1 := execute (Data (Select Company.tablename)) s in
    (Return (filter (fun c => Company.id c = id) (companies (store s1))), s1).

(** [select(Company).where(Company.slug == slug)] *)
Definition select_companies_where_slug (slug : string)
    : prog session (list Company.t) :=
  fun s =>
    let s1 := execute (Data (Select Company.tablename)) s in
    (Return (filter (fun c => Company.slug c = slug) (companies (store s1))),
     s1).

(** [db.execute(text("SET LOCAL name = ..."), ...)] *)
Definition execute_set_local (name : string) (value : operand)
    : prog session unit :=
  fun s =>
    let s1 := execute (SetLocal name value) s in
    match refused (SetLocal name value) with
    | Some e => (Raise e, s1)
    | None => (Return tt, s1)
    end.

(** [db.add(obj)], and an attribute assignment on a loaded object. *)
Definition add (w : work) : prog session unit :=
  fun s =>
    (Return tt,
     {| store := store s; conn := conn s;
        pending := pending s ++ [w]; log := log s |}).

(** [String(n)] is [character varying(n)]: a value of more than [n]
    characters is refused when the row is formed, before any key is
    looked at.  (The server cuts a value whose excess is spaces only to
    the length instead of refusing it; that case is not told apart
    here.) *)
Definition too_long (n : nat) (v : string) : bool :=
  bool_decide (n < String.length v)%nat.

Definition value_too_long (n : nat) : exn :=
  DataError ("value too long for type character varying(" ++ pretty n ++ ")").

(** What the store checks when a row is written: the lengths of the
    string columns ([name] is [String(255)], [slug] is [String(100)]),
    then the keys. *)
Definition insert_company (o : Company.obj) (d : database) : result database :=
  if too_long 255 (Company.new_name o) then Raise (value_too_long 255)
  else if too_long 100 (Company.new_slug o) then Raise (value_too_long 100)
  else if bool_decide (Company.new_id o ∈ Company.id <$> companies d)
  then Raise (IntegrityError "companies_pkey")
  else if bool_decide (Company.new_slug o ∈ Company.slug <$> companies d)
  then Raise (IntegrityError "companies_slug_key")
  else Return (with_companies (companies d ++ [Company.stored (clock d) o]) d).

(** [cognito_sub] is [String(128)], [email] is [String(255)]. *)
Definition insert_user (o : User.obj) (d : database) : result database :=
  if too_long 128 (User.new_cognito_sub o) then Raise (value_too_long 128)
  else if too_long 255 (User.new_email o) then Raise (value_too_long 255)
  else if bool_decide (User.new_id o ∈ User.id <$> users d)
  then Raise (IntegrityError "users_pkey")
  else if bool_decide (User.new_cognito_sub o ∈ User.cognito_sub <$> users d)
  then Raise (IntegrityError "users_cognito_sub_key")
  else if bool_decide (User.new_company_id o ∈ Company.id <$> companies d)
  then Return (with_users (users d ++ [User.stored (clock d) o]) d)
  else Raise (IntegrityError "users_company_id_fkey").

Definition update_is_superadmin (id : uuid) (v : bool) (d : database)
    : database :=
  with_users
    (map (fun u => if bool_decide (User.id u = id)
                   then User.with_is_superadmin (clock d) v u else u)
         (users d))
    d.

Definition apply_work (w : work) (d : database) : result database :=
  match w with
  | AddCompany o => insert_company o d
  | AddUser o => insert_user o d
  | SetSuperadmin id v => Return (update_is_superadmin id v d)
  end.

Definition statement_of (w : work) : statement :=
  match w with
  | AddCompany _ => Data (Insert Company.tablename)
  | AddUser _ => Data (Insert User.tablename)
  | SetSuperadmin _ _ => Data (Update User.tablename)
  end.

(** Writing the pending work, in order; a violated constraint rolls the
    transaction back and raises. *)
Fixpoint flush_works (ws : list work) (s : session) : result unit * session :=
  match ws with
  | [] => (Return tt, s)
  | w :: rest =>
      let s1 := execute (statement_of w) s in
      match apply_work w (store s1) with
      | Return d => flush_works rest (with_store d s1)
      | Raise e => (Raise e, rollback s1)
      end
  end.

(** [db.flush()] *)
Definition flush : prog session unit :=
  fun s =>
    flush_works (pending s)
      {| store := store s; conn := conn s; pending := []; log := log s |}.

(** [db.commit()] *)
Definition commit : prog session unit :=
  fun s =>
    match flush s with
    | (Return _, s1) =>
        (Return tt,
         {| store := store s1; conn := end_tx (conn s1);
            pending := pending s1; log := log s1 |})
    | (Raise e, s1) => (Raise e, s1)
    end.

(** [db.refresh(user)]: load the row again by primary key. *)
Definition refresh_user (id : uuid) : prog session User.t :=
  fun s =>
    let s1 := execute (Data (Select User.tablename)) s in
    match filter (fun u => User.id u = id) (users (store s1)) with
    | u :: _ => (Return u, s1)
    | [] => (Raise InvalidRequestError, s1)
    end.

Definition refresh_company (id : uuid) : prog session Company.t :=
  fun s =>
    let s1 := execute (Data (Select Company.tablename)) s in
    match filter (fun c => Company.id c = id) (companies (store s1)) with
    | c :: _ => (Return c, s1)
    | [] => (Raise InvalidRequestError, s1)
    end.

(** A session on a connection taken from the pool, and closing it: what
    is not committed is rolled back and the connection goes back. *)
Definition open_session (d : database) (c : connection) : session :=
  {| store := d; conn := c; pending := []; log := [] |}.

Definition close (s : session) : database * connection :=
  let s1 := rollback s in (store s1, conn s1).

(** A connection as the pool first makes it. *)
Definition fresh_connection : connection :=
  {| guc := ∅; begun := 0; tx := None |}.

End Db.
Import Db.

(** ** app/dependencies.py *)

Module Dependencies.

(** The dependency up to its [yield db]: the value [Return tt] stands for
    the session being handed to the route handler.  The company id is
    passed to [SET LOCAL] as the bound parameter [:cid], not written into
    the statement's text. *)
Definition get_tenant_db (current_user : claim_set) : prog session unit :=
  let cognito_sub := sub current_user in
  let! result := select_users_where_cognito_sub cognito_sub in
  let! user := lift (scalar_one_or_none result) in
  match user with
  | None =>
      raise (HTTPException HTTP_401_UNAUTHORIZED
               "User not provisioned. Contact your administrator.")
  | Some user =>
      let! _ :=
        execute_set_local marker (Bound (uuid_str (User.company_id user))) in
      ret tt
  end.

(** What a route handler does with the session it is given: data
    statements, and transaction control. *)
Inductive handler_op :=
| Exec (q : query)
| Commit
| Rollback.

Definition run_op (op : handler_op) : prog session unit :=
  match op with
  | Exec q => fun s => (Return tt, execute (Data q) s)
  | Commit => commit
  | Rollback => fun s => (Return tt, rollback s)
  end.

Fixpoint run_handler (ops : list handler_op) : prog session unit :=
  match ops with
  | [] => ret tt
  | op :: rest => let! _ := run_op op in run_handler rest
  end.

(** The outcome of one request: what the caller gets, and what is left
    behind in the process, the tables and the pooled connection, with the
    statements that the request executed. *)
Record served := {
  outcome : result unit;
  proc_after : process;
  db_after : database;
  conn_after : connection;
  trace : list event
}.

(** Modelled from the spec: [get_db] of [app/database.py], the dependency
    that owns the transaction's demarcation.  It opens a session on a
    connection of the pool, hands it on, and closes it when the request
    is over, which returns the connection to the pool. *)
Definition get_db (d : database) (c : connection) : session :=
  open_session d c.

Definition finish (r : result unit) (p : process) (s : session) : served :=
  let '(d, c) := close s in
  {| outcome := r; proc_after := p; db_after := d; conn_after := c;
     trace := log s |}.

(** A route that declares [TenantDB]: the token is verified, the session
    is opened, [get_tenant_db] runs up to its yield, then the handler. *)
Definition tenant_route (net : nat -> fetch_outcome) (now : Z)
    (credentials : bearer) (handler : list handler_op)
    (p : process) (d : database) (c : connection) : served :=
  match verify_token net now credentials p with
  | (Raise e, p1) =>
      {| outcome := Raise e; proc_after := p1; db_after := d;
         conn_after := c; trace := [] |}
  | (Return current_user, p1) =>
      let db := get_db d c in
      match get_tenant_db current_user db with
      | (Raise e, s1) => finish (Raise e) p1 s1
      | (Return _, s1) =>
          let '(r, s2) := run_handler handler s1 in
          finish r p1 s2
      end
  end.

End Dependencies.
Import Dependencies.

(** ** app/routers/admin.py *)

Module Admin.

(** Modelled from the spec: the principal resolver of the platform
    routes.  The user is looked up by exact match on the subject claim;
    no row means [Unauthenticated]. *)
Definition resolve (current_user : claim_set) : prog session User.t :=
  let! result := select_users_where_cognito_sub (sub current_user) in
  let! user := lift (scalar_one_or_none result) in
  match user with
  | None =>
      raise (HTTPException HTTP_401_UNAUTHORIZED
               "User not provisioned. Contact your administrator.")
  | Some user => ret user
  end.

(** Modelled from the spec: [require_superadmin], which
    [app/routers/admin.py] imports from [app.dependencies] and whose
    definition is not among the sources.  It returns unit for a resolved
    user with the superadmin flag and fails with [Forbidden] otherwise. *)
Definition require_superadmin (user : User.t) : result unit :=
  if User.is_superadmin user then Return tt
  else Raise (HTTPException HTTP_403_FORBIDDEN "Super-admin access required.").

(** app/schemas/admin.py *)
Record CreateCompanyRequest := { cc_name : string; cc_slug : string }.
Record ProvisionUserRequest := { cognito_sub : string; email : string }.

(** The answer of the identity provider's [admin_get_user]. *)
Inductive pool_answer :=
| PoolUser
| PoolClientError (code : string).

Section Handlers.

(** The identity provider's user pool. *)
Variable admin_get_user : string -> pool_answer.
(** The value of the handler's call of [uuid.uuid4()]. *)
Variable uuid4 : uuid.

Definition create_company (body : CreateCompanyRequest)
    : prog session Company.t :=
  let! existing := select_companies_where_slug (cc_slug body) in
  let! existing := lift (scalar_one_or_none existing) in
  match existing with
  | Some _ =>
      raise (HTTPException HTTP_409_CONFLICT
               ("A company with slug '" ++ cc_slug body
                  ++ "' already exists."))
  | None =>
      let company := {| Company.new_id := uuid4;
                        Company.new_name := cc_name body;
                        Company.new_slug := cc_slug body |} in
      let! _ := add (AddCompany company) in
      let! _ := commit in
      let! company := refresh_company uuid4 in
      ret company
  end.

Definition provision_user (company_id : uuid) (body : ProvisionUserRequest)
    : prog session User.t :=
  let! result := select_companies_where_id company_id in
  let! company := lift (scalar_one_or_none result) in
  match company with
  | None =>
      raise (HTTPException HTTP_404_NOT_FOUND
               ("Company " ++ uuid_str company_id ++ " not found."))
  | Some _ =>
      match admin_get_user (cognito_sub body) with
      | PoolClientError code =>
          if bool_decide (code = "UserNotFoundException")
          then raise (HTTPException HTTP_404_NOT_FOUND
                        ("Cognito user '" ++ cognito_sub body
                           ++ "' not found in user pool."))
          else raise (ClientError code)
      | PoolUser =>
          let! existing :=
            select_users_where_cognito_sub (Some (cognito_sub body)) in
          let! existing := lift (scalar_one_or_none existing) in
          match existing with
          | Some _ =>
              raise (HTTPException HTTP_409_CONFLICT
                       ("User with cognito_sub '" ++ cognito_sub body
                          ++ "' is already provisioned."))
          | None =>
              let user := {| User.new_id := uuid4;
                             User.new_cognito_sub := cognito_sub body;
                             User.new_email := email body;
                             User.new_company_id := company_id;
                             User.new_is_active := None;
                             User.new_is_superadmin := None |} in
              let! _ := add (AddUser user) in
              let! _ := commit in
              let! user := refresh_user uuid4 in
              ret user
          end
      end
  end.

End Handlers.

(** What the dependencies of an admin route come to: the request is
    turned away with an exception, or it passes and a session is handed
    to the handler. *)
Inductive gate_outcome :=
| Rejected (e : exn) (p : process) (d : database) (c : connection)
| Passed (p : process) (s : session).

(** Modelled from the spec: the dependencies of the admin router, whose
    [dependencies] list holds [require_superadmin].  The token is
    verified and the subject resolved before the flag is looked at. *)
Definition admin_dependencies (net : nat -> fetch_outcome) (now : Z)
    (credentials : bearer) (p : process) (d : database) (c : connection)
    : gate_outcome :=
  match verify_token net now credentials p with
  | (Raise e, p1) => Rejected e p1 d c
  | (Return current_user, p1) =>
      let gate :=
        let! user := resolve current_user in
        lift (require_superadmin user) in
      match gate (get_db d c) with
      | (Raise e, s1) => Rejected e p1 (fst (close s1)) (snd (close s1))
      | (Return _, s1) => Passed p1 s1
      end
  end.

(** A route of the admin router: the handler runs last, on the request's
    one session, and only when the dependencies let the request in. *)
Definition admin_route {A} (net : nat -> fetch_outcome) (now : Z)
    (credentials : bearer) (handler : prog session A)
    (p : process) (d : database) (c : connection)
    : result A * process * database * connection :=
  match admin_dependencies net now credentials p d c with
  | Rejected e p1 d1 c1 => (Raise e, p1, d1, c1)
  | Passed p1 s1 =>
      let '(r, s2) := handler s1 in
      (r, p1, fst (close s2), snd (close s2))
  end.

End Admin.
Import Admin.

(** ** scripts/seed_superadmin.py *)

Module Seed.

Definition PLATFORM_COMPANY_SLUG := "__platform__".
Definition PLATFORM_COMPANY_NAME := "Platform (internal)".

(** [seed], inside its [async with AsyncSessionLocal() as db]; the two
    [uuid.uuid4()] values are arguments. *)
Definition seed (uuid4_company uuid4_user : uuid)
    (cognito_sub email : string) : prog session unit :=
  let! result := select_companies_where_slug PLATFORM_COMPANY_SLUG in
  let! platform := lift (scalar_one_or_none result) in
  let! platform_id :=
    match platform with
    | Some platform => ret (Company.id platform)
    | None =>
        let platform := {| Company.new_id := uuid4_company;
                           Company.new_name := PLATFORM_COMPANY_NAME;
                           Company.new_slug := PLATFORM_COMPANY_SLUG |} in
        let! _ := add (AddCompany platform) in
        let! _ := flush in
        ret uuid4_company
    end in
  let! result := select_users_where_cognito_sub (Some cognito_sub) in
  let! existing := lift (scalar_one_or_none result) in
  match existing with
  | Some existing =>
      if User.is_superadmin existing then ret tt
      else
        let! _ := add (SetSuperadmin (User.id existing) true) in
        commit
  | None =>
      let user := {| User.new_id := uuid4_user;
                     User.new_cognito_sub := cognito_sub;
                     User.new_email := email;
                     User.new_company_id := platform_id;
                     User.new_is_active := None;
                     User.new_is_superadmin := Some true |} in
      let! _ := add (AddUser user) in
      commit
  end.

Definition run_seed (uuid4_company uuid4_user : uuid)
    (cognito_sub email : string) (d : database) (c : connection)
    : result unit * database * connection :=
  let '(r, s) := seed uuid4_company uuid4_user cognito_sub email
                   (open_session d c) in
  (r, fst (close s), snd (close s)).

End Seed.
Import Seed.

(** ** The permission model *)

Module Permissions.

(** Modelled from the spec: [hasPermission], for which the sources hold
    only the tables.  There is a [UserRole] of this user within this
    company, joined to a [RolePermission], joined to a [Permission] whose
    name matches. *)
Definition hasPermission (d : database) (userId companyId : uuid)
    (permissionName : string) : bool :=
  existsb
    (fun ur =>
       bool_decide (UserRole.user_id ur = userId)
       && bool_decide (UserRole.company_id ur = companyId)
       && existsb
            (fun rp =>
               bool_decide (RolePermission.role_id rp = UserRole.role_id ur)
               && existsb
                    (fun perm =>
                       bool_decide (Permission.id perm
                                    = RolePermission.permission_id rp)
                       && bool_decide (Permission.name perm = permissionName))
                    (permissions d))
            (role_permissions d))
    (user_roles d).

(** Modelled from the spec: granting a [RolePermission], for which the
    sources hold only the table: the insertion of a row under the table's
    primary key (role_id, permission_id). *)
Definition grant_role_permission (rp : RolePermission.t) (d : database)
    : result database :=
  if bool_decide
       (Exists (fun x => RolePermission.role_id x = RolePermission.role_id rp
                         ∧ RolePermission.permission_id x
                           = RolePermission.permission_id rp)
               (role_permissions d))
  then Raise (IntegrityError "role_permissions_pkey")
  else Return (with_role_permissions (role_permissions d ++ [rp]) d).

(** Modelled from the spec: granting a [UserRole], the insertion of a row
    under the primary key (user_id, role_id). *)
Definition grant_user_role (ur : UserRole.t) (d : database)
    : result database :=
  if bool_decide
       (Exists (fun x => UserRole.user_id x = UserRole.user_id ur
                         ∧ UserRole.role_id x = UserRole.role_id ur)
               (user_roles d))
  then Raise (IntegrityError "user_roles_pkey")
  else Return (with_user_roles (user_roles d ++ [ur]) d).

(** Modelled from the spec: revoking a [RolePermission], the deletion of
    the row with that primary key. *)
Definition revoke_role_permission (role_id permission_id : uuid)
    (d : database) : database :=
  with_role_permissions
    (filter (fun x => ¬ (RolePermission.role_id x = role_id
                         ∧ RolePermission.permission_id x = permission_id))
            (role_permissions d))
    d.

(** Modelled from the spec: revoking a [UserRole], the deletion of the
    row with that primary key. *)
Definition revoke_user_role (user_id role_id : uuid) (d : database)
    : database :=
  with_user_roles
    (filter (fun x => ¬ (UserRole.user_id x = user_id
                         ∧ UserRole.role_id x = role_id))
            (user_roles d))
    d.

(** The store's uniqueness constraint on [Permission.name]. *)
Definition permission_names_unique (d : database) : Prop :=
  ∀ p q, p ∈ permissions d → q ∈ permissions d →
         Permission.name p = Permission.name q → p = q.

End Permissions.
Import Permissions.

(** ** Vocabulary of the statements *)

Module Vocabulary.

(** What the two [except] clauses of [verify_token] turn an exception
    into; any other exception passes through them. *)
Definition reraised (e : exn) : exn :=
  match e with
  | InvalidTokenError ExpiredSignatureError =>
      HTTPException HTTP_401_UNAUTHORIZED "Token expired"
  | InvalidTokenError e' => HTTPException HTTP_401_UNAUTHORIZED (str e')
  | other => other
  end.

(** The exception of a failed fetch of the key set. *)
Definition fetch_error (o : fetch_outcome) : option exn :=
  match o with
  | FetchURLError reason => Some (URLError reason)
  | FetchNotJson => Some JSONDecodeError
  | FetchDoc _ => None
  end.

(** Every entry of the key set has an identifier. *)
Definition well_formed_keys (keys : list jwk) : Prop :=
  Forall (fun key => is_Some (jwk_kid key)) keys.

(** The key identifier is not in the key set. *)
Definition kid_absent (kid : string) (keys : list jwk) : Prop :=
  Some kid ∉ jwk_kid <$> keys.

(** An issued-at or not-before claim that does not stop a token at the
    clock reading [now]: absent, or a number of seconds not after it. *)
Definition not_in_future (now : Z) (claim : option numeric_date) : Prop :=
  match claim with
  | None => True
  | Some (Seconds z) => z <= now
  | Some NotInteger => False
  end.

(** A value that a [String(n)] column refuses: it has more than [n]
    characters, and what exceeds them is not spaces only. *)
Fixpoint all_spaces (v : string) : bool :=
  match v with
  | EmptyString => true
  | String a rest => Ascii.eqb a " " && all_spaces rest
  end.

Definition overlong (n : nat) (v : string) : Prop :=
  (n < String.length v)%nat
  ∧ all_spaces (substring n (String.length v - n) v) = false.

(** The token with its audience claim replaced. *)
Definition with_aud (a : option string) (t : jws) : jws :=
  {| header := header t;
     payload := {| sub := sub (payload t); exp := exp (payload t);
                   aud := a; iat := iat (payload t); nbf := nbf (payload t);
                   extra := extra (payload t) |};
     signer := signer t |}.

(** The token with its subject claim replaced. *)
Definition with_sub (x : option string) (t : jws) : jws :=
  {| header := header t;
     payload := {| sub := x; exp := exp (payload t);
                   aud := aud (payload t);
                   iat := iat (payload t); nbf := nbf (payload t);
                   extra := extra (payload t) |};
     signer := signer t |}.

(** A pooled connection at rest: no transaction is open on it and it
    carries no tenant marker. *)
Definition at_rest (c : connection) : Prop :=
  tx c = None ∧ guc c !! marker = None.

(** A session that holds no unwritten work and whose open transaction,
    if any, has written nothing yet. *)
Definition clean (s : session) : Prop :=
  pending s = [] ∧
  match tx (conn s) with
  | Some t => at_begin t = store s
  | None => True
  end.

(** The two statements that [get_tenant_db] sends, as the log shows them
    when they open transaction [n] on a connection at rest. *)
Definition lookup_event (n : nat) : event :=
  {| ev_tx := n; ev_stmt := Data (Select User.tablename);
     ev_marker := None |}.
Definition set_local_event (n : nat) (cid : string) : event :=
  {| ev_tx := n; ev_stmt := SetLocal marker (Bound cid); ev_marker := None |}.

(** What [SET LOCAL] with a bound parameter ends in. *)
Definition set_local_refused : exn :=
  ProgrammingError "syntax error at or near $1".

Definition not_provisioned : exn :=
  HTTPException HTTP_401_UNAUTHORIZED
    "User not provisioned. Contact your administrator.".

(** The rows whose superadmin flag is set. *)
Definition superadmins (d : database) : list User.t :=
  filter (fun u => User.is_superadmin u = true) (users d).

(** The rows that the lookup by subject selects. *)
Definition rows_of_subject (sub : option string) (d : database)
    : list User.t :=
  filter (fun u => Some (User.cognito_sub u) = sub) (users d).

(** The two halves of [seed]: getting or creating the platform company,
    and then promoting or creating the user. *)
Definition seed_platform (uuid4_company : uuid) : prog session uuid :=
  let! result := select_companies_where_slug PLATFORM_COMPANY_SLUG in
  let! platform := lift (scalar_one_or_none result) in
  match platform with
  | Some platform => ret (Company.id platform)
  | None =>
      let platform := {| Company.new_id := uuid4_company;
                         Company.new_name := PLATFORM_COMPANY_NAME;
                         Company.new_slug := PLATFORM_COMPANY_SLUG |} in
      let! _ := add (AddCompany platform) in
      let! _ := flush in
      ret uuid4_company
  end.

Definition seed_user (uuid4_user platform_id : uuid)
    (cognito_sub email : string) : prog session unit :=
  let! result := select_users_where_cognito_sub (Some cognito_sub) in
  let! existing := lift (scalar_one_or_none result) in
  match existing with
  | Some existing =>
      if User.is_superadmin existing then ret tt
      else
        let! _ := add (SetSuperadmin (User.id existing) true) in
        commit
  | None =>
      let user := {| User.new_id := uuid4_user;
                     User.new_cognito_sub := cognito_sub;
                     User.new_email := email;
                     User.new_company_id := platform_id;
                     User.new_is_active := None;
                     User.new_is_superadmin := Some true |} in
      let! _ := add (AddUser user) in
      commit
  end.

(** Nothing is waiting to be written, and the open transaction, if any,
    has not changed the rows of [users]. *)
Definition users_untouched (s : session) : Prop :=
  pending s = [] ∧
  ∀ t, tx (conn s) = Some t → users (at_begin t) = users (store s).

End Vocabulary.
Import Vocabulary.

(** ** Concrete data for the examples *)

Module Examples.

Definition k1 : jwk := {| jwk_kid := Some "k1"; jwk_rsa := Some 7%N |}.
Definition doc1 : jwks_doc := {| doc_keys := Some [k1] |}.

Definition claims_of (s : option string) : claim_set :=
  {| sub := s; exp := Some 2000; aud := Some "client-a";
     iat := Some (Seconds 900); nbf := None; extra := ∅ |}.

Definition token (kid : string) (key : N) (s : option string) : jws :=
  {| header := {| hdr_alg := "RS256"; hdr_kid := Some kid |};
     payload := claims_of s;
     signer := key |}.

(** A token that is signed with the key it names and has not expired,
    but is not to be used before a later time. *)
Definition postdated : jws :=
  {| header := {| hdr_alg := "RS256"; hdr_kid := Some "k1" |};
     payload := {| sub := Some "sub-123"; exp := Some 2000;
                   aud := Some "client-a"; iat := Some (Seconds 900);
                   nbf := Some (Seconds 1500); extra := ∅ |};
     signer := 7 |}.

(** A subject of 129 characters, and a slug of 101. *)
Definition long_subject : string :=
  string_of_list_ascii (repeat "x"%char 129).

(** The cache after a first fetch, and before any. *)
Definition warm : process := {| jwks_cache := Some doc1; fetches := 1 |}.
Definition cold : process := {| jwks_cache := None; fetches := 0 |}.

Definition net_up (n : nat) : fetch_outcome := FetchDoc doc1.
Definition net_down (n : nat) : fetch_outcome := FetchURLError "timed out".

Definition acme : Company.t :=
  {| Company.id := 10%N; Company.name := "Acme"; Company.slug := "acme";
     Company.created_at := 0; Company.updated_at := 0 |}.

Definition alice : User.t :=
  {| User.id := 20%N; User.cognito_sub := "sub-123";
     User.email := "alice@acme.example";
     User.is_active := true; User.is_superadmin := false;
     User.company_id := 10%N;
     User.created_at := 0; User.updated_at := 0 |}.

Definition root : User.t :=
  {| User.id := 21%N; User.cognito_sub := "sub-root";
     User.email := "root@platform.example";
     User.is_active := true; User.is_superadmin := true;
     User.company_id := 10%N;
     User.created_at := 0; User.updated_at := 0 |}.

Definition read_settings : Permission.t :=
  {| Permission.id := 30%N; Permission.name := "settings:read";
     Permission.description := None |}.

Definition db0 : database :=
  {| companies := [acme]; users := [alice; root];
     permissions := [read_settings]; roles := [];
     role_permissions := []; user_roles := []; clock := 5 |}.

Definition grant_rp : RolePermission.t :=
  {| RolePermission.role_id := 40%N; RolePermission.permission_id := 30%N |}.
Definition grant_ur : UserRole.t :=
  {| UserRole.user_id := 20%N; UserRole.role_id := 40%N;
     UserRole.company_id := 10%N;
     UserRole.created_at := 5; UserRole.updated_at := 5 |}.

End Examples.

(** ** Runs of several calls, and invariants of the tables *)

Module Runs.

(** Verifying tokens one after the other in one process. *)
Fixpoint verify_all (net : nat -> fetch_outcome) (now : Z)
    (tokens : list bearer) (p : process)
    : list (result claim_set) * process :=
  match tokens with
  | [] => ([], p)
  | token :: rest =>
      let '(r, p1) := verify_token net now token p in
      let '(rs, p2) := verify_all net now rest p1 in
      (r :: rs, p2)
  end.

(** Requests to tenant routes, served one after the other by one process
    on one pooled connection. *)
Record request := { req_credentials : bearer; req_handler : list handler_op }.

Fixpoint serve_all (net : nat -> fetch_outcome) (now : Z)
    (requests : list request) (p : process) (d : database) (c : connection)
    : list served :=
  match requests with
  | [] => []
  | req :: rest =>
      let r := tenant_route net now (req_credentials req) (req_handler req)
                 p d c in
      r :: serve_all net now rest (proc_after r) (db_after r) (conn_after r)
  end.

(** The constraints that the store keeps on [users] and [companies]:
    primary keys, the unique columns, and the foreign key. *)
Definition subjects_unique (d : database) : Prop :=
  NoDup (User.cognito_sub <$> users d).
Definition user_ids_unique (d : database) : Prop :=
  NoDup (User.id <$> users d).
Definition company_ids_unique (d : database) : Prop :=
  NoDup (Company.id <$> companies d).
Definition slugs_unique (d : database) : Prop :=
  NoDup (Company.slug <$> companies d).
Definition users_have_company (d : database) : Prop :=
  Forall (fun u => User.company_id u ∈ Company.id <$> companies d) (users d).

Definition constraints_hold (d : database) : Prop :=
  subjects_unique d ∧ user_ids_unique d ∧ company_ids_unique d
  ∧ slugs_unique d ∧ users_have_company d.

(** The row with its active flag replaced. *)
Definition with_is_active (v : bool) (u : User.t) : User.t :=
  {| User.id := User.id u; User.cognito_sub := User.cognito_sub u;
     User.email := User.email u;
     User.is_active := v; User.is_superadmin := User.is_superadmin u;
     User.company_id := User.company_id u;
     User.created_at := User.created_at u;
     User.updated_at := User.updated_at u |}.

(** What the first half of [seed] leaves when it does not raise: the
    tables [dA] it goes on with and the id [pid] of the platform company.
    Either the company with the platform slug is there already, or it is
    not and its insert passes the store's checks. *)
Definition platform_after (uuid4_company : uuid) (d dA : database)
    (pid : uuid) : Prop :=
  (∃ platform, platform ∈ companies d
               ∧ Company.slug platform = PLATFORM_COMPANY_SLUG
               ∧ dA = d ∧ pid = Company.id platform)
  ∨ ((PLATFORM_COMPANY_SLUG ∉ Company.slug <$> companies d)
     ∧ insert_company {| Company.new_id := uuid4_company;
                         Company.new_name := PLATFORM_COMPANY_NAME;
                         Company.new_slug := PLATFORM_COMPANY_SLUG |} d
       = Return dA
     ∧ pid = uuid4_company).

(** The user object that [seed] constructs. *)
Definition seeded_user (uuid4_user platform_id : uuid)
    (cognito_sub email : string) : User.obj :=
  {| User.new_id := uuid4_user;
     User.new_cognito_sub := cognito_sub;
     User.new_email := email;
     User.new_company_id := platform_id;
     User.new_is_active := None;
     User.new_is_superadmin := Some true |}.

(** Example tables that already hold the platform company. *)
Definition platform_row : Company.t :=
  {| Company.id := 12%N; Company.name := PLATFORM_COMPANY_NAME;
     Company.slug := PLATFORM_COMPANY_SLUG;
     Company.created_at := 0; Company.updated_at := 0 |}.
Definition db_with_platform : database :=
  with_companies [Examples.acme; platform_row] Examples.db0.

End Runs.
Import Runs.

(** * Properties *)

(** ** Token verification *)

Section VerifyToken.

Variable net : nat -> fetch_outcome.
Variable now : Z.

Lemma get_jwks_cached p d :
  jwks_cache p = Some d → _get_jwks net p = (Return d, p).
Proof.
  intros Hc. unfold _get_jwks, bind, get, ret. now rewrite Hc.
Qed.

Lemma get_jwks_first_fetch p d :
  jwks_cache p = None → net (fetches p) = FetchDoc d →
  _get_jwks net p
  = (Return d, {| jwks_cache := Some d; fetches := S (fetches p) |}).
Proof.
  intros Hc Hn.
  unfold _get_jwks, bind, get, put, ret, urlopen_json.
  now rewrite Hc, Hn.
Qed.

Lemma get_jwks_fetch_fails p e :
  jwks_cache p = None → fetch_error (net (fetches p)) = Some e →
  _get_jwks net p
  = (Raise e, {| jwks_cache := None; fetches := S (fetches p) |}).
Proof.
  intros Hc Hn.
  unfold _get_jwks, bind, get, put, ret, urlopen_json.
  rewrite Hc.
  destruct (net (fetches p)); simpl in Hn; simplify_eq; simpl;
    by rewrite Hc.
Qed.

(** [_get_public_key] on a string whose header parses. *)
Lemma get_public_key_header token hdr p :
  get_unverified_header token = Return hdr →
  _get_public_key net token p
  = match _get_jwks net p with
    | (Return jwks, p') =>
        (match doc_keys jwks with
         | Some keys => find_key keys hdr
         | None => Raise (KeyError "keys")
         end, p')
    | (Raise e, p') => (Raise e, p')
    end.
Proof.
  intros Hh. unfold _get_public_key, bind, lift, raise. rewrite Hh.
  destruct (_get_jwks net p) as [[jwks|e] p']; [|done].
  now destruct (doc_keys jwks).
Qed.

Lemma get_public_key_unfold t p :
  _get_public_key net (Compact t) p
  = match _get_jwks net p with
    | (Return jwks, p') =>
        (match doc_keys jwks with
         | Some keys => find_key keys (header t)
         | None => Raise (KeyError "keys")
         end, p')
    | (Raise e, p') => (Raise e, p')
    end.
Proof. by apply get_public_key_header. Qed.

(** [verify_token] in terms of its two calls. *)
Lemma verify_token_unfold token p :
  verify_token net now token p
  = match _get_public_key net token p with
    | (Return key, p') =>
        (match decode now token key ["RS256"] false with
         | Return claims => Return claims
         | Raise e => Raise (reraised e)
         end, p')
    | (Raise e, p') => (Raise (reraised e), p')
    end.
Proof.
  unfold verify_token, try_except, bind, lift, ret, raise.
  destruct (_get_public_key net token p) as [[key|e] p'].
  - destruct (decode now token key ["RS256"] false) as [c|e]; [done|].
    destruct e as [| [] | | | | | | | | | |]; done.
  - destruct e as [| [] | | | | | | | | | |]; done.
Qed.

(** The loop ends with the 401 when no entry carries the identifier. *)
Lemma find_key_absent keys hdr kid :
  hdr_kid hdr = Some kid → well_formed_keys keys → kid_absent kid keys →
  find_key keys hdr
  = Raise (HTTPException HTTP_401_UNAUTHORIZED "Public key not found").
Proof.
  intros Hk Hwf Habs. unfold kid_absent in Habs.
  induction Hwf as [|key keys [k Hkey] _ IH]; [done|].
  simpl. rewrite Hkey, Hk.
  rewrite fmap_cons, not_elem_of_cons, Hkey in Habs.
  destruct Habs as [Hne Hrest].
  rewrite bool_decide_eq_false_2 by congruence.
  by apply IH.
Qed.

Lemma verify_signature_ok hdr key :
  hdr_alg hdr = "RS256" → verify_signature hdr key key ["RS256"] = Return tt.
Proof.
  intros Halg. unfold verify_signature. rewrite Halg.
  rewrite bool_decide_eq_true_2 by apply list_elem_of_here.
  by rewrite N.eqb_refl.
Qed.

Lemma decode_bad_signature t key :
  hdr_alg (header t) = "RS256" → signer t ≠ key →
  decode now (Compact t) key ["RS256"] false
  = Raise (InvalidTokenError InvalidSignatureError).
Proof.
  intros Halg Hne. unfold decode, verify_signature. rewrite Halg.
  rewrite bool_decide_eq_true_2 by apply list_elem_of_here.
  cbn [negb]. by destruct (N.eqb_spec (signer t) key).
Qed.

(** The two claims that are checked before the expiry let the token
    through. *)
Lemma validate_claims_timely verify_aud cs :
  not_in_future now (iat cs) → not_in_future now (nbf cs) →
  validate_claims now verify_aud cs
  = if match exp cs with
       | Some e => e <=? now
       | None => false
       end
    then Raise (InvalidTokenError ExpiredSignatureError)
    else if verify_aud && match aud cs with
                          | Some a => negb (bool_decide (a = ""))
                          | None => false
                          end
    then Raise (InvalidTokenError InvalidAudienceError)
    else Return cs.
Proof.
  intros Hi Hn. unfold validate_claims.
  destruct (iat cs) as [[i|]|]; cbn in Hi; [|done|];
    destruct (nbf cs) as [[n|]|]; cbn in Hn; try done;
    repeat match goal with
           | |- context [?a <? ?b] => destruct (Z.ltb_spec a b); [lia|]
           end; done.
Qed.

Lemma decode_valid t key e :
  hdr_alg (header t) = "RS256" → signer t = key →
  not_in_future now (iat (payload t)) →
  not_in_future now (nbf (payload t)) →
  exp (payload t) = Some e → now < e →
  decode now (Compact t) key ["RS256"] false = Return (payload t).
Proof.
  intros Halg Hs Hi Hn He Hlt. unfold decode. rewrite Hs.
  rewrite verify_signature_ok by done.
  rewrite validate_claims_timely by done. rewrite He.
  destruct (Z.leb_spec e now); [lia|done].
Qed.

(** What [verify_aud=False] switches off: with the check on and no
    expected audience, the same valid token is refused as soon as it carries
    a non-empty audience claim. *)
Lemma decode_with_audience_check t key e a :
  hdr_alg (header t) = "RS256" → signer t = key →
  not_in_future now (iat (payload t)) →
  not_in_future now (nbf (payload t)) →
  exp (payload t) = Some e → now < e →
  aud (payload t) = Some a → a ≠ "" →
  decode now (Compact t) key ["RS256"] true
  = Raise (InvalidTokenError InvalidAudienceError).
Proof.
  intros Halg Hs Hi Hn He Hlt Ha Hne. unfold decode. rewrite Hs.
  rewrite verify_signature_ok by done.
  rewrite validate_claims_timely by done. rewrite He, Ha.
  destruct (Z.leb_spec e now); [lia|].
  cbn [andb]. by rewrite bool_decide_eq_false_2.
Qed.

End VerifyToken.

(** C4, as the claim states it, fails: with the key set already cached, a
    token that names an unknown key identifier is rejected with the 401,
    and the number of fetches made for it is not one (it is zero). *)
Lemma unknown_kid_refresh_counterexample :
  let r := verify_token Examples.net_up 1000
             (Compact (Examples.token "k2" 7 (Some "sub-123")))
             Examples.warm in
  fst r = Raise (HTTPException HTTP_401_UNAUTHORIZED "Public key not found")
  ∧ (fetches (snd r) - fetches Examples.warm ≠ 1)%nat.
Proof. vm_compute. split; [reflexivity | discriminate]. Qed.

(** C4 (amended).  A token whose header names a key identifier that is
    absent from the well-formed key set is rejected with 401 "Public key
    not found" after one pass over the key list.  No refresh is attempted:
    with the key set cached the process state (and so the fetch count) is
    unchanged, and with an empty cache the only fetch is the first load. *)
Theorem unknown_kid_fails_without_refresh
    (net : nat -> fetch_outcome) (now : Z) (t : jws) (kid : string)
    (d : jwks_doc) (keys : list jwk) (p : process) :
  hdr_kid (header t) = Some kid →
  doc_keys d = Some keys →
  well_formed_keys keys →
  kid_absent kid keys →
  (jwks_cache p = Some d →
   verify_token net now (Compact t) p
   = (Raise (HTTPException HTTP_401_UNAUTHORIZED "Public key not found"), p))
  ∧ (jwks_cache p = None → net (fetches p) = FetchDoc d →
     verify_token net now (Compact t) p
     = (Raise (HTTPException HTTP_401_UNAUTHORIZED "Public key not found"),
        {| jwks_cache := Some d; fetches := S (fetches p) |})).
Proof.
  intros Hkid Hkeys Hwf Habs.
  pose proof (find_key_absent keys (header t) kid Hkid Hwf Habs) as Hfind.
  split.
  - intros Hc.
    rewrite verify_token_unfold, get_public_key_unfold.
    rewrite (get_jwks_cached net p d Hc), Hkeys, Hfind. reflexivity.
  - intros Hc Hn.
    rewrite verify_token_unfold, get_public_key_unfold.
    rewrite (get_jwks_first_fetch net p d Hc Hn), Hkeys, Hfind. reflexivity.
Qed.

Lemma unknown_kid_fails_without_refresh_witness :
  verify_token Examples.net_up 1000
    (Compact (Examples.token "k2" 7 (Some "sub-123"))) Examples.warm
  = (Raise (HTTPException HTTP_401_UNAUTHORIZED "Public key not found"),
     Examples.warm).
Proof.
  refine (proj1 (unknown_kid_fails_without_refresh Examples.net_up 1000
                   (Examples.token "k2" 7 (Some "sub-123")) "k2"
                   Examples.doc1 [Examples.k1] Examples.warm _ _ _ _) _).
  - reflexivity.
  - reflexivity.
  - repeat constructor. by exists "k1".
  - unfold kid_absent. cbn. rewrite not_elem_of_cons.
    split; [discriminate | apply not_elem_of_nil].
  - reflexivity.
Defined.

(** C5, as the claim states it, fails: when the fetch of the key set times
    out, what leaves [verify_token] is not an [HTTPException] of any status
    or detail, so the failure is not surfaced as a handled error. *)
Lemma key_fetch_failure_counterexample :
  ¬ ∃ code detail,
      fst (verify_token Examples.net_down 1000
             (Compact (Examples.token "k1" 7 (Some "sub-123")))
             Examples.cold)
      = Raise (HTTPException code detail).
Proof. intros (code & detail & H). vm_compute in H. discriminate H. Qed.

(** C5 (amended).  When the cache is empty and the fetch of the key set
    fails (the URL cannot be opened, or the body is not JSON), verifying a
    token whose header parses returns no claim set: the exception of the
    fetch leaves [verify_token] as it is, uncaught by its [except] clauses,
    so the caller gets the generic 500 response and not a 401; nothing is
    cached, so the next attempt fetches again. *)
Theorem key_fetch_failure_propagates
    (net : nat -> fetch_outcome) (now : Z) (t : jws) (p : process) (e : exn) :
  jwks_cache p = None →
  fetch_error (net (fetches p)) = Some e →
  verify_token net now (Compact t) p
  = (Raise e, {| jwks_cache := None; fetches := S (fetches p) |})
  ∧ handled e = false
  ∧ status (error_response e) = 500.
Proof.
  intros Hc Hn.
  rewrite verify_token_unfold, get_public_key_unfold.
  rewrite (get_jwks_fetch_fails net p e Hc Hn).
  destruct (net (fetches p)); simpl in Hn; simplify_eq; done.
Qed.

Lemma key_fetch_failure_propagates_witness :
  verify_token Examples.net_down 1000
    (Compact (Examples.token "k1" 7 (Some "sub-123"))) Examples.cold
  = (Raise (URLError "timed out"), {| jwks_cache := None; fetches := 1 |})
  ∧ handled (URLError "timed out") = false
  ∧ status (error_response (URLError "timed out")) = 500.
Proof.
  apply (key_fetch_failure_propagates Examples.net_down 1000
           (Examples.token "k1" 7 (Some "sub-123")) Examples.cold
           (URLError "timed out")); reflexivity.
Defined.

(** C6, as the claim states it, fails: against the same cached key set, a
    token naming an unknown key and a token with a wrong signature are both
    rejected, and the two responses differ. *)
Lemma failure_oracle_counterexample :
  let not_found :=
    fst (verify_token Examples.net_up 1000
           (Compact (Examples.token "k2" 7 (Some "sub-123"))) Examples.warm) in
  let bad_signature :=
    fst (verify_token Examples.net_up 1000
           (Compact (Examples.token "k1" 8 (Some "sub-123"))) Examples.warm) in
  ∃ e1 e2, not_found = Raise e1 ∧ bad_signature = Raise e2
           ∧ error_response e1 ≠ error_response e2.
Proof.
  exists (HTTPException 401 "Public key not found"),
         (HTTPException 401 "Signature verification failed").
  vm_compute. repeat split. discriminate.
Qed.

(** C6 (amended).  A token that names a key absent from the cached key set
    and a token whose signature does not verify under the key it names are
    both rejected with status 401, but with different bodies: "Public key
    not found" for the first and the library's message for the second, so
    the response tells the two failures apart. *)
Theorem key_not_found_and_bad_signature_differ
    (net : nat -> fetch_outcome) (now : Z) (p : process)
    (d : jwks_doc) (keys : list jwk)
    (t1 : jws) (kid1 : string) (t2 : jws) (key2 : N) :
  jwks_cache p = Some d →
  doc_keys d = Some keys →
  well_formed_keys keys →
  hdr_kid (header t1) = Some kid1 →
  kid_absent kid1 keys →
  find_key keys (header t2) = Return key2 →
  hdr_alg (header t2) = "RS256" →
  signer t2 ≠ key2 →
  ∃ e1 e2,
    verify_token net now (Compact t1) p = (Raise e1, p)
    ∧ verify_token net now (Compact t2) p = (Raise e2, p)
    ∧ status (error_response e1) = HTTP_401_UNAUTHORIZED
    ∧ status (error_response e2) = HTTP_401_UNAUTHORIZED
    ∧ body (error_response e1) = "Public key not found"
    ∧ body (error_response e2) = "Signature verification failed"
    ∧ error_response e1 ≠ error_response e2.
Proof.
  intros Hc Hkeys Hwf Hkid Habs Hfind Halg Hsig.
  exists (HTTPException HTTP_401_UNAUTHORIZED "Public key not found"),
         (HTTPException HTTP_401_UNAUTHORIZED "Signature verification failed").
  split; [|split].
  - rewrite verify_token_unfold, get_public_key_unfold.
    rewrite (get_jwks_cached net p d Hc), Hkeys.
    by rewrite (find_key_absent keys (header t1) kid1).
  - rewrite verify_token_unfold, get_public_key_unfold.
    rewrite (get_jwks_cached net p d Hc), Hkeys, Hfind.
    by rewrite decode_bad_signature.
  - repeat split. discriminate.
Qed.

Lemma key_not_found_and_bad_signature_differ_witness :
  ∃ e1 e2,
    verify_token Examples.net_up 1000
      (Compact (Examples.token "k2" 7 None)) Examples.warm
    = (Raise e1, Examples.warm)
    ∧ verify_token Examples.net_up 1000
        (Compact (Examples.token "k1" 8 None)) Examples.warm
      = (Raise e2, Examples.warm)
    ∧ status (error_response e1) = HTTP_401_UNAUTHORIZED
    ∧ status (error_response e2) = HTTP_401_UNAUTHORIZED
    ∧ body (error_response e1) = "Public key not found"
    ∧ body (error_response e2) = "Signature verification failed"
    ∧ error_response e1 ≠ error_response e2.
Proof.
  apply (key_not_found_and_bad_signature_differ Examples.net_up 1000
           Examples.warm Examples.doc1 [Examples.k1]
           (Examples.token "k2" 7 None) "k2"
           (Examples.token "k1" 8 None) 7%N).
  - reflexivity.
  - reflexivity.
  - repeat constructor. by exists "k1".
  - reflexivity.
  - unfold kid_absent. cbn. rewrite not_elem_of_cons.
    split; [discriminate | apply not_elem_of_nil].
  - reflexivity.
  - reflexivity.
  - discriminate.
Defined.

(** C8, as the claim states it, fails: a token that is well formed, is
    signed with the key that its header names, and whose expiry lies in
    the future is refused with a 401 when its not-before claim lies in the
    future as well. *)
Lemma future_not_before_counterexample :
  let t := Examples.postdated in
  find_key [Examples.k1] (header t) = Return (signer t)
  ∧ hdr_alg (header t) = "RS256"
  ∧ exp (payload t) = Some 2000
  ∧ 1000 < 2000
  ∧ verify_token Examples.net_up 1000 (Compact t) Examples.warm
    = (Raise (HTTPException HTTP_401_UNAUTHORIZED
                "The token is not yet valid (nbf)"),
       Examples.warm).
Proof. vm_compute. repeat split. Qed.

(** C8 (amended).  A token whose header names a key of the key set, whose
    algorithm is RS256, whose signature was made with that key, whose
    issued-at and not-before claims, where present, are numbers of seconds
    that do not lie in the future and whose expiry claim lies in the
    future is accepted, and [verify_token] returns its payload as it is.
    The audience claim plays no part: the same holds for the token with
    any audience claim put in its place, or with none. *)
Theorem verify_token_returns_claims
    (net : nat -> fetch_outcome) (now : Z) (t : jws)
    (p p' : process) (d : jwks_doc) (keys : list jwk) (key : N) (e : Z) :
  _get_jwks net p = (Return d, p') →
  doc_keys d = Some keys →
  find_key keys (header t) = Return key →
  hdr_alg (header t) = "RS256" →
  signer t = key →
  not_in_future now (iat (payload t)) →
  not_in_future now (nbf (payload t)) →
  exp (payload t) = Some e →
  now < e →
  verify_token net now (Compact t) p = (Return (payload t), p')
  ∧ ∀ a, verify_token net now (Compact (with_aud a t)) p
         = (Return (payload (with_aud a t)), p').
Proof.
  intros Hj Hkeys Hfind Halg Hs Hi Hn He Hlt. split; [|intros a].
  - rewrite verify_token_unfold, get_public_key_unfold, Hj, Hkeys, Hfind.
    by rewrite (decode_valid now t key e).
  - rewrite verify_token_unfold, get_public_key_unfold, Hj, Hkeys.
    change (header (with_aud a t)) with (header t). rewrite Hfind.
    by rewrite (decode_valid now (with_aud a t) key e).
Qed.

Lemma verify_token_returns_claims_witness :
  verify_token Examples.net_up 1000
    (Compact (Examples.token "k1" 7 (Some "sub-123"))) Examples.cold
  = (Return (Examples.claims_of (Some "sub-123")), Examples.warm)
  ∧ ∀ a, verify_token Examples.net_up 1000
           (Compact (with_aud a (Examples.token "k1" 7 (Some "sub-123"))))
           Examples.cold
         = (Return (payload (with_aud a (Examples.token "k1" 7
                                            (Some "sub-123")))),
            Examples.warm).
Proof.
  apply (verify_token_returns_claims Examples.net_up 1000
           (Examples.token "k1" 7 (Some "sub-123"))
           Examples.cold Examples.warm Examples.doc1 [Examples.k1] 7%N 2000);
    first [reflexivity | simpl; lia].
Defined.

(** ** The tenant context *)

Lemma store_autobegin s : store (autobegin s) = store s.
Proof. unfold autobegin. by destruct (tx (conn s)). Qed.

Lemma store_execute st s : store (execute st s) = store s.
Proof. unfold execute. simpl. apply store_autobegin. Qed.

Lemma log_execute st s :
  log (execute st s)
  = (log s ++ [ {| ev_tx := current_tx (conn (autobegin s));
                   ev_stmt := st;
                   ev_marker := current_setting marker (conn (autobegin s)) |} ])%list.
Proof. unfold execute. simpl. f_equal. unfold autobegin. by destruct (tx (conn s)). Qed.

Lemma pending_execute st s : pending (execute st s) = pending s.
Proof. unfold execute, autobegin. simpl. by destruct (tx (conn s)). Qed.

(** [get_tenant_db] by the number of rows that the lookup selects. *)
Lemma get_tenant_db_unfold cs s :
  get_tenant_db cs s
  = let s1 := execute (Data (Select User.tablename)) s in
    match rows_of_subject (sub cs) (store s) with
    | [] => (Raise not_provisioned, s1)
    | [user] =>
        (Raise set_local_refused,
         execute (SetLocal marker (Bound (uuid_str (User.company_id user))))
           s1)
    | _ => (Raise MultipleResultsFound, s1)
    end.
Proof.
  unfold get_tenant_db, bind, lift, raise, ret, execute_set_local, refused,
    select_users_where_cognito_sub, rows_of_subject.
  rewrite store_execute.
  destruct (filter _ (users (store s))) as [|u [|u' rows]]; reflexivity.
Qed.

Lemma rows_of_subject_none d : rows_of_subject None d = [].
Proof.
  unfold rows_of_subject.
  induction (users d) as [|u l IH]; [done|].
  rewrite filter_cons_False; [exact IH | discriminate].
Qed.

Lemma rows_of_subject_no_match sub d :
  Forall (fun u => Some (User.cognito_sub u) ≠ sub) (users d) →
  rows_of_subject sub d = [].
Proof.
  unfold rows_of_subject. intros H.
  induction H as [|u l Hu _ IH]; [done|].
  by rewrite filter_cons_False.
Qed.

(** The lookup alone, on a session that [get_db] has just opened on a
    connection at rest, and the closing of that session. *)
Lemma lookup_then_close d c :
  at_rest c →
  let s1 := execute (Data (Select User.tablename)) (get_db d c) in
  log s1 = [lookup_event (begun c)]
  ∧ close s1 = (d, {| guc := guc c; begun := S (begun c); tx := None |}).
Proof.
  intros [Htx Hguc]. unfold get_db, open_session, execute, autobegin, close,
    rollback, end_tx, lookup_event, current_tx, current_setting. simpl.
  rewrite Htx. simpl. rewrite lookup_empty, Hguc. done.
Qed.

(** A request whose token is accepted but whose subject selects no row. *)
Lemma tenant_route_no_row net now credentials handler p p1 cs d c :
  at_rest c →
  verify_token net now credentials p = (Return cs, p1) →
  rows_of_subject (sub cs) d = [] →
  tenant_route net now credentials handler p d c
  = {| outcome := Raise not_provisioned; proc_after := p1; db_after := d;
       conn_after := {| guc := guc c; begun := S (begun c); tx := None |};
       trace := [lookup_event (begun c)] |}.
Proof.
  intros Hrest Hv Hrows. unfold tenant_route. rewrite Hv.
  rewrite get_tenant_db_unfold. cbn zeta.
  change (store (get_db d c)) with d. rewrite Hrows.
  destruct (lookup_then_close d c Hrest) as [Hlog Hclose].
  unfold finish. rewrite Hclose, Hlog. reflexivity.
Qed.

(** [jwt.decode] does not look at the subject claim. *)
Lemma decode_with_sub now t key algorithms verify_aud x :
  decode now (Compact (with_sub x t)) key algorithms verify_aud
  = match decode now (Compact t) key algorithms verify_aud with
    | Return _ => Return (payload (with_sub x t))
    | Raise e => Raise e
    end.
Proof.
  unfold decode. cbn [with_sub header payload signer].
  destruct (verify_signature _ _ _ _); [|reflexivity].
  unfold validate_claims. cbn [exp aud iat nbf].
  repeat match goal with |- context [if ?b then _ else _] => destruct b end;
    reflexivity.
Qed.

Lemma verify_token_with_sub net now t p p1 x :
  verify_token net now (Compact t) p = (Return (payload t), p1) →
  verify_token net now (Compact (with_sub x t)) p
  = (Return (payload (with_sub x t)), p1).
Proof.
  rewrite !verify_token_unfold, !get_public_key_unfold.
  change (header (with_sub x t)) with (header t).
  destruct (_get_jwks net p) as [[jwks|e] p']; [|discriminate].
  destruct (match doc_keys jwks with
            | Some keys => find_key keys (header t)
            | None => Raise (KeyError "keys")
            end) as [key|e]; [|discriminate].
  rewrite decode_with_sub.
  destruct (decode now (Compact t) key ["RS256"] false); [|discriminate].
  intros H. by simplify_eq.
Qed.

(** C3.  When the token is accepted and no row of [users] has the claim
    set's subject as its [cognito_sub], [get_tenant_db] raises the 401
    after its lookup, on any session over those tables; the request ends
    with that 401, the tables are as they were (no row is created), and
    the lookup is the only statement the request ran: there is no
    [SET LOCAL] of the marker, and the connection goes back without one. *)
Theorem unprovisioned_subject_is_rejected
    (net : nat -> fetch_outcome) (now : Z) (credentials : bearer)
    (handler : list handler_op) (p p1 : process) (cs : claim_set)
    (d : database) (c : connection) :
  at_rest c →
  verify_token net now credentials p = (Return cs, p1) →
  Forall (fun u => Some (User.cognito_sub u) ≠ sub cs) (users d) →
  let r := tenant_route net now credentials handler p d c in
  (∀ s, store s = d →
        get_tenant_db cs s
        = (Raise (HTTPException HTTP_401_UNAUTHORIZED
                    "User not provisioned. Contact your administrator."),
           execute (Data (Select User.tablename)) s))
  ∧ outcome r = Raise (HTTPException HTTP_401_UNAUTHORIZED
                         "User not provisioned. Contact your administrator.")
  ∧ db_after r = d
  ∧ trace r = [lookup_event (begun c)]
  ∧ Forall (fun ev => ∀ v, ev_stmt ev ≠ SetLocal marker v) (trace r)
  ∧ tx (conn_after r) = None
  ∧ current_setting marker (conn_after r) = None.
Proof.
  intros Hrest Hv Hnone r.
  pose proof (rows_of_subject_no_match _ _ Hnone) as Hrows.
  split.
  { intros s Hs. rewrite get_tenant_db_unfold, Hs, Hrows. reflexivity. }
  subst r. rewrite (tenant_route_no_row _ _ _ _ _ _ _ _ _ Hrest Hv Hrows).
  cbn [outcome db_after trace conn_after].
  repeat split.
  - repeat constructor. intros v. discriminate.
  - unfold current_setting. simpl. apply Hrest.
Qed.

Lemma unprovisioned_subject_is_rejected_witness :
  let r := tenant_route Examples.net_up 1000
             (Compact (Examples.token "k1" 7 (Some "sub-999")))
             [Exec (Select Role.tablename)]
             Examples.warm Examples.db0 fresh_connection in
  outcome r = Raise (HTTPException HTTP_401_UNAUTHORIZED
                       "User not provisioned. Contact your administrator.")
  ∧ db_after r = Examples.db0
  ∧ trace r = [lookup_event 0]
  ∧ Forall (fun ev => ∀ v, ev_stmt ev ≠ SetLocal marker v) (trace r)
  ∧ tx (conn_after r) = None
  ∧ current_setting marker (conn_after r) = None.
Proof.
  refine (proj2 (unprovisioned_subject_is_rejected Examples.net_up 1000
                   (Compact (Examples.token "k1" 7 (Some "sub-999")))
                   [Exec (Select Role.tablename)]
                   Examples.warm Examples.warm
                   (Examples.claims_of (Some "sub-999"))
                   Examples.db0 fresh_connection _ _ _)).
  - split; reflexivity.
  - reflexivity.
  - repeat constructor; discriminate.
Defined.

(** C9.  When the token is accepted and the claim set has no subject
    claim, [get_tenant_db] does not crash: its lookup selects no row on any
    session, so it raises the 401, a handled error; the request ends with
    that 401, the tables are unchanged, the lookup is the only statement
    that ran, and no marker is set.  [verify_token] does not look at the
    subject: an accepted token is accepted all the same with its subject
    claim removed, and the claim set comes back without one. *)
Theorem missing_subject_is_rejected
    (net : nat -> fetch_outcome) (now : Z) (credentials : bearer)
    (handler : list handler_op) (p p1 : process) (cs : claim_set)
    (d : database) (c : connection) :
  at_rest c →
  verify_token net now credentials p = (Return cs, p1) →
  sub cs = None →
  let r := tenant_route net now credentials handler p d c in
  (∀ s, get_tenant_db cs s
        = (Raise (HTTPException HTTP_401_UNAUTHORIZED
                    "User not provisioned. Contact your administrator."),
           execute (Data (Select User.tablename)) s))
  ∧ outcome r = Raise (HTTPException HTTP_401_UNAUTHORIZED
                         "User not provisioned. Contact your administrator.")
  ∧ (∀ e, outcome r = Raise e → handled e = true)
  ∧ db_after r = d
  ∧ trace r = [lookup_event (begun c)]
  ∧ tx (conn_after r) = None
  ∧ current_setting marker (conn_after r) = None
  ∧ (∀ t p0 p0',
       verify_token net now (Compact t) p0 = (Return (payload t), p0') →
       verify_token net now (Compact (with_sub None t)) p0
       = (Return (payload (with_sub None t)), p0')
       ∧ sub (payload (with_sub None t)) = None).
Proof.
  intros Hrest Hv Hsub r.
  split.
  { intros s. rewrite get_tenant_db_unfold, Hsub, rows_of_subject_none.
    reflexivity. }
  pose proof (rows_of_subject_none d) as Hrows. rewrite <- Hsub in Hrows.
  subst r. rewrite (tenant_route_no_row _ _ _ _ _ _ _ _ _ Hrest Hv Hrows).
  cbn [outcome db_after trace conn_after].
  repeat split.
  - intros e He. by simplify_eq.
  - unfold current_setting. simpl. apply Hrest.
  - by apply verify_token_with_sub.
Qed.

Lemma missing_subject_is_rejected_witness :
  let r := tenant_route Examples.net_up 1000
             (Compact (Examples.token "k1" 7 None)) []
             Examples.warm Examples.db0 fresh_connection in
  outcome r = Raise (HTTPException HTTP_401_UNAUTHORIZED
                       "User not provisioned. Contact your administrator.")
  ∧ (∀ e, outcome r = Raise e → handled e = true)
  ∧ db_after r = Examples.db0
  ∧ trace r = [lookup_event 0]
  ∧ tx (conn_after r) = None
  ∧ current_setting marker (conn_after r) = None.
Proof.
  destruct (missing_subject_is_rejected Examples.net_up 1000
              (Compact (Examples.token "k1" 7 None)) []
              Examples.warm Examples.warm (Examples.claims_of None)
              Examples.db0 fresh_connection)
    as (_ & Hout & Hhandled & Hdb & Htrace & Htx & Hmarker & _).
  - split; reflexivity.
  - reflexivity.
  - reflexivity.
  - by repeat split.
Defined.

(** The lookup and the [SET LOCAL] that follows it, on a session that
    [get_db] has just opened on a connection at rest, and the closing of
    that session. *)
Lemma set_local_then_close d c cid :
  at_rest c →
  let s2 := execute (SetLocal marker (Bound cid))
              (execute (Data (Select User.tablename)) (get_db d c)) in
  log s2 = [lookup_event (begun c); set_local_event (begun c) cid]
  ∧ close s2 = (d, {| guc := guc c; begun := S (begun c); tx := None |}).
Proof.
  intros [Htx Hguc]. unfold get_db, open_session, execute, autobegin, close,
    rollback, end_tx, lookup_event, set_local_event, current_tx,
    current_setting. simpl.
  rewrite Htx. simpl. rewrite lookup_empty, Hguc. done.
Qed.

(** A request of a provisioned user, on a connection at rest. *)
Lemma tenant_route_of_provisioned
    net now credentials handler p p1 cs d c user :
  at_rest c →
  verify_token net now credentials p = (Return cs, p1) →
  rows_of_subject (sub cs) d = [user] →
  tenant_route net now credentials handler p d c
  = {| outcome := Raise set_local_refused; proc_after := p1; db_after := d;
       conn_after := {| guc := guc c; begun := S (begun c); tx := None |};
       trace := [lookup_event (begun c);
                 set_local_event (begun c)
                   (uuid_str (User.company_id user))] |}.
Proof.
  intros Hrest Hv Hrows. unfold tenant_route. rewrite Hv.
  rewrite get_tenant_db_unfold. cbn zeta.
  change (store (get_db d c)) with d. rewrite Hrows.
  destruct (set_local_then_close d c (uuid_str (User.company_id user)) Hrest)
    as [Hlog Hclose].
  unfold finish. rewrite Hclose, Hlog. reflexivity.
Qed.

(** A request whose subject selects more than one row. *)
Lemma tenant_route_many_rows net now credentials handler p p1 cs d c u u' rows :
  at_rest c →
  verify_token net now credentials p = (Return cs, p1) →
  rows_of_subject (sub cs) d = u :: u' :: rows →
  tenant_route net now credentials handler p d c
  = {| outcome := Raise MultipleResultsFound; proc_after := p1; db_after := d;
       conn_after := {| guc := guc c; begun := S (begun c); tx := None |};
       trace := [lookup_event (begun c)] |}.
Proof.
  intros Hrest Hv Hrows. unfold tenant_route. rewrite Hv.
  rewrite get_tenant_db_unfold. cbn zeta.
  change (store (get_db d c)) with d. rewrite Hrows.
  destruct (lookup_then_close d c Hrest) as [Hlog Hclose].
  unfold finish. rewrite Hclose, Hlog. reflexivity.
Qed.








(** ** The superadmin gate *)

Lemma resolve_unfold cs s :
  resolve cs s
  = let s1 := execute (Data (Select User.tablename)) s in
    match rows_of_subject (sub cs) (store s) with
    | [] => (Raise not_provisioned, s1)
    | [user] => (Return user, s1)
    | _ => (Raise MultipleResultsFound, s1)
    end.
Proof.
  unfold resolve, bind, lift, raise, ret, select_users_where_cognito_sub,
    rows_of_subject.
  rewrite store_execute.
  destruct (filter _ (users (store s))) as [|u [|u' rows]]; reflexivity.
Qed.

(** The dependencies of an admin route, once the token is accepted. *)
Lemma admin_dependencies_unfold net now credentials p p1 cs d c :
  verify_token net now credentials p = (Return cs, p1) →
  admin_dependencies net now credentials p d c
  = let s1 := execute (Data (Select User.tablename)) (get_db d c) in
    match rows_of_subject (sub cs) d with
    | [] => Rejected not_provisioned p1 (fst (close s1)) (snd (close s1))
    | [user] =>
        match require_superadmin user with
        | Return _ => Passed p1 s1
        | Raise e => Rejected e p1 (fst (close s1)) (snd (close s1))
        end
    | _ => Rejected MultipleResultsFound p1 (fst (close s1)) (snd (close s1))
    end.
Proof.
  intros Hv. unfold admin_dependencies. rewrite Hv.
  unfold bind at 1. rewrite resolve_unfold. cbn zeta.
  change (store (get_db d c)) with d.
  destruct (rows_of_subject (sub cs) d) as [|u [|u' rows]]; reflexivity.
Qed.

(** C2.  [require_superadmin] returns unit for a user whose superadmin flag
    is set and fails with 403 for one whose flag is not.  On an admin route
    it is evaluated only after the token is accepted and the subject is
    resolved to exactly one user row: a request reaches the handler only
    when all three hold; when the token is refused the request ends with
    that refusal, and when the subject has no row it ends with 401, in both
    cases whatever the handler is, and the tables are untouched. *)
Theorem admin_routes_require_superadmin :
  (∀ user, User.is_superadmin user = true →
           require_superadmin user = Return tt)
  ∧ (∀ user, User.is_superadmin user = false →
             ∃ detail, require_superadmin user
                       = Raise (HTTPException HTTP_403_FORBIDDEN detail))
  ∧ (∀ net now credentials p d c p1 s1,
       admin_dependencies net now credentials p d c = Passed p1 s1 →
       ∃ cs user,
         verify_token net now credentials p = (Return cs, p1)
         ∧ rows_of_subject (sub cs) d = [user]
         ∧ User.is_superadmin user = true)
  ∧ (∀ A net now credentials (handler : prog session A) p d c e p1,
       verify_token net now credentials p = (Raise e, p1) →
       admin_route net now credentials handler p d c = (Raise e, p1, d, c))
  ∧ (∀ A net now credentials (handler : prog session A) p d c cs p1,
       at_rest c →
       verify_token net now credentials p = (Return cs, p1) →
       rows_of_subject (sub cs) d = [] →
       ∃ c1, admin_route net now credentials handler p d c
             = (Raise (HTTPException HTTP_401_UNAUTHORIZED
                         "User not provisioned. Contact your administrator."),
                p1, d, c1)
             ∧ at_rest c1)
  ∧ (∀ A net now credentials (handler : prog session A) p d c cs p1 user,
       at_rest c →
       verify_token net now credentials p = (Return cs, p1) →
       rows_of_subject (sub cs) d = [user] →
       User.is_superadmin user = false →
       ∃ detail c1, admin_route net now credentials handler p d c
                    = (Raise (HTTPException HTTP_403_FORBIDDEN detail),
                       p1, d, c1)
                    ∧ at_rest c1).
Proof.
  split; [|split; [|split; [|split; [|split]]]].
  - intros user Hflag. unfold require_superadmin. by rewrite Hflag.
  - intros user Hflag. unfold require_superadmin. rewrite Hflag. by eexists.
  - intros net now credentials p d c p1 s1 Hadm.
    destruct (verify_token net now credentials p) as [[cs|e] p2] eqn:Hv.
    + rewrite (admin_dependencies_unfold _ _ _ _ _ _ _ _ Hv) in Hadm.
      cbn zeta in Hadm.
      destruct (rows_of_subject (sub cs) d) as [|u [|u' rows]] eqn:Hrows;
        try discriminate.
      unfold require_superadmin in Hadm.
      destruct (User.is_superadmin u) eqn:Hflag; [|discriminate].
      exists cs, u. by simplify_eq.
    + unfold admin_dependencies in Hadm. rewrite Hv in Hadm. discriminate.
  - intros A net now credentials handler p d c e p1 Hv.
    unfold admin_route, admin_dependencies. by rewrite Hv.
  - intros A net now credentials handler p d c cs p1 Hrest Hv Hrows.
    unfold admin_route.
    rewrite (admin_dependencies_unfold _ _ _ _ _ _ _ _ Hv). cbn zeta.
    rewrite Hrows.
    destruct (lookup_then_close d c Hrest) as [_ ->]. simpl.
    eexists. split; [reflexivity|]. split; [done|apply Hrest].
  - intros A net now credentials handler p d c cs p1 user Hrest Hv Hrows Hflag.
    unfold admin_route.
    rewrite (admin_dependencies_unfold _ _ _ _ _ _ _ _ Hv). cbn zeta.
    rewrite Hrows. unfold require_superadmin. rewrite Hflag.
    destruct (lookup_then_close d c Hrest) as [_ ->]. simpl.
    do 2 eexists. split; [reflexivity|]. split; [done|apply Hrest].
Qed.

Lemma admin_routes_require_superadmin_witness :
  require_superadmin Examples.root = Return tt
  ∧ (∃ detail, require_superadmin Examples.alice
               = Raise (HTTPException HTTP_403_FORBIDDEN detail))
  ∧ (∃ detail c1,
       admin_route Examples.net_up 1000
         (Compact (Examples.token "k1" 7 (Some "sub-123")))
         (provision_user (fun _ => PoolUser) 22%N 10%N
            {| cognito_sub := "sub-777"; email := "new@acme.example" |})
         Examples.warm Examples.db0 fresh_connection
       = (Raise (HTTPException HTTP_403_FORBIDDEN detail),
          Examples.warm, Examples.db0, c1)
       ∧ at_rest c1).
Proof.
  destruct admin_routes_require_superadmin
    as (Hpass & Hfail & _ & _ & _ & Hforbidden).
  split; [|split].
  - apply Hpass. reflexivity.
  - apply Hfail. reflexivity.
  - apply (Hforbidden _ Examples.net_up 1000 _ _ Examples.warm Examples.db0
             fresh_connection (Examples.claims_of (Some "sub-123"))
             Examples.warm Examples.alice).
    + split; reflexivity.
    + reflexivity.
    + reflexivity.
    + reflexivity.
Defined.

(** ** The permission model *)

(** A grant path: the three joined rows. *)
Lemma hasPermission_path d u c name :
  hasPermission d u c name = true
  ↔ ∃ ur rp perm,
      ur ∈ user_roles d ∧ rp ∈ role_permissions d ∧ perm ∈ permissions d
      ∧ UserRole.user_id ur = u
      ∧ UserRole.company_id ur = c
      ∧ RolePermission.role_id rp = UserRole.role_id ur
      ∧ Permission.id perm = RolePermission.permission_id rp
      ∧ Permission.name perm = name.
Proof.
  unfold hasPermission. rewrite existsb_exists. split.
  - intros (ur & Hur & H).
    rewrite !andb_true_iff, !bool_decide_eq_true, existsb_exists in H.
    destruct H as [[Hu Hc] (rp & Hrp & H)].
    rewrite andb_true_iff, bool_decide_eq_true, existsb_exists in H.
    destruct H as [Hrole (perm & Hperm & H)].
    rewrite andb_true_iff, !bool_decide_eq_true in H.
    destruct H as [Hid Hname].
    exists ur, rp, perm. rewrite !list_elem_of_In. done.
  - intros (ur & rp & perm & Hur & Hrp & Hperm & Hu & Hc & Hrole & Hid & Hname).
    apply list_elem_of_In in Hur. apply list_elem_of_In in Hrp.
    apply list_elem_of_In in Hperm.
    exists ur. split; [done|].
    rewrite !andb_true_iff, !bool_decide_eq_true, existsb_exists.
    split; [done|]. exists rp. split; [done|].
    rewrite andb_true_iff, bool_decide_eq_true, existsb_exists.
    split; [done|]. exists perm. split; [done|].
    by rewrite andb_true_iff, !bool_decide_eq_true.
Qed.

Lemma grant_role_permission_rows rp d d1 :
  grant_role_permission rp d = Return d1 →
  role_permissions d1 = (role_permissions d ++ [rp])%list
  ∧ user_roles d1 = user_roles d ∧ permissions d1 = permissions d.
Proof.
  unfold grant_role_permission. case_bool_decide; [discriminate|].
  intros Hd. by simplify_eq.
Qed.

Lemma grant_user_role_rows ur d d1 :
  grant_user_role ur d = Return d1 →
  user_roles d1 = (user_roles d ++ [ur])%list
  ∧ role_permissions d1 = role_permissions d ∧ permissions d1 = permissions d.
Proof.
  unfold grant_user_role. case_bool_decide; [discriminate|].
  intros Hd. by simplify_eq.
Qed.

(** C7.  [hasPermission] is true exactly when the three joined rows exist:
    a [UserRole] of the user within the company, a [RolePermission] of that
    role, and the [Permission] of that name.  From a state in which it is
    false, granting the [RolePermission] and then the [UserRole] that
    completes such a path makes it true; revoking either of the two from
    there makes it false again. *)
Theorem hasPermission_is_the_join_and_monotone :
  (∀ d u c name,
     hasPermission d u c name = true
     ↔ ∃ ur rp perm,
         ur ∈ user_roles d ∧ rp ∈ role_permissions d ∧ perm ∈ permissions d
         ∧ UserRole.user_id ur = u
         ∧ UserRole.company_id ur = c
         ∧ RolePermission.role_id rp = UserRole.role_id ur
         ∧ Permission.id perm = RolePermission.permission_id rp
         ∧ Permission.name perm = name)
  ∧ (∀ d d1 d2 perm rp ur,
       permission_names_unique d →
       perm ∈ permissions d →
       RolePermission.permission_id rp = Permission.id perm →
       RolePermission.role_id rp = UserRole.role_id ur →
       let u := UserRole.user_id ur in
       let c := UserRole.company_id ur in
       let name := Permission.name perm in
       hasPermission d u c name = false →
       grant_role_permission rp d = Return d1 →
       grant_user_role ur d1 = Return d2 →
       hasPermission d2 u c name = true
       ∧ hasPermission
           (revoke_role_permission (RolePermission.role_id rp)
              (RolePermission.permission_id rp) d2) u c name = false
       ∧ hasPermission
           (revoke_user_role (UserRole.user_id ur) (UserRole.role_id ur) d2)
           u c name = false).
Proof.
  split; [exact hasPermission_path|].
  intros d d1 d2 perm rp ur Huniq Hperm Hpid Hrole u c name Hfalse Hg1 Hg2.
  subst u c name.
  destruct (grant_role_permission_rows _ _ _ Hg1) as (Hrp1 & Hur1 & Hp1).
  destruct (grant_user_role_rows _ _ _ Hg2) as (Hur2 & Hrp2 & Hp2).
  rewrite Hur1 in Hur2. rewrite Hrp1 in Hrp2. rewrite Hp1 in Hp2.
  assert (Hno : ¬ ∃ ur' rp' perm',
             ur' ∈ user_roles d ∧ rp' ∈ role_permissions d
             ∧ perm' ∈ permissions d
             ∧ UserRole.user_id ur' = UserRole.user_id ur
             ∧ UserRole.company_id ur' = UserRole.company_id ur
             ∧ RolePermission.role_id rp' = UserRole.role_id ur'
             ∧ Permission.id perm' = RolePermission.permission_id rp'
             ∧ Permission.name perm' = Permission.name perm).
  { rewrite <- hasPermission_path. by rewrite Hfalse. }
  split; [|split].
  - apply hasPermission_path. exists ur, rp, perm.
    rewrite Hur2, Hrp2, Hp2, !elem_of_app, !list_elem_of_singleton.
    repeat split; auto.
  - apply not_true_is_false. rewrite hasPermission_path.
    intros (ur' & rp' & perm' & Hur' & Hrp' & Hperm'
            & Hu' & Hc' & Hrole' & Hid' & Hname').
    unfold revoke_role_permission in Hur', Hrp', Hperm'. simpl in *.
    rewrite Hp2 in Hperm'. rewrite Hur2 in Hur'.
    rewrite Hrp2, list_elem_of_filter, elem_of_app,
      list_elem_of_singleton in Hrp'.
    destruct Hrp' as [Hkept Hrp'].
    assert (perm' = perm) as -> by (by apply Huniq).
    assert (rp' ∈ role_permissions d) as Hin.
    { destruct Hrp' as [?| ->]; [done|]. exfalso. by apply Hkept. }
    rewrite elem_of_app, list_elem_of_singleton in Hur'.
    destruct Hur' as [Hur'| ->].
    + apply Hno. by exists ur', rp', perm.
    + apply Hkept. split; congruence.
  - apply not_true_is_false. rewrite hasPermission_path.
    intros (ur' & rp' & perm' & Hur' & Hrp' & Hperm'
            & Hu' & Hc' & Hrole' & Hid' & Hname').
    unfold revoke_user_role in Hur', Hrp', Hperm'. simpl in *.
    rewrite Hp2 in Hperm'. rewrite Hrp2 in Hrp'.
    rewrite Hur2, list_elem_of_filter, elem_of_app,
      list_elem_of_singleton in Hur'.
    destruct Hur' as [Hkept Hur'].
    assert (ur' ∈ user_roles d) as Hin.
    { destruct Hur' as [?| ->]; [done|]. exfalso. by apply Hkept. }
    rewrite elem_of_app, list_elem_of_singleton in Hrp'.
    destruct Hrp' as [Hrp'| ->].
    + apply Hno. by exists ur', rp', perm'.
    + apply Hkept. split; congruence.
Qed.

Lemma hasPermission_is_the_join_and_monotone_witness :
  let d1 := with_role_permissions [Examples.grant_rp] Examples.db0 in
  let d2 := with_user_roles [Examples.grant_ur] d1 in
  hasPermission Examples.db0 20%N 10%N "settings:read" = false
  ∧ hasPermission d2 20%N 10%N "settings:read" = true
  ∧ hasPermission (revoke_role_permission 40%N 30%N d2)
      20%N 10%N "settings:read" = false
  ∧ hasPermission (revoke_user_role 20%N 40%N d2)
      20%N 10%N "settings:read" = false.
Proof.
  split; [reflexivity|].
  apply (proj2 hasPermission_is_the_join_and_monotone Examples.db0
           (with_role_permissions [Examples.grant_rp] Examples.db0)
           (with_user_roles [Examples.grant_ur]
              (with_role_permissions [Examples.grant_rp] Examples.db0))
           Examples.read_settings Examples.grant_rp Examples.grant_ur).
  - intros p q Hp Hq _. cbn in Hp, Hq.
    apply list_elem_of_singleton in Hp. apply list_elem_of_singleton in Hq.
    congruence.
  - apply list_elem_of_here.
  - reflexivity.
  - reflexivity.
  - reflexivity.
  - reflexivity.
  - reflexivity.
Defined.

(** ** Provisioning and the superadmin flag *)

Lemma clean_execute st s : clean s → clean (execute st s).
Proof.
  destruct s as [d [g b [t|]] pend lg]; unfold clean, execute, autobegin;
    simpl; intros [Hp Ht]; (split; [done|]); by destruct st as [q|name [v|v]].
Qed.

(** Committing one piece of pending work on an otherwise clean session:
    the work is written and the transaction ends, or the constraint that it
    violates is raised and the tables are as before. *)
Lemma commit_one w s :
  pending s = [w] →
  match tx (conn s) with
  | Some t => at_begin t = store s
  | None => True
  end →
  match apply_work w (store s) with
  | Return d =>
      fst (commit s) = Return tt ∧ store (snd (commit s)) = d
      ∧ clean (snd (commit s))
  | Raise e =>
      fst (commit s) = Raise e ∧ store (snd (commit s)) = store s
  end.
Proof.
  intros Hp Ht. unfold commit, flush. rewrite Hp. cbn [flush_works].
  rewrite store_execute. cbn [store].
  destruct (apply_work w (store s)) as [d|e]; cbn [fst snd store].
  - split; [done|]. split; [done|].
    split; [cbn [pending with_store]; by rewrite pending_execute | done].
  - split; [done|].
    destruct s as [d [g b [t|]] pend lg]; simpl in *;
      by destruct (statement_of w) as [q|name [v|v]].
Qed.

Lemma superadmins_app d l :
  superadmins (with_users (users d ++ l)%list d)
  = (superadmins d ++ filter (fun u => User.is_superadmin u = true) l)%list.
Proof. unfold superadmins. simpl. apply filter_app. Qed.

Lemma insert_user_rows o d d' :
  insert_user o d = Return d' →
  users d' = (users d ++ [User.stored (clock d) o])%list
  ∧ User.new_id o ∉ User.id <$> users d.
Proof.
  unfold insert_user. do 2 (destruct (too_long _ _); [discriminate|]).
  repeat case_bool_decide; try discriminate.
  intros Hd. by simplify_eq.
Qed.

Lemma insert_company_rows o d d' :
  insert_company o d = Return d' → users d' = users d.
Proof.
  unfold insert_company. do 2 (destruct (too_long _ _); [discriminate|]).
  repeat case_bool_decide; try discriminate.
  intros Hd. by simplify_eq.
Qed.

(** The row that [refresh] loads after a successful insert. *)
Lemma filter_id_fresh (l : list User.t) (u : User.t) :
  User.id u ∉ User.id <$> l →
  filter (fun x => User.id x = User.id u) (l ++ [u])%list = [u].
Proof.
  intros Hfresh. rewrite filter_app.
  assert (filter (fun x => User.id x = User.id u) l = []) as ->.
  { induction l as [|x l IH]; [done|].
    rewrite fmap_cons, not_elem_of_cons in Hfresh.
    destruct Hfresh as [Hne Hl].
    rewrite filter_cons_False by congruence. by apply IH. }
  simpl. by rewrite filter_cons_True, filter_nil.
Qed.

(** [provision_user] on a clean session. *)
Lemma provision_user_outcome admin_get_user uuid4 company_id body s :
  clean s →
  let r := provision_user admin_get_user uuid4 company_id body s in
  (∀ e, fst r = Raise e → store (snd r) = store s)
  ∧ (∀ user, fst r = Return user →
       user = User.stored (clock (store s))
                {| User.new_id := uuid4;
                   User.new_cognito_sub := cognito_sub body;
                   User.new_email := email body;
                   User.new_company_id := company_id;
                   User.new_is_active := None;
                   User.new_is_superadmin := None |}
       ∧ users (store (snd r)) = (users (store s) ++ [user])%list).
Proof.
  intros Hclean r. subst r.
  unfold provision_user, bind, lift, raise, ret, select_companies_where_id,
    select_users_where_cognito_sub.
  set (s1 := execute (Data (Select Company.tablename)) s).
  assert (Hs1 : store s1 = store s) by apply store_execute.
  assert (Hc1 : clean s1) by by apply clean_execute.
  destruct (scalar_one_or_none _) as [[company|]|e]; cbn [fst snd];
    try (split; [intros; by rewrite ?Hs1| intros; discriminate]).
  destruct (admin_get_user (cognito_sub body)) as [|code].
  2:{ case_bool_decide; cbn [fst snd];
        (split; [intros; by rewrite ?Hs1| intros; discriminate]). }
  set (s2 := execute (Data (Select User.tablename)) s1).
  assert (Hs2 : store s2 = store s) by (unfold s2; by rewrite store_execute).
  assert (Hc2 : clean s2) by by apply clean_execute.
  destruct (scalar_one_or_none _) as [[existing|]|e]; cbn [fst snd];
    try (split; [intros; by rewrite ?Hs2| intros; discriminate]).
  unfold add. cbn [fst snd].
  set (o := {| User.new_id := uuid4 |}).
  set (s3 := {| store := store s2; conn := conn s2;
                pending := (pending s2 ++ [AddUser o])%list;
                log := log s2 |}).
  destruct Hc2 as [Hp2 Ht2].
  assert (Hp3 : pending s3 = [AddUser o]) by (unfold s3; cbn [pending]; by rewrite Hp2).
  pose proof (commit_one (AddUser o) s3 Hp3 Ht2) as Hcommit.
  cbn [apply_work] in Hcommit. change (store s3) with (store s2) in Hcommit.
  destruct (insert_user o (store s2)) as [d'|e] eqn:Hins.
  - destruct Hcommit as (Hr & Hd' & Hclean').
    destruct (commit s3) as [[[]|e] s4]; cbn [fst snd] in *; [|discriminate].
    unfold refresh_user. rewrite store_execute, Hd'.
    destruct (insert_user_rows _ _ _ Hins) as [Hrows Hfresh].
    rewrite Hrows.
    rewrite (filter_id_fresh (users (store s2)) (User.stored _ o)) by done.
    cbn [fst snd]. split; [intros; discriminate|].
    intros user Hu. injection Hu as <-.
    rewrite store_execute, Hd', Hrows, Hs2, !store_autobegin, Hs1. done.
  - destruct Hcommit as (Hr & Hd').
    destruct (commit s3) as [[[]|e'] s4]; cbn [fst snd] in *; [discriminate|].
    split; [|intros; discriminate].
    intros _ _. by rewrite Hd', Hs2.
Qed.

Lemma scalar_one_or_none_some {A} (rows : list A) (x : A) :
  scalar_one_or_none rows = Return (Some x) → rows = [x].
Proof. destruct rows as [|y [|z rows]]; simpl; intros H; by simplify_eq. Qed.

Lemma commit_one_ok w s d :
  pending s = [w] → apply_work w (store s) = Return d →
  fst (commit s) = Return tt
  ∧ store (snd (commit s)) = d
  ∧ tx (conn (snd (commit s))) = None.
Proof.
  intros Hp Hw. unfold commit, flush. rewrite Hp. cbn [flush_works].
  rewrite store_execute. cbn [store]. by rewrite Hw.
Qed.

Lemma commit_one_raises w s e :
  pending s = [w] → apply_work w (store s) = Raise e →
  fst (commit s) = Raise e.
Proof.
  intros Hp Hw. unfold commit, flush. rewrite Hp. cbn [flush_works].
  rewrite store_execute. cbn [store]. by rewrite Hw.
Qed.

(** [create_company] writes no row of [users]. *)
Lemma create_company_users uuid4 body s :
  clean s →
  users (store (snd (create_company uuid4 body s))) = users (store s).
Proof.
  intros Hclean.
  unfold create_company, bind, lift, raise, ret, select_companies_where_slug.
  set (s1 := execute (Data (Select Company.tablename)) s).
  assert (Hs1 : store s1 = store s) by apply store_execute.
  destruct (clean_execute (Data (Select Company.tablename)) s Hclean)
    as [Hp1 Ht1]. fold s1 in Hp1, Ht1.
  destruct (scalar_one_or_none _) as [[existing|]|e]; cbn [fst snd];
    try by rewrite Hs1.
  unfold add. cbn [fst snd].
  set (o := {| Company.new_id := uuid4 |}).
  set (s2 := {| store := store s1; conn := conn s1;
                pending := (pending s1 ++ [AddCompany o])%list;
                log := log s1 |}).
  assert (Hp2 : pending s2 = [AddCompany o])
    by (unfold s2; cbn [pending]; by rewrite Hp1).
  pose proof (commit_one (AddCompany o) s2 Hp2 Ht1) as Hcommit.
  cbn [apply_work] in Hcommit. change (store s2) with (store s1) in Hcommit.
  destruct (insert_company o (store s1)) as [d'|e] eqn:Hins.
  - destruct Hcommit as (Hr & Hd' & _).
    destruct (commit s2) as [[[]|e] s3]; cbn [fst snd] in *; [|discriminate].
    assert (users (store s3) = users (store s)) as Hu.
    { by rewrite Hd', (insert_company_rows _ _ _ Hins), Hs1. }
    unfold refresh_company.
    destruct (filter _ _); cbn [fst snd]; by rewrite store_execute.
  - destruct Hcommit as (Hr & Hd').
    destruct (commit s2) as [[[]|e'] s3]; cbn [fst snd] in *; [discriminate|].
    by rewrite Hd', Hs1.
Qed.

(** [seed] is its two halves, one after the other. *)
Lemma seed_halves uuid4_company uuid4_user cognito_sub email s :
  seed uuid4_company uuid4_user cognito_sub email s
  = match seed_platform uuid4_company s with
    | (Return platform_id, s1) =>
        seed_user uuid4_user platform_id cognito_sub email s1
    | (Raise e, s1) => (Raise e, s1)
    end.
Proof.
  unfold seed, seed_platform, seed_user, bind, lift, ret.
  destruct (select_companies_where_slug PLATFORM_COMPANY_SLUG s)
    as [[rows|e] s1]; [|done].
  destruct (scalar_one_or_none rows) as [[platform|]|e]; [done| |done].
  destruct (add _ s1) as [[[]|e] s2]; [|done].
  by destruct (flush s2) as [[[]|e] s3].
Qed.

Lemma users_untouched_execute st s :
  users_untouched s → users_untouched (execute st s).
Proof.
  destruct s as [d [g b [t|]] pend lg];
    unfold users_untouched, execute, autobegin, set_local; simpl;
    intros [Hp Ht]; (split; [done|]); intros t' Ht';
    destruct st as [q|name [v|v]]; simpl in Ht'; simplify_eq; simpl; auto.
Qed.

Lemma seed_platform_untouched uuid4_company s platform_id s1 :
  users_untouched s →
  seed_platform uuid4_company s = (Return platform_id, s1) →
  users_untouched s1.
Proof.
  intros Hs. unfold seed_platform, bind, lift, ret, add,
    select_companies_where_slug.
  set (s0 := execute (Data (Select Company.tablename)) s).
  pose proof (users_untouched_execute (Data (Select Company.tablename)) s Hs)
    as [Hp0 Ht0]. fold s0 in Hp0, Ht0.
  destruct (scalar_one_or_none _) as [[platform|]|e]; [| |discriminate].
  - intros H. simplify_eq. by split.
  - unfold flush. cbn [pending store conn log]. rewrite Hp0.
    cbn [app flush_works apply_work statement_of].
    set (s2 := execute (Data (Insert Company.tablename)) _).
    destruct (insert_company _ (store s2)) as [d1|e] eqn:Hins; [|discriminate].
    intros H. simplify_eq.
    assert (users_untouched s2) as [Hp2 Ht2].
    { apply users_untouched_execute. by split. }
    split; [done|]. intros t Ht. cbn [with_store conn store] in *.
    rewrite (insert_company_rows _ _ _ Hins). by apply Ht2.
Qed.

Lemma update_is_superadmin_promotes (u : User.t) (d : database) :
  u ∈ users d →
  ∃ u', u' ∈ users (update_is_superadmin (User.id u) true d)
        ∧ User.cognito_sub u' = User.cognito_sub u
        ∧ User.is_superadmin u' = true.
Proof.
  intros Hu. exists (User.with_is_superadmin (clock d) true u).
  split; [|done]. unfold update_is_superadmin. cbn [users with_users].
  apply list_elem_of_fmap. exists u. split; [|done].
  by rewrite bool_decide_eq_true_2.
Qed.

Lemma seed_user_promotes uuid4_user platform_id cognito_sub email s s1 :
  users_untouched s →
  seed_user uuid4_user platform_id cognito_sub email s = (Return tt, s1) →
  ∃ u, u ∈ users (fst (close s1))
       ∧ User.cognito_sub u = cognito_sub
       ∧ User.is_superadmin u = true.
Proof.
  intros Hs. unfold seed_user, bind, lift, ret, add,
    select_users_where_cognito_sub.
  set (s0 := execute (Data (Select User.tablename)) s).
  pose proof (users_untouched_execute (Data (Select User.tablename)) s Hs)
    as [Hp0 Ht0]. fold s0 in Hp0, Ht0.
  destruct (scalar_one_or_none _) as [[existing|]|e] eqn:Hrows;
    [| |discriminate].
  - apply scalar_one_or_none_some in Hrows.
    assert (existing ∈ users (store s0)
            ∧ User.cognito_sub existing = cognito_sub) as [Hin Hsub].
    { assert (existing ∈ filter
                (fun u => Some (User.cognito_sub u) = Some cognito_sub)
                (users (store s0))) as Hf
        by (rewrite Hrows; apply list_elem_of_here).
      apply list_elem_of_filter in Hf as [Heq Hin]. split; congruence. }
    destruct (User.is_superadmin existing) eqn:Hflag.
    + intros H. injection H as <-. exists existing.
      split; [|done]. unfold close, rollback. cbn [fst store].
      destruct (tx (conn s0)) as [t|] eqn:Htx; [|done].
      by rewrite (Ht0 t).
    + cbn [pending store conn log]. rewrite Hp0. cbn [app].
      set (s2 := {| store := store s0 |}).
      destruct (commit_one_ok (SetSuperadmin (User.id existing) true) s2
                  (update_is_superadmin (User.id existing) true (store s0))
                  eq_refl eq_refl) as (Hr & Hd & Hclosed).
      destruct (commit s2) as [r s3]. cbn [fst snd] in *.
      intros H. injection H as _ <-.
      destruct (update_is_superadmin_promotes existing (store s0) Hin)
        as (u' & Hu' & Hsub' & Hflag').
      exists u'. split; [|split; congruence].
      unfold close, rollback. cbn [fst store]. by rewrite Hclosed, Hd.
  - cbn [pending store conn log]. rewrite Hp0. cbn [app].
    set (o := {| User.new_id := uuid4_user |}).
    set (s2 := {| store := store s0 |}).
    destruct (insert_user o (store s0)) as [d1|e] eqn:Hins.
    + destruct (commit_one_ok (AddUser o) s2 d1 eq_refl Hins)
        as (Hr & Hd & Hclosed).
      destruct (commit s2) as [r s3]. cbn [fst snd] in *.
      intros H. injection H as _ <-.
      exists (User.stored (clock (store s0)) o). split; [|done].
      unfold close, rollback. cbn [fst store]. rewrite Hclosed, Hd.
      destruct (insert_user_rows _ _ _ Hins) as [-> _].
      rewrite elem_of_app. right. apply list_elem_of_here.
    + pose proof (commit_one_raises (AddUser o) s2 e eq_refl Hins) as Hr.
      destruct (commit s2) as [r s3]. cbn [fst] in Hr.
      intros H. simplify_eq.
Qed.

(** C10.  On a clean session, a user that [provision_user] returns is the
    one row added to [users], with [is_superadmin = false] and
    [is_active = true], and the rows that have the superadmin flag are the
    same after the call as before it, whether it returns or raises.  The
    other code of the request pipeline writes no row of [users] at all:
    [create_company] leaves the table as it is and [get_tenant_db] leaves
    every table as it is.  The seed script does set the flag: when it ends
    normally, the user with the given subject is a superadmin. *)
Theorem provision_user_never_mints_superadmin :
  (∀ admin_get_user uuid4 company_id body s,
     clean s →
     let r := provision_user admin_get_user uuid4 company_id body s in
     superadmins (store (snd r)) = superadmins (store s)
     ∧ ∀ user, fst r = Return user →
         User.is_superadmin user = false
         ∧ User.is_active user = true
         ∧ users (store (snd r)) = (users (store s) ++ [user])%list)
  ∧ (∀ uuid4 body s,
       clean s →
       users (store (snd (create_company uuid4 body s))) = users (store s))
  ∧ (∀ cs s, store (snd (get_tenant_db cs s)) = store s)
  ∧ (∀ uuid4_company uuid4_user cognito_sub email d c d' c',
       tx c = None →
       run_seed uuid4_company uuid4_user cognito_sub email d c
       = (Return tt, d', c') →
       ∃ u, u ∈ users d'
            ∧ User.cognito_sub u = cognito_sub
            ∧ User.is_superadmin u = true).
Proof.
  split; [|split; [|split]].
  - intros admin_get_user uuid4 company_id body s Hclean r.
    destruct (provision_user_outcome admin_get_user uuid4 company_id body s
                Hclean) as [Hraise Hreturn].
    fold r in Hraise, Hreturn.
    split.
    + destruct (fst r) as [user|e] eqn:Hr.
      * destruct (Hreturn user eq_refl) as [-> Hrows].
        unfold superadmins. rewrite Hrows, filter_app.
        rewrite filter_cons_False by (simpl; discriminate).
        by rewrite filter_nil, app_nil_r.
      * by rewrite (Hraise e eq_refl).
    + intros user Hr. destruct (Hreturn user Hr) as [-> Hrows].
      by repeat split.
  - intros uuid4 body s Hclean. by apply create_company_users.
  - intros cs s. rewrite get_tenant_db_unfold. cbn zeta.
    destruct (rows_of_subject (sub cs) (store s)) as [|u [|u' rows]];
      cbn [snd]; by rewrite !store_execute.
  - intros uuid4_company uuid4_user cognito_sub email d c d' c' Htx.
    unfold run_seed. rewrite seed_halves.
    assert (users_untouched (open_session d c)) as Hopen.
    { split; [done|]. intros t Ht. simpl in Ht. congruence. }
    destruct (seed_platform uuid4_company (open_session d c))
      as [[platform_id|e] s1] eqn:Hplatform.
    + pose proof (seed_platform_untouched _ _ _ _ Hopen Hplatform) as Hs1.
      destruct (seed_user uuid4_user platform_id cognito_sub email s1)
        as [r s2] eqn:Huser.
      intros H. injection H as -> <- _.
      by apply (seed_user_promotes _ _ _ _ _ _ Hs1 Huser).
    + discriminate.
Qed.

Lemma provision_user_never_mints_superadmin_witness :
  let s := open_session Examples.db0 fresh_connection in
  let r := provision_user (fun _ => PoolUser) 22%N 10%N
             {| cognito_sub := "sub-777"; email := "new@acme.example" |} s in
  superadmins (store (snd r)) = superadmins (store s)
  ∧ ∀ user, fst r = Return user →
      User.is_superadmin user = false
      ∧ User.is_active user = true
      ∧ users (store (snd r)) = (users (store s) ++ [user])%list.
Proof.
  apply (proj1 provision_user_never_mints_superadmin).
  split; [reflexivity | exact I].
Defined.

(** * Further properties of the code *)

(** ** Token verification: what an accepted token guarantees *)

Lemma get_jwks_returns net p d p' :
  _get_jwks net p = (Return d, p') →
  jwks_cache p' = Some d
  ∧ ((jwks_cache p = Some d ∧ p' = p)
     ∨ (jwks_cache p = None ∧ net (fetches p) = FetchDoc d
        ∧ fetches p' = S (fetches p))).
Proof.
  unfold _get_jwks, bind, get, put, ret, urlopen_json.
  destruct (jwks_cache p) as [d0|] eqn:Hc.
  - intros H. injection H as <- <-. split; [done|]. by left.
  - destruct (net (fetches p)) as [reason| |d0] eqn:Hn; try discriminate.
    cbn. intros H. injection H as <- <-. split; [done|]. by right.
Qed.

Lemma find_key_returns keys hdr key :
  find_key keys hdr = Return key →
  ∃ entry kid, entry ∈ keys ∧ hdr_kid hdr = Some kid
               ∧ jwk_kid entry = Some kid ∧ jwk_rsa entry = Some key.
Proof.
  induction keys as [|entry keys IH]; [discriminate|].
  cbn [find_key].
  destruct (jwk_kid entry) as [k|] eqn:Hk; [|discriminate].
  destruct (hdr_kid hdr) as [k'|] eqn:Hk'; [|discriminate].
  case_bool_decide as Heq.
  - unfold from_jwk. destruct (jwk_rsa entry) as [n|] eqn:Hn; [|discriminate].
    intros H. injection H as <-. exists entry, k'.
    split; [apply list_elem_of_here|]. by subst.
  - intros H. destruct (IH H) as (e & kid & Hin & Hkid & He & Hrsa).
    exists e, kid. split; [by apply list_elem_of_further|done].
Qed.

Lemma decode_returns now t key cs :
  decode now (Compact t) key ["RS256"] false = Return cs →
  cs = payload t ∧ hdr_alg (header t) = "RS256" ∧ signer t = key
  ∧ ∀ e, exp (payload t) = Some e → now < e.
Proof.
  unfold decode, verify_signature.
  case_bool_decide as Halg; cbn [negb]; [|discriminate].
  destruct (N.eqb_spec (signer t) key) as [Hs|Hs]; cbn [negb]; [|discriminate].
  unfold validate_claims.
  do 4 (match goal with
        | |- (if ?b then _ else _) = _ → _ => destruct b; [discriminate|]
        end).
  destruct (exp (payload t)) as [e|] eqn:He.
  - destruct (Z.leb_spec e now) as [Hle|Hlt]; [discriminate|].
    cbn [andb]. intros Hcs. injection Hcs as <-.
    apply list_elem_of_singleton in Halg.
    repeat split; try done. intros e' He'. by simplify_eq.
  - cbn [andb]. intros Hcs. injection Hcs as <-.
    apply list_elem_of_singleton in Halg. by repeat split.
Qed.

(** A string whose payload is not a JSON object is never decoded. *)
Lemma decode_bad_payload now hdr signed_by msg key algorithms verify_aud :
  ∃ e, decode now (BadPayload hdr signed_by msg) key algorithms verify_aud
       = Raise (InvalidTokenError e).
Proof.
  unfold decode, verify_signature.
  repeat match goal with
         | |- context [if ?b then _ else _] => destruct b
         end; by eexists.
Qed.

(** What an accepted token was. *)
Lemma verify_token_returns_inv net now credentials p p' cs :
  verify_token net now credentials p = (Return cs, p') →
  ∃ t d keys entry kid,
    credentials = Compact t
    ∧ cs = payload t
    ∧ hdr_alg (header t) = "RS256"
    ∧ jwks_cache p' = Some d ∧ doc_keys d = Some keys
    ∧ entry ∈ keys
    ∧ hdr_kid (header t) = Some kid ∧ jwk_kid entry = Some kid
    ∧ jwk_rsa entry = Some (signer t)
    ∧ ∀ e, exp cs = Some e → now < e.
Proof.
  destruct credentials as [msg|hdr signed_by msg|t].
  { unfold verify_token, try_except, bind, _get_public_key, lift. simpl.
    discriminate. }
  { rewrite verify_token_unfold.
    destruct (_get_public_key _ _ _) as [[key|e] p1]; [|discriminate].
    destruct (decode_bad_payload now hdr signed_by msg key ["RS256"] false)
      as [e ->].
    discriminate. }
  rewrite verify_token_unfold, get_public_key_unfold.
  destruct (_get_jwks net p) as [[d|e] p1] eqn:Hj; [|discriminate].
  destruct (doc_keys d) as [keys|] eqn:Hkeys; [|discriminate].
  destruct (find_key keys (header t)) as [key|e] eqn:Hfind; [|discriminate].
  destruct (decode now (Compact t) key ["RS256"] false) as [cs'|e] eqn:Hdec;
    [|discriminate].
  intros H. injection H as <- <-.
  destruct (get_jwks_returns _ _ _ _ Hj) as [Hcache _].
  destruct (find_key_returns _ _ _ Hfind) as (entry & kid & Hin & Hkid & He & Hrsa).
  destruct (decode_returns _ _ _ _ Hdec) as (-> & Halg & Hs & Hexp).
  exists t, d, keys, entry, kid. subst key. by repeat split.
Qed.

(** X1.  If [verify_token] returns a claim set, then the credentials were a
    parsable token whose payload is that claim set, whose algorithm is
    RS256, whose header names a key identifier carried by an RSA entry of
    the key set now in the cache, whose signature was made with that
    entry's key, and whose expiry claim, if it has one, lies in the
    future. *)
Theorem verify_token_accepts_only_valid_tokens
    (net : nat -> fetch_outcome) (now : Z) (credentials : bearer)
    (p p' : process) (cs : claim_set) :
  verify_token net now credentials p = (Return cs, p') →
  ∃ t d keys entry kid,
    credentials = Compact t
    ∧ cs = payload t
    ∧ hdr_alg (header t) = "RS256"
    ∧ jwks_cache p' = Some d ∧ doc_keys d = Some keys
    ∧ entry ∈ keys
    ∧ hdr_kid (header t) = Some kid ∧ jwk_kid entry = Some kid
    ∧ jwk_rsa entry = Some (signer t)
    ∧ ∀ e, exp cs = Some e → now < e.
Proof. apply verify_token_returns_inv. Qed.

Lemma verify_token_accepts_only_valid_tokens_witness :
  ∃ t d keys entry kid,
    Compact (Examples.token "k1" 7 (Some "sub-123")) = Compact t
    ∧ Examples.claims_of (Some "sub-123") = payload t
    ∧ hdr_alg (header t) = "RS256"
    ∧ jwks_cache Examples.warm = Some d ∧ doc_keys d = Some keys
    ∧ entry ∈ keys
    ∧ hdr_kid (header t) = Some kid ∧ jwk_kid entry = Some kid
    ∧ jwk_rsa entry = Some (signer t)
    ∧ ∀ e, exp (Examples.claims_of (Some "sub-123")) = Some e → 1000 < e.
Proof.
  apply (verify_token_accepts_only_valid_tokens Examples.net_up 1000
           (Compact (Examples.token "k1" 7 (Some "sub-123")))
           Examples.cold Examples.warm).
  reflexivity.
Defined.

(** X2.  A token that is otherwise valid (key found, RS256, signature by
    that key, issued-at and not-before claims absent or numbers of seconds
    not in the future) but whose expiry claim is not after the clock is
    refused with 401 "Token expired".  The issued-at and not-before claims
    are looked at first: with one of them in the future the same token is
    refused with the library's message for that claim instead. *)
Theorem expired_token_is_rejected
    (net : nat -> fetch_outcome) (now : Z) (t : jws)
    (p p' : process) (d : jwks_doc) (keys : list jwk) (key : N) (e : Z) :
  _get_jwks net p = (Return d, p') →
  doc_keys d = Some keys →
  find_key keys (header t) = Return key →
  hdr_alg (header t) = "RS256" →
  signer t = key →
  exp (payload t) = Some e →
  e <= now →
  (not_in_future now (iat (payload t)) →
   not_in_future now (nbf (payload t)) →
   verify_token net now (Compact t) p
   = (Raise (HTTPException HTTP_401_UNAUTHORIZED "Token expired"), p'))
  ∧ (∀ i, iat (payload t) = Some (Seconds i) → now < i →
       verify_token net now (Compact t) p
       = (Raise (HTTPException HTTP_401_UNAUTHORIZED
                   "The token is not yet valid (iat)"), p'))
  ∧ (∀ n, not_in_future now (iat (payload t)) →
       nbf (payload t) = Some (Seconds n) → now < n →
       verify_token net now (Compact t) p
       = (Raise (HTTPException HTTP_401_UNAUTHORIZED
                   "The token is not yet valid (nbf)"), p')).
Proof.
  intros Hj Hkeys Hfind Halg Hs He Hle.
  rewrite verify_token_unfold, get_public_key_unfold, Hj, Hkeys, Hfind.
  unfold decode. rewrite Hs, verify_signature_ok by done.
  split; [|split].
  - intros Hi Hn. rewrite validate_claims_timely by done. rewrite He.
    destruct (Z.leb_spec e now); [done|lia].
  - intros i Hi Hlt. unfold validate_claims. rewrite Hi.
    destruct (Z.ltb_spec now i); [done|lia].
  - intros n Hi Hn Hlt. unfold validate_claims. rewrite Hn.
    destruct (iat (payload t)) as [[i|]|]; cbn in Hi |- *; [|done|].
    + destruct (Z.ltb_spec now i); [lia|].
      destruct (Z.ltb_spec now n); [done|lia].
    + destruct (Z.ltb_spec now n); [done|lia].
Qed.

Lemma expired_token_is_rejected_witness :
  verify_token Examples.net_up 2000
    (Compact (Examples.token "k1" 7 (Some "sub-123"))) Examples.warm
  = (Raise (HTTPException HTTP_401_UNAUTHORIZED "Token expired"),
     Examples.warm).
Proof.
  apply (expired_token_is_rejected Examples.net_up 2000
           (Examples.token "k1" 7 (Some "sub-123"))
           Examples.warm Examples.warm Examples.doc1 [Examples.k1] 7%N 2000);
    first [reflexivity | simpl; lia].
Defined.

(** X3.  A token whose header names an algorithm other than RS256 is
    refused with 401 "The specified alg value is not allowed", whatever
    its signature and expiry, once its key is found. *)
Theorem other_algorithm_is_rejected
    (net : nat -> fetch_outcome) (now : Z) (t : jws)
    (p p' : process) (d : jwks_doc) (keys : list jwk) (key : N) :
  _get_jwks net p = (Return d, p') →
  doc_keys d = Some keys →
  find_key keys (header t) = Return key →
  hdr_alg (header t) ≠ "RS256" →
  verify_token net now (Compact t) p
  = (Raise (HTTPException HTTP_401_UNAUTHORIZED
              "The specified alg value is not allowed"), p').
Proof.
  intros Hj Hkeys Hfind Halg.
  rewrite verify_token_unfold, get_public_key_unfold, Hj, Hkeys, Hfind.
  unfold decode, verify_signature. rewrite bool_decide_eq_false_2; [done|].
  by rewrite list_elem_of_singleton.
Qed.

Lemma other_algorithm_is_rejected_witness :
  verify_token Examples.net_up 1000
    (Compact {| header := {| hdr_alg := "HS256"; hdr_kid := Some "k1" |};
                payload := Examples.claims_of (Some "sub-123");
                signer := 7%N |}) Examples.warm
  = (Raise (HTTPException HTTP_401_UNAUTHORIZED
              "The specified alg value is not allowed"), Examples.warm).
Proof.
  apply (other_algorithm_is_rejected Examples.net_up 1000 _
           Examples.warm Examples.warm Examples.doc1 [Examples.k1] 7%N);
    first [reflexivity | discriminate].
Defined.

(** ** Token verification: the cache and the edges *)

Lemma verify_token_garbled net now msg p :
  verify_token net now (Garbled msg) p
  = (Raise (HTTPException HTTP_401_UNAUTHORIZED msg), p).
Proof. reflexivity. Qed.

(** With the key set cached, one verification leaves the process as it
    was, whatever the token. *)
Lemma verify_token_cached_state net now token p d :
  jwks_cache p = Some d → snd (verify_token net now token p) = p.
Proof.
  intros Hc.
  destruct (get_unverified_header token) as [hdr|e] eqn:Hh.
  - rewrite verify_token_unfold, (get_public_key_header net token hdr) by done.
    rewrite (get_jwks_cached net p d Hc).
    destruct (doc_keys d) as [keys|]; [|done].
    destruct (find_key keys hdr) as [key|e]; [|done].
    by destruct (decode now token key ["RS256"] false).
  - destruct token as [msg|hdr signed_by msg|t]; try discriminate.
    by rewrite verify_token_garbled.
Qed.

(** With an empty cache, a string whose header is readable has the key
    set fetched for it, whatever becomes of it afterwards. *)
Lemma verify_token_first_fetch net now token hdr p d :
  get_unverified_header token = Return hdr →
  jwks_cache p = None → net (fetches p) = FetchDoc d →
  snd (verify_token net now token p)
  = {| jwks_cache := Some d; fetches := S (fetches p) |}.
Proof.
  intros Hh Hc Hn.
  rewrite verify_token_unfold, (get_public_key_header net token hdr) by done.
  rewrite (get_jwks_first_fetch net p d Hc Hn).
  destruct (doc_keys d) as [keys|]; [|done].
  destruct (find_key keys hdr) as [key|e]; [|done].
  by destruct (decode now token key ["RS256"] false).
Qed.

(** X4.  Once a key set is in the cache, no later verification fetches
    again or changes the cache: after any run of verifications, over any
    network, the process state (cache and fetch count) is what it was.  A
    rotated key set is therefore never seen by a running process. *)
Theorem cached_key_set_is_never_refetched
    (net : nat -> fetch_outcome) (now : Z) (tokens : list bearer)
    (p : process) (d : jwks_doc) :
  jwks_cache p = Some d →
  snd (verify_all net now tokens p) = p.
Proof.
  intros Hc. induction tokens as [|token tokens IH]; [done|].
  cbn [verify_all].
  pose proof (verify_token_cached_state net now token p d Hc) as Hstep.
  destruct (verify_token net now token p) as [r p1]. cbn [snd] in Hstep.
  subst p1. destruct (verify_all net now tokens p) as [rs p2].
  exact IH.
Qed.

Lemma cached_key_set_is_never_refetched_witness :
  snd (verify_all Examples.net_down 1000
         [Compact (Examples.token "k1" 7 (Some "sub-123"));
          Garbled "Not enough segments";
          Compact (Examples.token "k9" 7 None)]
         Examples.warm)
  = Examples.warm.
Proof.
  apply (cached_key_set_is_never_refetched Examples.net_down 1000 _
           Examples.warm Examples.doc1).
  reflexivity.
Defined.

(** X5.  A credentials string whose segments or header the library
    cannot read is refused with 401 carrying the library's message before
    the key set is looked at: no fetch is made and nothing is cached, even
    when the cache is empty; and a run of such strings leaves an empty
    cache empty.  A string whose header is readable but whose payload is
    not a JSON object is refused later, inside [jwt.decode]: it is never
    accepted, but with an empty cache the key set is fetched and cached for
    it, and when the key is found and the signature verifies the 401
    carries the library's message about the payload. *)
Theorem garbled_token_never_fetches
    (net : nat -> fetch_outcome) (now : Z) (msgs : list string) (p : process) :
  (∀ msg, verify_token net now (Garbled msg) p
          = (Raise (HTTPException HTTP_401_UNAUTHORIZED msg), p))
  ∧ verify_all net now (Garbled <$> msgs) p
    = ((fun msg => Raise (HTTPException HTTP_401_UNAUTHORIZED msg)) <$> msgs,
       p)
  ∧ (∀ hdr signed_by msg,
       (∃ e, fst (verify_token net now (BadPayload hdr signed_by msg) p)
             = Raise e)
       ∧ ∀ d, jwks_cache p = None → net (fetches p) = FetchDoc d →
           snd (verify_token net now (BadPayload hdr signed_by msg) p)
           = {| jwks_cache := Some d; fetches := S (fetches p) |}
           ∧ ∀ keys, doc_keys d = Some keys →
               find_key keys hdr = Return signed_by →
               hdr_alg hdr = "RS256" →
               fst (verify_token net now (BadPayload hdr signed_by msg) p)
               = Raise (HTTPException HTTP_401_UNAUTHORIZED msg)).
Proof.
  split; [intros msg; apply verify_token_garbled|]. split.
  { induction msgs as [|msg msgs IH]; [done|].
    cbn [fmap list_fmap verify_all]. rewrite verify_token_garbled.
    change (list_fmap _ _ Garbled msgs) with (Garbled <$> msgs).
    by rewrite IH. }
  intros hdr signed_by msg. split.
  - rewrite verify_token_unfold.
    destruct (_get_public_key _ _ _) as [[key|e] p1]; [|by eexists].
    destruct (decode_bad_payload now hdr signed_by msg key ["RS256"] false)
      as [e ->].
    by eexists.
  - intros d Hc Hn. split.
    + by apply (verify_token_first_fetch net now _ hdr).
    + intros keys Hkeys Hfind Halg.
      rewrite verify_token_unfold,
        (get_public_key_header net _ hdr) by done.
      rewrite (get_jwks_first_fetch net p d Hc Hn), Hkeys, Hfind.
      cbn [fst decode]. by rewrite verify_signature_ok.
Qed.

Lemma garbled_token_never_fetches_witness :
  let bad := BadPayload {| hdr_alg := "RS256"; hdr_kid := Some "k1" |} 7
               "Invalid payload string: must be a json object" in
  verify_token Examples.net_up 1000 (Garbled "Not enough segments")
    Examples.cold
  = (Raise (HTTPException HTTP_401_UNAUTHORIZED "Not enough segments"),
     Examples.cold)
  ∧ snd (verify_token Examples.net_up 1000 bad Examples.cold) = Examples.warm
  ∧ fst (verify_token Examples.net_up 1000 bad Examples.cold)
    = Raise (HTTPException HTTP_401_UNAUTHORIZED
               "Invalid payload string: must be a json object").
Proof.
  intros bad.
  destruct (garbled_token_never_fetches Examples.net_up 1000 []
              Examples.cold) as (Hgarbled & _ & Hbad).
  split; [apply Hgarbled|].
  destruct (Hbad {| hdr_alg := "RS256"; hdr_kid := Some "k1" |} 7%N
              "Invalid payload string: must be a json object")
    as [_ Hfetch].
  destruct (Hfetch Examples.doc1 eq_refl eq_refl) as [Hstate Hout].
  split; [exact Hstate|].
  by apply (Hout [Examples.k1]).
Defined.

(** X6.  A response of the key-set endpoint that is JSON but has no "keys"
    member is cached like any other: the verification that fetched it
    fails with an unhandled [KeyError], and so does every later
    verification of a parsable token, without another fetch. *)
Theorem key_set_without_keys_is_cached
    (net : nat -> fetch_outcome) (now : Z) (t : jws)
    (p : process) (d : jwks_doc) :
  doc_keys d = None →
  (jwks_cache p = None → net (fetches p) = FetchDoc d →
   verify_token net now (Compact t) p
   = (Raise (KeyError "keys"),
      {| jwks_cache := Some d; fetches := S (fetches p) |}))
  ∧ (jwks_cache p = Some d →
     verify_token net now (Compact t) p = (Raise (KeyError "keys"), p))
  ∧ handled (KeyError "keys") = false.
Proof.
  intros Hkeys. split; [|split; [|done]].
  - intros Hc Hn. rewrite verify_token_unfold, get_public_key_unfold.
    by rewrite (get_jwks_first_fetch net p d Hc Hn), Hkeys.
  - intros Hc. rewrite verify_token_unfold, get_public_key_unfold.
    by rewrite (get_jwks_cached net p d Hc), Hkeys.
Qed.

Lemma key_set_without_keys_is_cached_witness :
  verify_token (fun _ => FetchDoc {| doc_keys := None |}) 1000
    (Compact (Examples.token "k1" 7 None)) Examples.cold
  = (Raise (KeyError "keys"),
     {| jwks_cache := Some {| doc_keys := None |}; fetches := 1 |}).
Proof.
  refine (proj1 (key_set_without_keys_is_cached
                   (fun _ => FetchDoc {| doc_keys := None |}) 1000
                   (Examples.token "k1" 7 None) Examples.cold
                   {| doc_keys := None |} _) _ _); reflexivity.
Defined.

(** X7.  A token whose header has no "kid" is refused with 401 "Public key
    not found" only when the key set is empty; against a key set whose
    first entry has an identifier, [header["kid"]] raises a [KeyError]
    that no [except] clause catches, so the caller gets the generic 500. *)
Theorem token_without_kid
    (net : nat -> fetch_outcome) (now : Z) (t : jws)
    (p : process) (d : jwks_doc) (keys : list jwk) :
  hdr_kid (header t) = None →
  jwks_cache p = Some d →
  doc_keys d = Some keys →
  (keys = [] →
   verify_token net now (Compact t) p
   = (Raise (HTTPException HTTP_401_UNAUTHORIZED "Public key not found"), p))
  ∧ (∀ entry rest, keys = entry :: rest →
       verify_token net now (Compact t) p = (Raise (KeyError "kid"), p)
       ∧ status (error_response (KeyError "kid")) = 500).
Proof.
  intros Hkid Hc Hkeys. split.
  - intros ->. rewrite verify_token_unfold, get_public_key_unfold.
    by rewrite (get_jwks_cached net p d Hc), Hkeys.
  - intros entry rest ->. split; [|done].
    rewrite verify_token_unfold, get_public_key_unfold.
    rewrite (get_jwks_cached net p d Hc), Hkeys. cbn [find_key].
    rewrite Hkid. by destruct (jwk_kid entry).
Qed.

Lemma token_without_kid_witness :
  verify_token Examples.net_up 1000
    (Compact {| header := {| hdr_alg := "RS256"; hdr_kid := None |};
                payload := Examples.claims_of (Some "sub-123");
                signer := 7%N |}) Examples.warm
  = (Raise (KeyError "kid"), Examples.warm)
  ∧ status (error_response (KeyError "kid")) = 500.
Proof.
  refine (proj2 (token_without_kid Examples.net_up 1000 _ Examples.warm
                   Examples.doc1 [Examples.k1] _ _ _) Examples.k1 [] _);
    reflexivity.
Defined.

(** X8.  A failed fetch of the key set is not remembered: when the first
    verification fails because the fetch failed and the next fetch
    succeeds, the second verification of a valid token (signed with the
    key it names, not expired, issued-at and not-before claims absent or
    not in the future) returns its payload, and the key set is cached from
    then on. *)
Theorem key_set_outage_is_recovered
    (net : nat -> fetch_outcome) (now : Z) (t : jws) (p : process)
    (err : exn) (d : jwks_doc) (keys : list jwk) (key : N) (e : Z) :
  jwks_cache p = None →
  fetch_error (net (fetches p)) = Some err →
  net (S (fetches p)) = FetchDoc d →
  doc_keys d = Some keys →
  find_key keys (header t) = Return key →
  hdr_alg (header t) = "RS256" →
  signer t = key →
  not_in_future now (iat (payload t)) →
  not_in_future now (nbf (payload t)) →
  exp (payload t) = Some e →
  now < e →
  verify_all net now [Compact t; Compact t] p
  = ([Raise err; Return (payload t)],
     {| jwks_cache := Some d; fetches := S (S (fetches p)) |}).
Proof.
  intros Hc Herr Hn Hkeys Hfind Halg Hs Hi Hnbf He Hlt.
  cbn [verify_all].
  assert (verify_token net now (Compact t) p
          = (Raise err, {| jwks_cache := None; fetches := S (fetches p) |}))
    as ->.
  { rewrite verify_token_unfold, get_public_key_unfold.
    rewrite (get_jwks_fetch_fails net p err Hc Herr).
    destruct (net (fetches p)); simpl in Herr; by simplify_eq. }
  rewrite verify_token_unfold, get_public_key_unfold.
  rewrite (get_jwks_first_fetch net
             {| jwks_cache := None; fetches := S (fetches p) |} d eq_refl Hn).
  rewrite Hkeys, Hfind. by rewrite (decode_valid now t key e).
Qed.

Lemma key_set_outage_is_recovered_witness :
  let net := fun n => match n with
                      | O => FetchURLError "timed out"
                      | _ => FetchDoc Examples.doc1
                      end in
  let tok := Compact (Examples.token "k1" 7 (Some "sub-123")) in
  verify_all net 1000 [tok; tok] Examples.cold
  = ([Raise (URLError "timed out");
      Return (Examples.claims_of (Some "sub-123"))],
     {| jwks_cache := Some Examples.doc1; fetches := 2 |}).
Proof.
  apply (key_set_outage_is_recovered _ 1000
           (Examples.token "k1" 7 (Some "sub-123")) Examples.cold
           (URLError "timed out") Examples.doc1 [Examples.k1] 7%N 2000);
    first [reflexivity | simpl; lia].
Defined.

(** ** The tenant context: what [get_tenant_db] ends in *)

(** Sending a refused statement leaves the marker as it was. *)
Lemma current_setting_refused name v s :
  current_setting marker (conn (execute (SetLocal name (Bound v)) s))
  = current_setting marker (conn s).
Proof.
  destruct s as [d [g b [t|]] pend lg];
    unfold execute, autobegin, current_setting; simpl; [done|].
  by rewrite lookup_empty.
Qed.

Lemma current_setting_data q s :
  current_setting marker (conn (execute (Data q) s))
  = current_setting marker (conn s).
Proof.
  destruct s as [d [g b [t|]] pend lg];
    unfold execute, autobegin, current_setting; simpl; [done|].
  by rewrite lookup_empty.
Qed.

(** X9.  The [SET LOCAL] of [get_tenant_db] carries the company id as a
    bound parameter, which the server refuses in a [SET].  So when one row
    of [users] has the claim set's subject, [get_tenant_db] sends the
    lookup and then the [SET LOCAL] for that row's company, and ends in
    the [ProgrammingError] of the refusal, which the application does not
    handle (the caller gets the generic 500): the marker is as it was, and
    so are the tables and the pending work.  Whatever the claim set and
    the session, [get_tenant_db] does not yield. *)
Theorem get_tenant_db_stops_at_set_local
    (cs : claim_set) (s : session) :
  (∀ user,
     rows_of_subject (sub cs) (store s) = [user] →
     fst (get_tenant_db cs s)
     = Raise (ProgrammingError "syntax error at or near $1")
     ∧ handled (ProgrammingError "syntax error at or near $1") = false
     ∧ status (error_response
                 (ProgrammingError "syntax error at or near $1")) = 500
     ∧ (∃ ev1 ev2,
          log (snd (get_tenant_db cs s)) = (log s ++ [ev1; ev2])%list
          ∧ ev_stmt ev1 = Data (Select User.tablename)
          ∧ ev_stmt ev2
            = SetLocal marker (Bound (uuid_str (User.company_id user))))
     ∧ current_setting marker (conn (snd (get_tenant_db cs s)))
       = current_setting marker (conn s)
     ∧ store (snd (get_tenant_db cs s)) = store s
     ∧ pending (snd (get_tenant_db cs s)) = pending s)
  ∧ fst (get_tenant_db cs s) ≠ Return tt.
Proof.
  rewrite get_tenant_db_unfold. cbn zeta. split.
  - intros user ->. cbn [fst snd].
    split; [done|]. split; [done|]. split; [done|]. split.
    { eexists _, _. rewrite !log_execute, <- app_assoc. by split. }
    split; [by rewrite current_setting_refused, current_setting_data|].
    split; [by rewrite !store_execute | by rewrite !pending_execute].
  - by destruct (rows_of_subject (sub cs) (store s)) as [|user [|u' rows]].
Qed.

Lemma get_tenant_db_stops_at_set_local_witness :
  let r := get_tenant_db (Examples.claims_of (Some "sub-123"))
             (open_session Examples.db0 fresh_connection) in
  fst r = Raise (ProgrammingError "syntax error at or near $1")
  ∧ handled (ProgrammingError "syntax error at or near $1") = false
  ∧ status (error_response
              (ProgrammingError "syntax error at or near $1")) = 500
  ∧ (∃ ev1 ev2,
       log (snd r) = ([] ++ [ev1; ev2])%list
       ∧ ev_stmt ev1 = Data (Select User.tablename)
       ∧ ev_stmt ev2
         = SetLocal marker
             (Bound (uuid_str (User.company_id Examples.alice))))
  ∧ current_setting marker (conn (snd r)) = None
  ∧ store (snd r) = Examples.db0
  ∧ pending (snd r) = [].
Proof.
  apply (proj1 (get_tenant_db_stops_at_set_local
                  (Examples.claims_of (Some "sub-123"))
                  (open_session Examples.db0 fresh_connection))
           Examples.alice).
  reflexivity.
Defined.

Lemma filter_none {A} (P : A → Prop) `{∀ x, Decision (P x)} (l : list A) :
  Forall (fun x => ¬ P x) l → filter P l = [].
Proof.
  induction 1 as [|x l Hx _ IH]; [done|]. by rewrite filter_cons_False.
Qed.

(** A column without duplicates selects at most one row. *)
Lemma unique_column_selects_one {A} (f : A → string) (l : list A) (x : string) :
  NoDup (f <$> l) →
  filter (fun a => Some (f a) = Some x) l = []
  ∨ ∃ a, filter (fun a => Some (f a) = Some x) l = [a].
Proof.
  induction l as [|a l IH]; [by left|].
  rewrite fmap_cons, NoDup_cons. intros [Hnotin Hnd].
  destruct (decide (f a = x)) as [Heq|Hne].
  - right. exists a. rewrite filter_cons_True by congruence. f_equal.
    apply filter_none, Forall_forall. intros b Hb Hfb.
    apply Hnotin. apply list_elem_of_fmap. exists b. split; congruence.
  - rewrite filter_cons_False by congruence. by apply IH.
Qed.

(** X10.  Under the unique constraint on [cognito_sub], [get_tenant_db]
    has two outcomes only, and both are exceptions: the error of the
    refused [SET LOCAL], exactly when some row has the claim set's subject,
    or the 401, exactly when none has.  It never ends in
    [MultipleResultsFound]. *)
Theorem get_tenant_db_outcomes (cs : claim_set) (s : session) :
  subjects_unique (store s) →
  (fst (get_tenant_db cs s)
   = Raise (ProgrammingError "syntax error at or near $1")
   ∧ ∃ user, user ∈ users (store s) ∧ sub cs = Some (User.cognito_sub user))
  ∨ (fst (get_tenant_db cs s)
     = Raise (HTTPException HTTP_401_UNAUTHORIZED
                "User not provisioned. Contact your administrator.")
     ∧ ∀ user, user ∈ users (store s) → sub cs ≠ Some (User.cognito_sub user)).
Proof.
  intros Huniq. rewrite get_tenant_db_unfold. cbn zeta.
  destruct (sub cs) as [x|] eqn:Hsub.
  - destruct (unique_column_selects_one User.cognito_sub (users (store s)) x
                Huniq) as [Hnone|[user Hone]].
    + right. unfold rows_of_subject. rewrite Hnone. split; [done|].
      intros user Hin Heq.
      assert (user ∈ filter (fun a => Some (User.cognito_sub a) = Some x)
                (users (store s))) as Hf
        by (apply list_elem_of_filter; split; [congruence|done]).
      rewrite Hnone in Hf. by apply elem_of_nil in Hf.
    + left. unfold rows_of_subject. rewrite Hone. split; [done|].
      exists user.
      assert (user ∈ filter (fun a => Some (User.cognito_sub a) = Some x)
                (users (store s))) as Hf
        by (rewrite Hone; apply list_elem_of_here).
      apply list_elem_of_filter in Hf as [Heq Hin]. split; [done|congruence].
  - right. rewrite rows_of_subject_none. split; [done|]. discriminate.
Qed.

Lemma get_tenant_db_outcomes_witness :
  (fst (get_tenant_db (Examples.claims_of (Some "sub-123"))
          (open_session Examples.db0 fresh_connection))
   = Raise (ProgrammingError "syntax error at or near $1")
   ∧ ∃ user, user ∈ users Examples.db0
             ∧ Some "sub-123" = Some (User.cognito_sub user))
  ∨ (fst (get_tenant_db (Examples.claims_of (Some "sub-123"))
            (open_session Examples.db0 fresh_connection))
     = Raise (HTTPException HTTP_401_UNAUTHORIZED
                "User not provisioned. Contact your administrator.")
     ∧ ∀ user, user ∈ users Examples.db0 →
               Some "sub-123" ≠ Some (User.cognito_sub user)).
Proof.
  apply (get_tenant_db_outcomes (Examples.claims_of (Some "sub-123"))
           (open_session Examples.db0 fresh_connection)).
  unfold subjects_unique. cbn. apply NoDup_cons. split.
  - rewrite list_elem_of_singleton. discriminate.
  - apply NoDup_singleton.
Defined.

Lemma rows_of_subject_with_is_active sub v d :
  rows_of_subject sub (with_users (with_is_active v <$> users d) d)
  = with_is_active v <$> rows_of_subject sub d.
Proof.
  unfold rows_of_subject. cbn [users with_users].
  induction (users d) as [|u l IH]; [done|].
  rewrite fmap_cons.
  destruct (decide (Some (User.cognito_sub u) = sub)) as [Heq|Hne].
  - rewrite !filter_cons_True by done. rewrite fmap_cons. by f_equal.
  - by rewrite !filter_cons_False.
Qed.

(** X11.  [get_tenant_db] does not read [is_active]: with the flag of
    every row set to any value, the outcome is the same, and so are the
    marker and the statements sent.  A deactivated user is treated like an
    active one. *)
Theorem get_tenant_db_ignores_is_active
    (cs : claim_set) (s : session) (v : bool) :
  let s_flagged :=
    with_store (with_users (with_is_active v <$> users (store s)) (store s))
      s in
  fst (get_tenant_db cs s_flagged) = fst (get_tenant_db cs s)
  ∧ current_setting marker (conn (snd (get_tenant_db cs s_flagged)))
    = current_setting marker (conn (snd (get_tenant_db cs s)))
  ∧ log (snd (get_tenant_db cs s_flagged)) = log (snd (get_tenant_db cs s)).
Proof.
  intros s_flagged. subst s_flagged.
  rewrite !get_tenant_db_unfold. cbn zeta. cbn [store with_store].
  rewrite rows_of_subject_with_is_active.
  destruct (rows_of_subject (sub cs) (store s)) as [|user [|u' rows]];
    cbn [fmap list_fmap fst snd];
    destruct s as [d [g b [t|]] pend lg];
    unfold execute, autobegin, set_local, current_setting; simpl; done.
Qed.

(** ** The marker's value: the string of a UUID *)

Lemma hex_digit_inj_nat (n m : nat) :
  (n < 16)%nat → (m < 16)%nat →
  hex_digit (N.of_nat n) = hex_digit (N.of_nat m) → n = m.
Proof.
  intros Hn Hm.
  do 16 (destruct n as [|n];
         [do 16 (destruct m as [|m];
                 [first [reflexivity | discriminate]|]); lia|]).
  lia.
Qed.

Lemma hex_digit_inj a b :
  (a < 16)%N → (b < 16)%N → hex_digit a = hex_digit b → a = b.
Proof.
  intros Ha Hb H.
  rewrite <- (N2Nat.id a), <- (N2Nat.id b) in H.
  apply hex_digit_inj_nat in H; lia.
Qed.

Lemma string_length_app (s1 s2 : string) :
  String.length (s1 ++ s2)%string
  = (String.length s1 + String.length s2)%nat.
Proof. induction s1 as [|a s1 IH]; simpl; [done|]. by rewrite IH. Qed.

Lemma hex_length w n : String.length (hex w n) = w.
Proof.
  revert n. induction w as [|w IH]; intros n; [done|].
  cbn [hex]. rewrite string_length_app, IH. simpl. lia.
Qed.

Lemma snoc_inj (s1 s2 : string) (c1 c2 : ascii) :
  String.length s1 = String.length s2 →
  (s1 ++ String c1 "")%string = (s2 ++ String c2 "")%string →
  s1 = s2 ∧ c1 = c2.
Proof.
  revert s2. induction s1 as [|a s1 IH]; intros [|b s2]; simpl; intros Hl H;
    try discriminate.
  - by injection H as ->.
  - injection H as -> H. injection Hl as Hl.
    by destruct (IH s2 Hl H) as [-> ->].
Qed.

(** [hex] of a given width is one-to-one on the numbers that fit it. *)
Lemma hex_inj w a b :
  (a < 16 ^ N.of_nat w)%N → (b < 16 ^ N.of_nat w)%N →
  hex w a = hex w b → a = b.
Proof.
  revert a b. induction w as [|w IH]; intros a b Ha Hb H.
  - simpl in Ha, Hb. lia.
  - cbn [hex] in H.
    apply snoc_inj in H as [Hhi Hlo]; [|by rewrite !hex_length].
    rewrite Nat2N.inj_succ, N.pow_succ_r' in Ha, Hb.
    apply IH in Hhi; [| apply N.Div0.div_lt_upper_bound; lia ..].
    apply hex_digit_inj in Hlo; [| apply N.mod_lt; lia ..].
    rewrite (N.div_mod a 16), (N.div_mod b 16) by lia. congruence.
Qed.

(** The grouping with dashes loses nothing of the 32 digits. *)
Lemma dashed_inj (h1 h2 : string) :
  String.length h1 = 32%nat → String.length h2 = 32%nat →
  (substring 0 8 h1 ++ "-" ++ substring 8 4 h1 ++ "-" ++ substring 12 4 h1
     ++ "-" ++ substring 16 4 h1 ++ "-" ++ substring 20 12 h1)%string
  = (substring 0 8 h2 ++ "-" ++ substring 8 4 h2 ++ "-" ++ substring 12 4 h2
       ++ "-" ++ substring 16 4 h2 ++ "-" ++ substring 20 12 h2)%string →
  h1 = h2.
Proof.
  intros H1 H2.
  do 32 (destruct h1 as [|? h1]; [discriminate H1|]; simpl in H1;
         injection H1 as H1).
  destruct h1; [|discriminate H1].
  do 32 (destruct h2 as [|? h2]; [discriminate H2|]; simpl in H2;
         injection H2 as H2).
  destruct h2; [|discriminate H2].
  cbn. intros H. injection H. intros. by subst.
Qed.

(** X12.  The string of a UUID is 36 characters long, and two 128-bit
    UUIDs with the same string are the same UUID: the marker that
    [get_tenant_db] sets names one company and no other. *)
Theorem uuid_str_is_one_to_one (u v : uuid) :
  (u < 2 ^ 128)%N → (v < 2 ^ 128)%N →
  String.length (uuid_str u) = 36%nat
  ∧ (uuid_str u = uuid_str v → u = v).
Proof.
  intros Hu Hv. split.
  - unfold uuid_str. cbv zeta.
    pose proof (hex_length 32 u) as Hlen.
    generalize dependent (hex 32 u). intros h Hlen.
    do 32 (destruct h as [|? h]; [discriminate Hlen|]; simpl in Hlen;
           injection Hlen as Hlen).
    by destruct h.
  - intros H. unfold uuid_str in H. cbv zeta in H.
    apply dashed_inj in H; [|apply hex_length ..].
    apply (hex_inj 32); [ | | done].
    + by change (16 ^ N.of_nat 32)%N with (2 ^ 128)%N.
    + by change (16 ^ N.of_nat 32)%N with (2 ^ 128)%N.
Qed.

Lemma uuid_str_is_one_to_one_witness :
  String.length (uuid_str 10%N) = 36%nat
  ∧ (uuid_str 10%N = uuid_str 11%N → 10%N = 11%N).
Proof.
  apply (uuid_str_is_one_to_one 10%N 11%N); reflexivity.
Defined.

(** ** Requests one after the other on one pooled connection *)

(** One request on a connection at rest: the connection is at rest again
    afterwards, the tables are as they were, and no statement of the
    request saw a marker. *)
Lemma tenant_route_isolated net now credentials handler p d c :
  at_rest c →
  let r := tenant_route net now credentials handler p d c in
  at_rest (conn_after r)
  ∧ db_after r = d
  ∧ ∀ ev, ev ∈ trace r → ev_marker ev = None.
Proof.
  intros Hrest r. subst r.
  destruct (verify_token net now credentials p) as [[cs|e] p1] eqn:Hv.
  2:{ unfold tenant_route. rewrite Hv. cbn.
      split; [done|]. split; [done|]. intros ev Hev.
      by apply elem_of_nil in Hev. }
  destruct (rows_of_subject (sub cs) d) as [|user [|u' rows]] eqn:Hrows.
  - rewrite (tenant_route_no_row _ _ _ _ _ _ _ _ _ Hrest Hv Hrows). cbn.
    split; [split; [done|apply Hrest]|]. split; [done|].
    intros ev Hev. by apply list_elem_of_singleton in Hev as ->.
  - rewrite (tenant_route_of_provisioned _ _ _ _ _ _ _ _ _ _ Hrest Hv Hrows).
    cbn.
    split; [split; [done|apply Hrest]|]. split; [done|].
    intros ev Hev. rewrite !elem_of_cons in Hev.
    destruct Hev as [->|[->|Hev]]; [done|done|].
    by apply elem_of_nil in Hev.
  - rewrite (tenant_route_many_rows _ _ _ _ _ _ _ _ _ _ _ _ Hrest Hv Hrows).
    cbn.
    split; [split; [done|apply Hrest]|]. split; [done|].
    intros ev Hev. by apply list_elem_of_singleton in Hev as ->.
Qed.

(** A run of requests on a connection that starts at rest. *)
Lemma serve_all_isolated net now requests p d c :
  at_rest c →
  Forall2
    (fun req r =>
       at_rest (conn_after r)
       ∧ db_after r = d
       ∧ ∀ ev, ev ∈ trace r → ev_marker ev = None)
    requests (serve_all net now requests p d c).
Proof.
  revert p c. induction requests as [|req requests IH]; intros p c Hrest.
  - constructor.
  - cbn [serve_all].
    destruct (tenant_route_isolated net now (req_credentials req)
                (req_handler req) p d c Hrest) as (Hafter & Hdb & Hevs).
    constructor; [done|]. rewrite Hdb. by apply IH.
Qed.

(** X13.  Requests served one after the other by one process on one
    pooled connection that starts at rest: after each request the
    connection is at rest again, and every statement of every request saw
    either no marker or the company of a user row whose subject is the
    one in that request's own token.  No request runs a statement under a
    marker left by another. *)
Theorem requests_never_share_a_marker
    (net : nat -> fetch_outcome) (now : Z) (requests : list request)
    (p : process) (d : database) (c : connection) :
  at_rest c →
  Forall2
    (fun req r =>
       at_rest (conn_after r)
       ∧ ∀ ev, ev ∈ trace r →
           ev_marker ev = None
           ∨ ∃ t user,
               req_credentials req = Compact t
               ∧ user ∈ users d
               ∧ sub (payload t) = Some (User.cognito_sub user)
               ∧ ev_marker ev = Some (uuid_str (User.company_id user)))
    requests (serve_all net now requests p d c).
Proof.
  intros Hrest.
  eapply Forall2_impl; [by apply serve_all_isolated|].
  intros req r (Hafter & _ & Hevs). split; [done|].
  intros ev Hev. left. by apply Hevs.
Qed.

Lemma requests_never_share_a_marker_witness :
  Forall2
    (fun req r =>
       at_rest (conn_after r)
       ∧ ∀ ev, ev ∈ trace r →
           ev_marker ev = None
           ∨ ∃ t user,
               req_credentials req = Compact t
               ∧ user ∈ users Examples.db0
               ∧ sub (payload t) = Some (User.cognito_sub user)
               ∧ ev_marker ev = Some (uuid_str (User.company_id user)))
    [ {| req_credentials := Compact (Examples.token "k1" 7 (Some "sub-123"));
         req_handler := [Exec (Select Role.tablename)] |};
      {| req_credentials := Compact (Examples.token "k1" 7 (Some "sub-root"));
         req_handler := [Exec (Select Role.tablename); Commit] |} ]
    (serve_all Examples.net_up 1000
       [ {| req_credentials := Compact (Examples.token "k1" 7 (Some "sub-123"));
            req_handler := [Exec (Select Role.tablename)] |};
         {| req_credentials := Compact (Examples.token "k1" 7 (Some "sub-root"));
            req_handler := [Exec (Select Role.tablename); Commit] |} ]
       Examples.warm Examples.db0 fresh_connection).
Proof.
  apply (requests_never_share_a_marker Examples.net_up 1000 _
           Examples.warm Examples.db0 fresh_connection).
  split; reflexivity.
Defined.

(** ** Provisioning: every outcome of [provision_user] *)

(** A key column without duplicates selects the one row that has the key,
    or none. *)
Lemma unique_key_filter {A K} `{EqDecision K} (f : A → K) (l : list A) (x : K) :
  NoDup (f <$> l) →
  if bool_decide (x ∈ f <$> l)
  then ∃ a, filter (fun a => f a = x) l = [a]
  else filter (fun a => f a = x) l = [].
Proof.
  intros Hnd. case_bool_decide as Hin.
  - induction l as [|a l IH]; [by apply elem_of_nil in Hin|].
    rewrite fmap_cons in Hnd, Hin. apply NoDup_cons in Hnd as [Hnotin Hnd].
    destruct (decide (f a = x)) as [Heq|Hne].
    + exists a. rewrite filter_cons_True by done. f_equal.
      apply filter_none, Forall_forall. intros b Hb Hfb.
      apply Hnotin. apply list_elem_of_fmap. exists b. split; congruence.
    + rewrite filter_cons_False by done. apply IH; [done|].
      apply elem_of_cons in Hin as [Heq|Hin]; [congruence|done].
  - apply filter_none, Forall_forall. intros b Hb Hfb.
    apply Hin. apply list_elem_of_fmap. exists b. by split.
Qed.

Lemma unique_subject_filter (l : list User.t) (x : string) :
  NoDup (User.cognito_sub <$> l) →
  if bool_decide (x ∈ User.cognito_sub <$> l)
  then ∃ u, filter (fun u => Some (User.cognito_sub u) = Some x) l = [u]
  else filter (fun u => Some (User.cognito_sub u) = Some x) l = [].
Proof.
  intros Hnd.
  rewrite (list_filter_iff (fun u => Some (User.cognito_sub u) = Some x)
             (fun u => User.cognito_sub u = x)).
  - by apply unique_key_filter.
  - intros u. split; congruence.
Qed.

Lemma too_long_false n v :
  (String.length v ≤ n)%nat → too_long n v = false.
Proof. intros H. unfold too_long. apply bool_decide_eq_false_2. lia. Qed.

Lemma too_long_true n v : overlong n v → too_long n v = true.
Proof. intros [H _]. unfold too_long. by apply bool_decide_eq_true_2. Qed.

(** The object that [provision_user] constructs. *)
Lemma insert_user_ok o d :
  too_long 128 (User.new_cognito_sub o) = false →
  too_long 255 (User.new_email o) = false →
  User.new_id o ∉ User.id <$> users d →
  User.new_cognito_sub o ∉ User.cognito_sub <$> users d →
  User.new_company_id o ∈ Company.id <$> companies d →
  insert_user o d
  = Return (with_users (users d ++ [User.stored (clock d) o]) d).
Proof.
  intros Hl1 Hl2 Hid Hsub Hco. unfold insert_user. rewrite Hl1, Hl2.
  rewrite bool_decide_eq_false_2 by done.
  rewrite bool_decide_eq_false_2 by done.
  by rewrite bool_decide_eq_true_2.
Qed.

(** [provision_user], case by case, on a clean session over tables whose
    company ids and subjects are unique. *)
Lemma provision_user_cases admin_get_user uuid4 company_id body s :
  clean s →
  company_ids_unique (store s) →
  subjects_unique (store s) →
  fst (provision_user admin_get_user uuid4 company_id body s)
  = if bool_decide (company_id ∈ Company.id <$> companies (store s)) then
      match admin_get_user (cognito_sub body) with
      | PoolClientError code =>
          if bool_decide (code = "UserNotFoundException")
          then Raise (HTTPException HTTP_404_NOT_FOUND
                        ("Cognito user '" ++ cognito_sub body
                           ++ "' not found in user pool."))
          else Raise (ClientError code)
      | PoolUser =>
          if bool_decide (cognito_sub body
                          ∈ User.cognito_sub <$> users (store s))
          then Raise (HTTPException HTTP_409_CONFLICT
                        ("User with cognito_sub '" ++ cognito_sub body
                           ++ "' is already provisioned."))
          else if too_long 128 (cognito_sub body)
          then Raise (value_too_long 128)
          else if too_long 255 (email body)
          then Raise (value_too_long 255)
          else if bool_decide (uuid4 ∈ User.id <$> users (store s))
          then Raise (IntegrityError "users_pkey")
          else Return (User.stored (clock (store s))
                         {| User.new_id := uuid4;
                            User.new_cognito_sub := cognito_sub body;
                            User.new_email := email body;
                            User.new_company_id := company_id;
                            User.new_is_active := None;
                            User.new_is_superadmin := None |})
      end
    else Raise (HTTPException HTTP_404_NOT_FOUND
                  ("Company " ++ uuid_str company_id ++ " not found.")).
Proof.
  intros Hclean Hcids Hsubs.
  unfold provision_user, bind, lift, raise, ret, select_companies_where_id,
    select_users_where_cognito_sub.
  set (s1 := execute (Data (Select Company.tablename)) s).
  assert (Hs1 : store s1 = store s) by apply store_execute.
  rewrite Hs1.
  pose proof (unique_key_filter Company.id (companies (store s)) company_id
                Hcids) as Hco.
  case_bool_decide as Hcin; [destruct Hco as [co ->]|rewrite Hco; done].
  cbn [scalar_one_or_none].
  destruct (admin_get_user (cognito_sub body)) as [|code];
    [|by case_bool_decide].
  set (s2 := execute (Data (Select User.tablename)) s1).
  assert (Hs2 : store s2 = store s) by (unfold s2; by rewrite store_execute).
  assert (Hc2 : clean s2) by (do 2 apply clean_execute; done).
  rewrite Hs2.
  pose proof (unique_subject_filter (users (store s)) (cognito_sub body)
                Hsubs) as Hsub.
  case_bool_decide as Hsin; [destruct Hsub as [u ->]; done|rewrite Hsub].
  cbn [scalar_one_or_none]. unfold add. cbn [fst snd].
  set (o := {| User.new_id := uuid4 |}).
  set (s3 := {| store := store s2; conn := conn s2;
                pending := (pending s2 ++ [AddUser o])%list;
                log := log s2 |}).
  destruct Hc2 as [Hp2 Ht2].
  assert (Hp3 : pending s3 = [AddUser o])
    by (unfold s3; cbn [pending]; by rewrite Hp2).
  pose proof (commit_one (AddUser o) s3 Hp3 Ht2) as Hcommit.
  cbn [apply_work] in Hcommit. change (store s3) with (store s2) in Hcommit.
  rewrite Hs2 in Hcommit.
  destruct (too_long 128 (cognito_sub body)) eqn:Hl1.
  { assert (insert_user o (store s) = Raise (value_too_long 128))
      as Hins by (unfold insert_user; cbn [User.new_cognito_sub o];
                  by rewrite Hl1).
    rewrite Hins in Hcommit. destruct Hcommit as [Hr _].
    by destruct (commit s3) as [[[]|e] s4]; cbn [fst] in Hr; simplify_eq. }
  destruct (too_long 255 (email body)) eqn:Hl2.
  { assert (insert_user o (store s) = Raise (value_too_long 255))
      as Hins by (unfold insert_user;
                  cbn [User.new_cognito_sub User.new_email o];
                  by rewrite Hl1, Hl2).
    rewrite Hins in Hcommit. destruct Hcommit as [Hr _].
    by destruct (commit s3) as [[[]|e] s4]; cbn [fst] in Hr; simplify_eq. }
  case_bool_decide as Hidin.
  - assert (insert_user o (store s) = Raise (IntegrityError "users_pkey"))
      as Hins by (unfold insert_user;
                  cbn [User.new_cognito_sub User.new_email User.new_id o];
                  by rewrite Hl1, Hl2, bool_decide_eq_true_2).
    rewrite Hins in Hcommit. destruct Hcommit as [Hr _].
    by destruct (commit s3) as [[[]|e] s4]; cbn [fst] in Hr; simplify_eq.
  - rewrite (insert_user_ok o (store s)) in Hcommit by done.
    destruct Hcommit as (Hr & Hd' & _).
    destruct (commit s3) as [[[]|e] s4]; cbn [fst snd] in *; [|discriminate].
    unfold refresh_user. rewrite store_execute, Hd'. cbn [users with_users].
    assert (filter (fun u => User.id u = uuid4)
              (users (store s) ++ [User.stored (clock (store s)) o])%list
            = [User.stored (clock (store s)) o]) as ->
      by exact (filter_id_fresh (users (store s))
                  (User.stored (clock (store s)) o) Hidin).
    done.
Qed.

Lemma insert_user_store o d d' :
  insert_user o d = Return d' →
  d' = with_users (users d ++ [User.stored (clock d) o]) d.
Proof.
  unfold insert_user. do 2 (destruct (too_long _ _); [discriminate|]).
  repeat case_bool_decide; try discriminate.
  intros Hd. by simplify_eq.
Qed.

(** The tables after [provision_user], on a clean session. *)
Lemma provision_user_store admin_get_user uuid4 company_id body s :
  clean s →
  let r := provision_user admin_get_user uuid4 company_id body s in
  store (snd r)
  = match fst r with
    | Return user => with_users (users (store s) ++ [user]) (store s)
    | Raise _ => store s
    end.
Proof.
  intros Hclean r. subst r.
  unfold provision_user, bind, lift, raise, ret, select_companies_where_id,
    select_users_where_cognito_sub.
  set (s1 := execute (Data (Select Company.tablename)) s).
  assert (Hs1 : store s1 = store s) by apply store_execute.
  assert (Hc1 : clean s1) by by apply clean_execute.
  destruct (scalar_one_or_none _) as [[company|]|e]; cbn [fst snd];
    try by rewrite ?Hs1.
  destruct (admin_get_user (cognito_sub body)) as [|code];
    [|case_bool_decide; cbn [fst snd]; by rewrite Hs1].
  set (s2 := execute (Data (Select User.tablename)) s1).
  assert (Hs2 : store s2 = store s) by (unfold s2; by rewrite store_execute).
  assert (Hc2 : clean s2) by by apply clean_execute.
  destruct (scalar_one_or_none _) as [[existing|]|e]; cbn [fst snd];
    try by rewrite ?Hs2.
  unfold add. cbn [fst snd].
  set (o := {| User.new_id := uuid4 |}).
  set (s3 := {| store := store s2; conn := conn s2;
                pending := (pending s2 ++ [AddUser o])%list;
                log := log s2 |}).
  destruct Hc2 as [Hp2 Ht2].
  assert (Hp3 : pending s3 = [AddUser o])
    by (unfold s3; cbn [pending]; by rewrite Hp2).
  pose proof (commit_one (AddUser o) s3 Hp3 Ht2) as Hcommit.
  cbn [apply_work] in Hcommit. change (store s3) with (store s2) in Hcommit.
  destruct (insert_user o (store s2)) as [d'|e] eqn:Hins.
  - destruct Hcommit as (Hr & Hd' & _).
    destruct (commit s3) as [[[]|e] s4]; cbn [fst snd] in *; [|discriminate].
    unfold refresh_user. rewrite store_execute, Hd'.
    destruct (insert_user_rows _ _ _ Hins) as [Hrows Hfresh].
    apply insert_user_store in Hins. rewrite Hrows.
    assert (filter (fun u => User.id u = uuid4)
              (users (store s2) ++ [User.stored (clock (store s2)) o])%list
            = [User.stored (clock (store s2)) o]) as ->
      by exact (filter_id_fresh (users (store s2))
                  (User.stored (clock (store s2)) o) Hfresh).
    cbn [fst snd]. rewrite store_execute, Hd', Hins. by rewrite Hs2.
  - destruct Hcommit as (Hr & Hd').
    destruct (commit s3) as [[[]|e'] s4]; cbn [fst snd] in *; [discriminate|].
    by rewrite Hd', Hs2.
Qed.

(** X14.  [provision_user] checks the company before it asks the identity
    provider: for a company id that no row has, it raises 404 "Company
    <id> not found." whatever the provider would answer.  With the company
    there, a provider that does not know the subject gives 404, and any
    other provider error leaves the handler as an unhandled [ClientError].
    Whenever it raises, the tables are as they were. *)
Theorem provision_user_not_found
    (admin_get_user : string → pool_answer) (uuid4 company_id : uuid)
    (body : ProvisionUserRequest) (s : session) :
  clean s →
  company_ids_unique (store s) →
  subjects_unique (store s) →
  let r := provision_user admin_get_user uuid4 company_id body s in
  (company_id ∉ Company.id <$> companies (store s) →
   fst r = Raise (HTTPException HTTP_404_NOT_FOUND
                    ("Company " ++ uuid_str company_id ++ " not found.")))
  ∧ (company_id ∈ Company.id <$> companies (store s) →
     admin_get_user (cognito_sub body)
     = PoolClientError "UserNotFoundException" →
     fst r = Raise (HTTPException HTTP_404_NOT_FOUND
                      ("Cognito user '" ++ cognito_sub body
                         ++ "' not found in user pool.")))
  ∧ (company_id ∈ Company.id <$> companies (store s) →
     ∀ code, code ≠ "UserNotFoundException" →
       admin_get_user (cognito_sub body) = PoolClientError code →
       fst r = Raise (ClientError code) ∧ handled (ClientError code) = false)
  ∧ (∀ e, fst r = Raise e → store (snd r) = store s).
Proof.
  intros Hclean Hcids Hsubs r.
  pose proof (provision_user_cases admin_get_user uuid4 company_id body s
                Hclean Hcids Hsubs) as Hcases.
  pose proof (provision_user_store admin_get_user uuid4 company_id body s
                Hclean) as Hstore.
  cbv zeta in Hstore. fold r in Hcases, Hstore.
  split; [|split; [|split]].
  - intros Hnotin. by rewrite Hcases, bool_decide_eq_false_2.
  - intros Hin Hpool. by rewrite Hcases, bool_decide_eq_true_2, Hpool.
  - intros Hin code Hcode Hpool. split; [|done].
    rewrite Hcases, bool_decide_eq_true_2, Hpool by done.
    by rewrite bool_decide_eq_false_2.
  - intros e He. by rewrite Hstore, He.
Qed.

Lemma provision_user_not_found_witness :
  fst (provision_user (fun _ => PoolUser) 22%N 99%N
         {| cognito_sub := "sub-777"; email := "new@acme.example" |}
         (open_session Examples.db0 fresh_connection))
  = Raise (HTTPException HTTP_404_NOT_FOUND
             ("Company " ++ uuid_str 99%N ++ " not found.")).
Proof.
  refine (proj1 (provision_user_not_found (fun _ => PoolUser) 22%N 99%N
                   {| cognito_sub := "sub-777"; email := "new@acme.example" |}
                   (open_session Examples.db0 fresh_connection) _ _ _) _).
  - split; [reflexivity | exact I].
  - unfold company_ids_unique. cbn. apply NoDup_singleton.
  - unfold subjects_unique. cbn. apply NoDup_cons. split.
    + rewrite list_elem_of_singleton. discriminate.
    + apply NoDup_singleton.
  - cbn. rewrite list_elem_of_singleton. discriminate.
Defined.

(** X15.  With the company there and the subject known to the identity
    provider, [provision_user] raises 409 when a row already has the
    subject.  Otherwise the insert is tried: a subject that the column
    refuses (more than 128 characters, and not only spaces beyond them)
    ends in a [DataError]; and with subject and email within the lengths
    of their columns, a new UUID that is already the id of a row violates
    the primary key, an [IntegrityError].  Neither error is handled, and
    in each of the three cases no row is added. *)
Theorem provision_user_conflicts
    (admin_get_user : string → pool_answer) (uuid4 company_id : uuid)
    (body : ProvisionUserRequest) (s : session) :
  clean s →
  company_ids_unique (store s) →
  subjects_unique (store s) →
  company_id ∈ Company.id <$> companies (store s) →
  admin_get_user (cognito_sub body) = PoolUser →
  let r := provision_user admin_get_user uuid4 company_id body s in
  (cognito_sub body ∈ User.cognito_sub <$> users (store s) →
   fst r = Raise (HTTPException HTTP_409_CONFLICT
                    ("User with cognito_sub '" ++ cognito_sub body
                       ++ "' is already provisioned."))
   ∧ store (snd r) = store s)
  ∧ (cognito_sub body ∉ User.cognito_sub <$> users (store s) →
     overlong 128 (cognito_sub body) →
     fst r = Raise (DataError
                      "value too long for type character varying(128)")
     ∧ store (snd r) = store s)
  ∧ (cognito_sub body ∉ User.cognito_sub <$> users (store s) →
     (String.length (cognito_sub body) ≤ 128)%nat →
     (String.length (email body) ≤ 255)%nat →
     uuid4 ∈ User.id <$> users (store s) →
     fst r = Raise (IntegrityError "users_pkey")
     ∧ store (snd r) = store s).
Proof.
  intros Hclean Hcids Hsubs Hin Hpool r.
  pose proof (provision_user_cases admin_get_user uuid4 company_id body s
                Hclean Hcids Hsubs) as Hcases.
  pose proof (provision_user_store admin_get_user uuid4 company_id body s
                Hclean) as Hstore.
  cbv zeta in Hstore. fold r in Hcases, Hstore.
  rewrite bool_decide_eq_true_2, Hpool in Hcases by done.
  split; [|split].
  - intros Hsin. rewrite bool_decide_eq_true_2 in Hcases by done.
    by rewrite Hstore, Hcases.
  - intros Hsnotin Hlong.
    rewrite bool_decide_eq_false_2, too_long_true in Hcases by done.
    by rewrite Hstore, Hcases.
  - intros Hsnotin Hl1 Hl2 Hidin.
    rewrite bool_decide_eq_false_2, !too_long_false, bool_decide_eq_true_2
      in Hcases by done.
    by rewrite Hstore, Hcases.
Qed.

Lemma provision_user_conflicts_witness :
  let r := provision_user (fun _ => PoolUser) 22%N 10%N
             {| cognito_sub := Examples.long_subject;
                email := "long@acme.example" |}
             (open_session Examples.db0 fresh_connection) in
  fst r = Raise (DataError "value too long for type character varying(128)")
  ∧ store (snd r) = Examples.db0.
Proof.
  refine (proj1 (proj2 (provision_user_conflicts (fun _ => PoolUser)
                          22%N 10%N
                          {| cognito_sub := Examples.long_subject;
                             email := "long@acme.example" |}
                          (open_session Examples.db0 fresh_connection)
                          _ _ _ _ _)) _ _).
  - split; [reflexivity | exact I].
  - unfold company_ids_unique. cbn. apply NoDup_singleton.
  - unfold subjects_unique. cbn. apply NoDup_cons. split.
    + rewrite list_elem_of_singleton. discriminate.
    + apply NoDup_singleton.
  - cbn. apply list_elem_of_here.
  - reflexivity.
  - cbn. rewrite !not_elem_of_cons. repeat split; try discriminate.
    apply not_elem_of_nil.
  - split; [vm_compute; lia | reflexivity].
Defined.

(** X16.  For a subject and an email within the lengths of their columns
    (128 and 255 characters), [provision_user] returns a user exactly when
    the company id is the id of a row, the identity provider knows the
    subject, no row has the subject yet, and the new UUID is not yet the
    id of a row; the returned user then carries the request's subject and
    email and the path's company id, and is the one row added to the
    tables. *)
Theorem provision_user_succeeds_iff
    (admin_get_user : string → pool_answer) (uuid4 company_id : uuid)
    (body : ProvisionUserRequest) (s : session) :
  clean s →
  company_ids_unique (store s) →
  subjects_unique (store s) →
  (String.length (cognito_sub body) ≤ 128)%nat →
  (String.length (email body) ≤ 255)%nat →
  let r := provision_user admin_get_user uuid4 company_id body s in
  ((∃ user, fst r = Return user)
   ↔ company_id ∈ Company.id <$> companies (store s)
     ∧ admin_get_user (cognito_sub body) = PoolUser
     ∧ (cognito_sub body ∉ User.cognito_sub <$> users (store s))
     ∧ (uuid4 ∉ User.id <$> users (store s)))
  ∧ ∀ user, fst r = Return user →
      User.id user = uuid4
      ∧ User.cognito_sub user = cognito_sub body
      ∧ User.email user = email body
      ∧ User.company_id user = company_id
      ∧ store (snd r) = with_users (users (store s) ++ [user]) (store s).
Proof.
  intros Hclean Hcids Hsubs Hl1 Hl2 r.
  pose proof (provision_user_cases admin_get_user uuid4 company_id body s
                Hclean Hcids Hsubs) as Hcases.
  pose proof (provision_user_store admin_get_user uuid4 company_id body s
                Hclean) as Hstore.
  cbv zeta in Hstore. fold r in Hcases, Hstore.
  rewrite !too_long_false in Hcases by done.
  split; [split|].
  - intros [user Hr]. rewrite Hr in Hcases.
    case_bool_decide as Hin; [|discriminate].
    destruct (admin_get_user (cognito_sub body)) as [|code];
      [|by case_bool_decide].
    case_bool_decide as Hsin; [discriminate|].
    case_bool_decide as Hidin; [discriminate|]. done.
  - intros (Hin & Hpool & Hsnotin & Hidnotin).
    rewrite bool_decide_eq_true_2, Hpool in Hcases by done.
    rewrite !bool_decide_eq_false_2 in Hcases by done. by eexists.
  - intros user Hr. rewrite Hr in Hstore, Hcases.
    case_bool_decide as Hin; [|discriminate].
    destruct (admin_get_user (cognito_sub body)) as [|code];
      [|by case_bool_decide].
    case_bool_decide as Hsin; [discriminate|].
    case_bool_decide as Hidin; [discriminate|].
    injection Hcases as ->. done.
Qed.

Lemma provision_user_succeeds_iff_witness :
  let r := provision_user (fun _ => PoolUser) 22%N 10%N
             {| cognito_sub := "sub-777"; email := "new@acme.example" |}
             (open_session Examples.db0 fresh_connection) in
  (∃ user, fst r = Return user).
Proof.
  refine (proj2 (proj1 (provision_user_succeeds_iff (fun _ => PoolUser)
                          22%N 10%N
                          {| cognito_sub := "sub-777";
                             email := "new@acme.example" |}
                          (open_session Examples.db0 fresh_connection)
                          _ _ _ _ _)) _).
  - split; [reflexivity | exact I].
  - unfold company_ids_unique. cbn. apply NoDup_singleton.
  - unfold subjects_unique. cbn. apply NoDup_cons. split.
    + rewrite list_elem_of_singleton. discriminate.
    + apply NoDup_singleton.
  - vm_compute. lia.
  - vm_compute. lia.
  - cbn. split; [apply list_elem_of_here|]. split; [reflexivity|].
    rewrite !not_elem_of_cons. repeat split; try discriminate;
      apply not_elem_of_nil.
Defined.

Lemma rows_of_subject_fresh x d :
  x ∉ User.cognito_sub <$> users d → rows_of_subject (Some x) d = [].
Proof.
  intros Hnotin. unfold rows_of_subject.
  apply filter_none, Forall_forall. intros u Hu Heq.
  apply Hnotin, list_elem_of_fmap. exists u. split; [congruence|done].
Qed.

(** X17.  Provisioning and the tenant context: a claim set with the
    request's subject is turned away with 401 over the tables as they were
    before a successful [provision_user]; over the tables as they are
    after it, [get_tenant_db] finds the new row and the last statement it
    sends is the [SET LOCAL] for the company that the user was provisioned
    into.  That statement is refused, so the request then ends in the
    [ProgrammingError] and no longer in the 401. *)
Theorem provisioned_user_resolves
    (admin_get_user : string → pool_answer) (uuid4 company_id : uuid)
    (body : ProvisionUserRequest) (s : session) (user : User.t)
    (cs : claim_set) :
  clean s →
  company_ids_unique (store s) →
  subjects_unique (store s) →
  let r := provision_user admin_get_user uuid4 company_id body s in
  fst r = Return user →
  sub cs = Some (cognito_sub body) →
  (∀ s0, store s0 = store s →
         fst (get_tenant_db cs s0)
         = Raise (HTTPException HTTP_401_UNAUTHORIZED
                    "User not provisioned. Contact your administrator."))
  ∧ (∀ s1, store s1 = store (snd r) →
           fst (get_tenant_db cs s1)
           = Raise (ProgrammingError "syntax error at or near $1")
           ∧ ∃ ev, last (log (snd (get_tenant_db cs s1))) = Some ev
                   ∧ ev_stmt ev
                     = SetLocal marker (Bound (uuid_str company_id))).
Proof.
  intros Hclean Hcids Hsubs r Hr Hsub.
  pose proof (provision_user_cases admin_get_user uuid4 company_id body s
                Hclean Hcids Hsubs) as Hcases.
  pose proof (provision_user_store admin_get_user uuid4 company_id body s
                Hclean) as Hstore.
  cbv zeta in Hstore. fold r in Hcases, Hstore.
  rewrite Hr in Hcases, Hstore.
  case_bool_decide as Hin; [|discriminate].
  destruct (admin_get_user (cognito_sub body)) as [|code];
    [|by case_bool_decide].
  case_bool_decide as Hsin; [discriminate|].
  destruct (too_long 128 _); [discriminate|].
  destruct (too_long 255 _); [discriminate|].
  case_bool_decide as Hidin; [discriminate|].
  injection Hcases as Huser.
  pose proof (rows_of_subject_fresh _ _ Hsin) as Hnone.
  split.
  - intros s0 Hs0. by rewrite get_tenant_db_unfold, Hsub, Hs0, Hnone.
  - intros s1 Hs1. rewrite get_tenant_db_unfold, Hsub, Hs1, Hstore.
    cbn zeta.
    assert (rows_of_subject (Some (cognito_sub body))
              (with_users (users (store s) ++ [user]) (store s)) = [user])
      as ->.
    { unfold rows_of_subject in *. cbn [users with_users].
      rewrite filter_app, Hnone. cbn [app].
      rewrite filter_cons_True by (by rewrite Huser). by rewrite filter_nil. }
    cbn [fst snd]. split; [done|].
    rewrite log_execute, last_snoc. eexists. split; [done|].
    cbn [ev_stmt]. by rewrite Huser.
Qed.

Lemma provisioned_user_resolves_witness :
  let r := provision_user (fun _ => PoolUser) 22%N 10%N
             {| cognito_sub := "sub-777"; email := "new@acme.example" |}
             (open_session Examples.db0 fresh_connection) in
  (∀ s0, store s0 = Examples.db0 →
         fst (get_tenant_db (Examples.claims_of (Some "sub-777")) s0)
         = Raise (HTTPException HTTP_401_UNAUTHORIZED
                    "User not provisioned. Contact your administrator."))
  ∧ (∀ s1, store s1 = store (snd r) →
           fst (get_tenant_db (Examples.claims_of (Some "sub-777")) s1)
           = Raise (ProgrammingError "syntax error at or near $1")
           ∧ ∃ ev, last (log (snd (get_tenant_db
                                     (Examples.claims_of (Some "sub-777"))
                                     s1))) = Some ev
                   ∧ ev_stmt ev = SetLocal marker (Bound (uuid_str 10%N))).
Proof.
  refine (provisioned_user_resolves (fun _ => PoolUser) 22%N 10%N
            {| cognito_sub := "sub-777"; email := "new@acme.example" |}
            (open_session Examples.db0 fresh_connection)
            (User.stored 5 {| User.new_id := 22%N;
                              User.new_cognito_sub := "sub-777";
                              User.new_email := "new@acme.example";
                              User.new_company_id := 10%N;
                              User.new_is_active := None;
                              User.new_is_superadmin := None |})
            (Examples.claims_of (Some "sub-777")) _ _ _ _ _).
  - split; [reflexivity | exact I].
  - unfold company_ids_unique. cbn. apply NoDup_singleton.
  - unfold subjects_unique. cbn. apply NoDup_cons. split.
    + rewrite list_elem_of_singleton. discriminate.
    + apply NoDup_singleton.
  - reflexivity.
  - reflexivity.
Defined.

Lemma NoDup_snoc_fresh {A} (l : list A) (x : A) :
  NoDup l → x ∉ l → NoDup (l ++ [x]).
Proof.
  intros Hnd Hx. apply NoDup_app. split; [done|]. split.
  - intros y Hy Hyx. apply list_elem_of_singleton in Hyx. by subst.
  - apply NoDup_singleton.
Qed.

(** X18.  [provision_user] keeps the constraints of the tables: if ids,
    subjects and slugs are unique and every user's company exists before
    the call, the same holds after it, whether it returns or raises. *)
Theorem provision_user_keeps_constraints
    (admin_get_user : string → pool_answer) (uuid4 company_id : uuid)
    (body : ProvisionUserRequest) (s : session) :
  clean s →
  constraints_hold (store s) →
  constraints_hold
    (store (snd (provision_user admin_get_user uuid4 company_id body s))).
Proof.
  intros Hclean (Hsubs & Hids & Hcids & Hslugs & Hfk).
  pose proof (provision_user_cases admin_get_user uuid4 company_id body s
                Hclean Hcids Hsubs) as Hcases.
  pose proof (provision_user_store admin_get_user uuid4 company_id body s
                Hclean) as Hstore.
  cbv zeta in Hstore. rewrite Hstore.
  destruct (fst (provision_user admin_get_user uuid4 company_id body s))
    as [user|e]; [|done].
  case_bool_decide as Hin; [|discriminate].
  destruct (admin_get_user (cognito_sub body)) as [|code];
    [|by case_bool_decide].
  case_bool_decide as Hsin; [discriminate|].
  destruct (too_long 128 _); [discriminate|].
  destruct (too_long 255 _); [discriminate|].
  case_bool_decide as Hidin; [discriminate|].
  injection Hcases as ->.
  unfold constraints_hold, subjects_unique, user_ids_unique,
    company_ids_unique, slugs_unique, users_have_company.
  cbn [users companies with_users]. rewrite !fmap_app.
  split; [by apply NoDup_snoc_fresh|]. split; [by apply NoDup_snoc_fresh|].
  split; [done|]. split; [done|].
  apply Forall_app. split; [done|]. by repeat constructor.
Qed.

Lemma provision_user_keeps_constraints_witness :
  constraints_hold
    (store (snd (provision_user (fun _ => PoolUser) 22%N 10%N
                   {| cognito_sub := "sub-777"; email := "new@acme.example" |}
                   (open_session Examples.db0 fresh_connection)))).
Proof.
  apply (provision_user_keeps_constraints (fun _ => PoolUser) 22%N 10%N
           {| cognito_sub := "sub-777"; email := "new@acme.example" |}
           (open_session Examples.db0 fresh_connection)).
  - split; [reflexivity | exact I].
  - unfold constraints_hold, subjects_unique, user_ids_unique,
      company_ids_unique, slugs_unique, users_have_company. cbn.
    repeat split.
    + apply NoDup_cons. split; [|apply NoDup_singleton].
      rewrite list_elem_of_singleton. discriminate.
    + apply NoDup_cons. split; [|apply NoDup_singleton].
      rewrite list_elem_of_singleton. discriminate.
    + apply NoDup_singleton.
    + apply NoDup_singleton.
    + repeat constructor.
Defined.

(** ** Creating a company *)

Lemma filter_key_fresh {A K} `{EqDecision K} (f : A → K) (l : list A) (a : A) :
  f a ∉ f <$> l →
  filter (fun x => f x = f a) (l ++ [a])%list = [a].
Proof.
  intros Hfresh. rewrite filter_app.
  assert (filter (fun x => f x = f a) l = []) as ->.
  { apply filter_none, Forall_forall. intros b Hb Hfb.
    apply Hfresh, list_elem_of_fmap. exists b. by split. }
  simpl. by rewrite filter_cons_True, filter_nil.
Qed.

Lemma insert_company_cases o d :
  Company.new_slug o ∉ Company.slug <$> companies d →
  insert_company o d
  = if too_long 255 (Company.new_name o) then Raise (value_too_long 255)
    else if too_long 100 (Company.new_slug o) then Raise (value_too_long 100)
    else if bool_decide (Company.new_id o ∈ Company.id <$> companies d)
    then Raise (IntegrityError "companies_pkey")
    else Return (with_companies
                   (companies d ++ [Company.stored (clock d) o]) d).
Proof.
  intros Hslug. unfold insert_company.
  do 2 (destruct (too_long _ _); [done|]). case_bool_decide; [done|].
  by rewrite bool_decide_eq_false_2.
Qed.

(** [create_company], case by case, on a clean session over tables whose
    slugs are unique. *)
Lemma create_company_cases uuid4 body s :
  clean s →
  slugs_unique (store s) →
  let r := create_company uuid4 body s in
  let company := Company.stored (clock (store s))
                   {| Company.new_id := uuid4;
                      Company.new_name := cc_name body;
                      Company.new_slug := cc_slug body |} in
  if bool_decide (cc_slug body ∈ Company.slug <$> companies (store s))
  then fst r = Raise (HTTPException HTTP_409_CONFLICT
                        ("A company with slug '" ++ cc_slug body
                           ++ "' already exists."))
       ∧ store (snd r) = store s
  else if too_long 255 (cc_name body)
  then fst r = Raise (value_too_long 255) ∧ store (snd r) = store s
  else if too_long 100 (cc_slug body)
  then fst r = Raise (value_too_long 100) ∧ store (snd r) = store s
  else if bool_decide (uuid4 ∈ Company.id <$> companies (store s))
  then fst r = Raise (IntegrityError "companies_pkey")
       ∧ store (snd r) = store s
  else fst r = Return company
       ∧ store (snd r)
         = with_companies (companies (store s) ++ [company]) (store s).
Proof.
  intros Hclean Hslugs r company. subst r.
  unfold create_company, bind, lift, raise, ret, select_companies_where_slug.
  set (s1 := execute (Data (Select Company.tablename)) s).
  assert (Hs1 : store s1 = store s) by apply store_execute.
  destruct (clean_execute (Data (Select Company.tablename)) s Hclean)
    as [Hp1 Ht1]. fold s1 in Hp1, Ht1.
  rewrite Hs1.
  pose proof (unique_key_filter Company.slug (companies (store s))
                (cc_slug body) Hslugs) as Hsel.
  case_bool_decide as Hsin.
  { destruct Hsel as [co ->]. cbn [scalar_one_or_none fst snd]. done. }
  rewrite Hsel. cbn [scalar_one_or_none]. unfold add. cbn [fst snd].
  set (o := {| Company.new_id := uuid4 |}).
  set (s2 := {| store := store s1; conn := conn s1;
                pending := (pending s1 ++ [AddCompany o])%list;
                log := log s1 |}).
  assert (Hp2 : pending s2 = [AddCompany o])
    by (unfold s2; cbn [pending]; by rewrite Hp1).
  pose proof (commit_one (AddCompany o) s2 Hp2 Ht1) as Hcommit.
  cbn [apply_work] in Hcommit. change (store s2) with (store s1) in Hcommit.
  rewrite Hs1 in Hcommit.
  rewrite (insert_company_cases o (store s)) in Hcommit by done.
  change (Company.new_id o) with uuid4 in Hcommit.
  change (Company.new_name o) with (cc_name body) in Hcommit.
  change (Company.new_slug o) with (cc_slug body) in Hcommit.
  destruct (too_long 255 (cc_name body)).
  { destruct Hcommit as [Hr Hd].
    destruct (commit s2) as [[[]|e] s3]; cbn [fst snd] in *; simplify_eq.
    done. }
  destruct (too_long 100 (cc_slug body)).
  { destruct Hcommit as [Hr Hd].
    destruct (commit s2) as [[[]|e] s3]; cbn [fst snd] in *; simplify_eq.
    done. }
  case_bool_decide as Hidin.
  - destruct Hcommit as [Hr Hd].
    destruct (commit s2) as [[[]|e] s3]; cbn [fst snd] in *; simplify_eq.
    done.
  - destruct Hcommit as (Hr & Hd & _).
    destruct (commit s2) as [[[]|e] s3]; cbn [fst snd] in *; [|discriminate].
    unfold refresh_company. rewrite store_execute, Hd.
    cbn [companies with_companies].
    assert (filter (fun c => Company.id c = uuid4)
              (companies (store s) ++ [Company.stored (clock (store s)) o])%list
            = [Company.stored (clock (store s)) o]) as ->
      by exact (filter_key_fresh Company.id (companies (store s))
                  (Company.stored (clock (store s)) o) Hidin).
    cbn [fst snd]. by rewrite store_execute.
Qed.



(** X20.  [create_company] keeps the constraints of the tables, whether
    it returns or raises. *)
Theorem create_company_keeps_constraints
    (uuid4 : uuid) (body : CreateCompanyRequest) (s : session) :
  clean s →
  constraints_hold (store s) →
  constraints_hold (store (snd (create_company uuid4 body s))).
Proof.
  intros Hclean (Hsubs & Hids & Hcids & Hslugs & Hfk).
  pose proof (create_company_cases uuid4 body s Hclean Hslugs) as Hcases.
  cbv zeta in Hcases.
  case_bool_decide as Hsin; [destruct Hcases as [_ ->]; done|].
  destruct (too_long 255 _); [destruct Hcases as [_ ->]; done|].
  destruct (too_long 100 _); [destruct Hcases as [_ ->]; done|].
  case_bool_decide as Hidin; [destruct Hcases as [_ ->]; done|].
  destruct Hcases as [_ ->].
  unfold constraints_hold, subjects_unique, user_ids_unique,
    company_ids_unique, slugs_unique, users_have_company.
  cbn [users companies with_companies]. rewrite !fmap_app.
  split; [done|]. split; [done|].
  split; [by apply NoDup_snoc_fresh|]. split; [by apply NoDup_snoc_fresh|].
  eapply Forall_impl; [exact Hfk|]. intros u Hu. cbn beta in *.
  apply elem_of_app. by left.
Qed.

Lemma create_company_keeps_constraints_witness :
  constraints_hold
    (store (snd (create_company 11%N
                   {| cc_name := "Beta"; cc_slug := "beta" |}
                   (open_session Examples.db0 fresh_connection)))).
Proof.
  apply (create_company_keeps_constraints 11%N
           {| cc_name := "Beta"; cc_slug := "beta" |}
           (open_session Examples.db0 fresh_connection)).
  - split; [reflexivity | exact I].
  - unfold constraints_hold, subjects_unique, user_ids_unique,
      company_ids_unique, slugs_unique, users_have_company. cbn.
    repeat split.
    + apply NoDup_cons. split; [|apply NoDup_singleton].
      rewrite list_elem_of_singleton. discriminate.
    + apply NoDup_cons. split; [|apply NoDup_singleton].
      rewrite list_elem_of_singleton. discriminate.
    + apply NoDup_singleton.
    + apply NoDup_singleton.
    + repeat constructor.
Defined.

(** ** The seed script, case by case *)

(** The first half of [seed], on a session just opened over tables whose
    slugs are unique: the platform company is found, or it is inserted
    (not yet committed), or its insert violates the primary key. *)
Lemma seed_platform_cases uuid4_company d c :
  tx c = None →
  slugs_unique d →
  let o := {| Company.new_id := uuid4_company;
              Company.new_name := PLATFORM_COMPANY_NAME;
              Company.new_slug := PLATFORM_COMPANY_SLUG |} in
  ∃ r s1,
    seed_platform uuid4_company (open_session d c) = (r, s1)
    ∧ pending s1 = []
    ∧ if bool_decide (PLATFORM_COMPANY_SLUG ∈ Company.slug <$> companies d)
      then ∃ platform,
             platform ∈ companies d
             ∧ Company.slug platform = PLATFORM_COMPANY_SLUG
             ∧ r = Return (Company.id platform)
             ∧ store s1 = d
             ∧ ∃ t, tx (conn s1) = Some t ∧ at_begin t = d
      else match insert_company o d with
           | Return d1 =>
               r = Return uuid4_company ∧ store s1 = d1
               ∧ ∃ t, tx (conn s1) = Some t ∧ at_begin t = d
           | Raise e => r = Raise e ∧ fst (close s1) = d
           end.
Proof.
  intros Htx Hslugs o.
  unfold seed_platform, bind, lift, ret, add, select_companies_where_slug.
  set (s0 := execute (Data (Select Company.tablename)) (open_session d c)).
  assert (Hs0 : store s0 = d) by apply store_execute.
  assert (Hp0 : pending s0 = []) by apply pending_execute.
  assert (Ht0 : ∃ t, tx (conn s0) = Some t ∧ at_begin t = d).
  { unfold s0, execute, autobegin, open_session. simpl. rewrite Htx. simpl.
    by eexists. }
  rewrite Hs0.
  pose proof (unique_key_filter Company.slug (companies d)
                PLATFORM_COMPANY_SLUG Hslugs) as Hsel.
  case_bool_decide as Hin.
  - destruct Hsel as [platform Hsel]. rewrite Hsel.
    cbn [scalar_one_or_none].
    assert (platform ∈ filter
              (fun a => Company.slug a = PLATFORM_COMPANY_SLUG) (companies d))
      as Hf by (rewrite Hsel; apply list_elem_of_here).
    apply list_elem_of_filter in Hf as [Hslug Hmem].
    do 2 eexists. split; [reflexivity|]. split; [done|].
    by exists platform.
  - rewrite Hsel. cbn [scalar_one_or_none].
    unfold flush. cbn [pending store conn log]. rewrite Hp0.
    cbn [app flush_works apply_work statement_of].
    set (s2 := execute (Data (Insert Company.tablename)) _).
    assert (Hs2 : store s2 = d) by (unfold s2; by rewrite store_execute).
    assert (Ht2 : ∃ t, tx (conn s2) = Some t ∧ at_begin t = d).
    { destruct Ht0 as [t [Ht Hb]]. exists t. unfold s2, execute, autobegin.
      cbn [conn]. by rewrite Ht. }
    assert (Hp2 : pending s2 = [])
      by (unfold s2; by rewrite pending_execute).
    rewrite Hs2. fold o.
    destruct (insert_company o d) as [d1|e]; do 2 eexists;
      (split; [reflexivity|]).
    + by split.
    + split; [done|]. split; [done|]. destruct Ht2 as [t [Ht Hb]].
      unfold close, rollback. cbn [fst conn store]. by rewrite Ht.
Qed.

(** The second half of [seed], on a session with an open transaction that
    began over the tables [d0], over tables whose subjects are unique:
    what it returns, and the tables once the session is closed. *)
Lemma seed_user_cases uuid4_user platform_id cognito_sub email s d0 :
  pending s = [] →
  (∃ t, tx (conn s) = Some t ∧ at_begin t = d0) →
  subjects_unique (store s) →
  let o := {| User.new_id := uuid4_user;
              User.new_cognito_sub := cognito_sub;
              User.new_email := email;
              User.new_company_id := platform_id;
              User.new_is_active := None;
              User.new_is_superadmin := Some true |} in
  let fin := seed_user uuid4_user platform_id cognito_sub email s in
  if bool_decide (cognito_sub ∈ User.cognito_sub <$> users (store s))
  then ∃ existing,
         existing ∈ users (store s)
         ∧ User.cognito_sub existing = cognito_sub
         ∧ fst fin = Return tt
         ∧ fst (close (snd fin))
           = if User.is_superadmin existing then d0
             else update_is_superadmin (User.id existing) true (store s)
  else match insert_user o (store s) with
       | Return d2 => fst fin = Return tt ∧ fst (close (snd fin)) = d2
       | Raise e => fst fin = Raise e ∧ fst (close (snd fin)) = d0
       end.
Proof.
  intros Hp (t & Ht & Hb) Hsubs o fin. subst fin.
  unfold seed_user, bind, lift, ret, add, select_users_where_cognito_sub.
  set (s0 := execute (Data (Select User.tablename)) s).
  assert (Hs0 : store s0 = store s) by apply store_execute.
  assert (Hp0 : pending s0 = []) by (unfold s0; by rewrite pending_execute).
  assert (Ht0 : tx (conn s0) = Some t).
  { unfold s0, execute, autobegin. cbn [conn]. by rewrite Ht. }
  rewrite Hs0.
  pose proof (unique_subject_filter (users (store s)) cognito_sub Hsubs)
    as Hsel.
  case_bool_decide as Hin.
  - destruct Hsel as [existing Hsel]. rewrite Hsel.
    cbn [scalar_one_or_none].
    assert (existing ∈ filter
              (fun u => Some (User.cognito_sub u) = Some cognito_sub)
              (users (store s)))
      as Hf by (rewrite Hsel; apply list_elem_of_here).
    apply list_elem_of_filter in Hf as [Hsub Hmem].
    exists existing. split; [done|]. split; [congruence|].
    destruct (User.is_superadmin existing).
    + cbn [fst snd]. split; [done|].
      unfold close, rollback. cbn [fst store]. by rewrite Ht0.
    + cbn [pending store conn log]. rewrite Hp0. cbn [app].
      set (s2 := {| store := store s0 |}).
      destruct (commit_one_ok (SetSuperadmin (User.id existing) true) s2
                  (update_is_superadmin (User.id existing) true (store s0))
                  eq_refl eq_refl) as (Hr & Hd & Hclosed).
      destruct (commit s2) as [r s3]. cbn [fst snd] in *.
      split; [done|].
      unfold close, rollback. cbn [fst store]. by rewrite Hclosed, Hd, Hs0.
  - rewrite Hsel. cbn [scalar_one_or_none].
    cbn [pending store conn log]. rewrite Hp0. cbn [app].
    fold o. set (s2 := {| store := store s0 |}).
    assert (Hp2 : pending s2 = [AddUser o]) by done.
    assert (Ht2 : match tx (conn s2) with
                  | Some t' => True
                  | None => True
                  end) by (by destruct (tx (conn s2))).
    destruct (insert_user o (store s)) as [d2|e] eqn:Hins.
    + destruct (commit_one_ok (AddUser o) s2 d2 eq_refl) as (Hr & Hd & Hclosed).
      { cbn [apply_work]. change (store s2) with (store s0).
        by rewrite Hs0. }
      destruct (commit s2) as [r s3]. cbn [fst snd] in *.
      split; [done|].
      unfold close, rollback. cbn [fst store]. by rewrite Hclosed.
    + subst s2. unfold commit, flush. cbn [pending flush_works].
      rewrite store_execute. cbn [store apply_work]. rewrite Hs0, Hins.
      cbn [fst snd]. split; [done|].
      unfold close, rollback, execute, autobegin.
      cbn [fst store conn tx end_tx statement_of]. rewrite Ht0.
      cbn [fst store conn tx end_tx]. by rewrite Ht0.
Qed.

Lemma unique_key_eq {A K} (f : A → K) (l : list A) (x y : A) :
  NoDup (f <$> l) → x ∈ l → y ∈ l → f x = f y → x = y.
Proof.
  induction l as [|a l IH]; intros Hnd Hx Hy Heq;
    [by apply elem_of_nil in Hx|].
  rewrite fmap_cons in Hnd. apply NoDup_cons in Hnd as [Hnotin Hnd].
  apply elem_of_cons in Hx as [->|Hx]; apply elem_of_cons in Hy as [->|Hy].
  - done.
  - exfalso. apply Hnotin, list_elem_of_fmap. by exists y.
  - exfalso. apply Hnotin, list_elem_of_fmap. by exists x.
  - by apply IH.
Qed.

(** [seed] as a whole, when its first half does not raise. *)
Lemma run_seed_cases uuid4_company uuid4_user cognito_sub email d c dA pid :
  tx c = None →
  slugs_unique d →
  subjects_unique d →
  platform_after uuid4_company d dA pid →
  ∃ r d' c',
    run_seed uuid4_company uuid4_user cognito_sub email d c = (r, d', c')
    ∧ users dA = users d
    ∧ if bool_decide (cognito_sub ∈ User.cognito_sub <$> users d)
      then ∃ existing,
             existing ∈ users d
             ∧ User.cognito_sub existing = cognito_sub
             ∧ r = Return tt
             ∧ d' = if User.is_superadmin existing then d
                    else update_is_superadmin (User.id existing) true dA
      else match insert_user
                   (seeded_user uuid4_user pid cognito_sub email) dA with
           | Return d2 => r = Return tt ∧ d' = d2
           | Raise e => r = Raise e ∧ d' = d
           end.
Proof.
  intros Htx Hslugs Hsubs Hplat.
  destruct (seed_platform_cases uuid4_company d c Htx Hslugs)
    as (r1 & s1 & Hrun & Hp1 & Hcases).
  cbv zeta in Hcases.
  assert (r1 = Return pid ∧ store s1 = dA ∧ users dA = users d
          ∧ ∃ t, tx (conn s1) = Some t ∧ at_begin t = d)
    as (-> & Hs1 & Husers & Ht1).
  { destruct Hplat as [(platform & Hmem & Hslug & -> & ->)
                      |(Hnotin & Hins & ->)].
    - rewrite bool_decide_eq_true_2 in Hcases
        by (apply list_elem_of_fmap; by exists platform).
      destruct Hcases as (platform' & Hmem' & Hslug' & -> & Hs & Ht).
      rewrite (unique_key_eq Company.slug (companies d) platform platform')
        by (done || congruence). done.
    - rewrite bool_decide_eq_false_2, Hins in Hcases by done.
      destruct Hcases as (-> & Hs & Ht).
      split; [done|]. split; [done|]. split; [|done].
      by apply insert_company_rows in Hins. }
  unfold run_seed. rewrite seed_halves, Hrun.
  assert (subjects_unique (store s1)) as Hsubs1
    by (unfold subjects_unique; by rewrite Hs1, Husers).
  pose proof (seed_user_cases uuid4_user pid cognito_sub email s1 d
                Hp1 Ht1 Hsubs1) as Hfin.
  cbv zeta in Hfin. rewrite Hs1, Husers in Hfin.
  destruct (seed_user uuid4_user pid cognito_sub email s1) as [r s2].
  cbn [fst snd] in Hfin.
  exists r, (fst (close s2)), (snd (close s2)).
  split; [done|]. split; [done|].
  case_bool_decide as Hin; [|exact Hfin].
  destruct Hfin as (existing & Hmem & Hsub & -> & Hd).
  by exists existing.
Qed.

(** X21.  [seed] for a subject that is already a superadmin changes
    nothing: it ends normally and the tables are as they were, even when
    it had to insert the platform company on the way, because it returns
    without committing and the insert is rolled back. *)
Theorem seed_on_superadmin_changes_nothing
    (uuid4_company uuid4_user : uuid) (cognito_sub email : string)
    (d dA : database) (pid : uuid) (c : connection) (existing : User.t) :
  tx c = None →
  slugs_unique d →
  subjects_unique d →
  platform_after uuid4_company d dA pid →
  existing ∈ users d →
  User.cognito_sub existing = cognito_sub →
  User.is_superadmin existing = true →
  ∃ c', run_seed uuid4_company uuid4_user cognito_sub email d c
        = (Return tt, d, c').
Proof.
  intros Htx Hslugs Hsubs Hplat Hmem Hsub Hflag.
  destruct (run_seed_cases uuid4_company uuid4_user cognito_sub email d c
              dA pid Htx Hslugs Hsubs Hplat)
    as (r & d' & c' & Hrun & _ & Hcases).
  rewrite bool_decide_eq_true_2 in Hcases
    by (apply list_elem_of_fmap; by exists existing).
  destruct Hcases as (existing' & Hmem' & Hsub' & -> & ->).
  rewrite (unique_key_eq User.cognito_sub (users d) existing' existing)
    in Hrun by (done || congruence).
  rewrite Hflag in Hrun. by exists c'.
Qed.

Lemma seed_on_superadmin_changes_nothing_witness :
  ∃ c', run_seed 11%N 23%N "sub-root" "root@platform.example"
          Examples.db0 fresh_connection
        = (Return tt, Examples.db0, c').
Proof.
  apply (seed_on_superadmin_changes_nothing 11%N 23%N "sub-root"
           "root@platform.example" Examples.db0
           (with_companies
              [Examples.acme;
               Company.stored 5 {| Company.new_id := 11%N;
                                   Company.new_name := PLATFORM_COMPANY_NAME;
                                   Company.new_slug := PLATFORM_COMPANY_SLUG |}]
              Examples.db0)
           11%N fresh_connection Examples.root).
  - reflexivity.
  - unfold slugs_unique. cbn. apply NoDup_singleton.
  - unfold subjects_unique. cbn. apply NoDup_cons. split.
    + rewrite list_elem_of_singleton. discriminate.
    + apply NoDup_singleton.
  - right. split; [|split; reflexivity].
    cbn. rewrite list_elem_of_singleton. discriminate.
  - cbn. apply list_elem_of_further, list_elem_of_here.
  - reflexivity.
  - reflexivity.
Defined.

(** X22.  [seed] for a subject that has a row without the flag promotes
    that row and commits: it ends normally and the tables are those its
    first half left (with the platform company, newly inserted if it was
    missing) with the flag of that row set.  The promotion touches no
    company, keeps the number of user rows, and leaves every other user
    row as it was; the promoted row keeps its id, subject, email, active
    flag and company. *)
Theorem seed_promotes_existing_user
    (uuid4_company uuid4_user : uuid) (cognito_sub email : string)
    (d dA : database) (pid : uuid) (c : connection) (existing : User.t) :
  tx c = None →
  slugs_unique d →
  subjects_unique d →
  user_ids_unique d →
  platform_after uuid4_company d dA pid →
  existing ∈ users d →
  User.cognito_sub existing = cognito_sub →
  User.is_superadmin existing = false →
  ∃ d' c',
    run_seed uuid4_company uuid4_user cognito_sub email d c
    = (Return tt, d', c')
    ∧ d' = update_is_superadmin (User.id existing) true dA
    ∧ companies d' = companies dA
    ∧ length (users d') = length (users d)
    ∧ User.with_is_superadmin (clock dA) true existing ∈ users d'
    ∧ ∀ u, u ∈ users d → u ≠ existing → u ∈ users d'.
Proof.
  intros Htx Hslugs Hsubs Hids Hplat Hmem Hsub Hflag.
  destruct (run_seed_cases uuid4_company uuid4_user cognito_sub email d c
              dA pid Htx Hslugs Hsubs Hplat)
    as (r & d' & c' & Hrun & Husers & Hcases).
  rewrite bool_decide_eq_true_2 in Hcases
    by (apply list_elem_of_fmap; by exists existing).
  destruct Hcases as (existing' & Hmem' & Hsub' & -> & ->).
  rewrite (unique_key_eq User.cognito_sub (users d) existing' existing)
    in Hrun by (done || congruence).
  rewrite Hflag in Hrun.
  exists (update_is_superadmin (User.id existing) true dA), c'.
  split; [done|]. split; [done|]. split; [done|].
  unfold update_is_superadmin. cbn [users with_users]. rewrite Husers.
  split; [by rewrite length_map|]. split.
  - apply list_elem_of_fmap. exists existing. split; [|done].
    by rewrite bool_decide_eq_true_2.
  - intros u Hu Hne. apply list_elem_of_fmap. exists u. split; [|done].
    rewrite bool_decide_eq_false_2; [done|].
    intros Hid. apply Hne. by apply (unique_key_eq User.id (users d)).
Qed.

Lemma seed_promotes_existing_user_witness :
  ∃ d' c',
    run_seed 11%N 23%N "sub-123" "alice@acme.example"
      db_with_platform fresh_connection
    = (Return tt, d', c')
    ∧ User.with_is_superadmin 5 true Examples.alice ∈ users d'.
Proof.
  destruct (seed_promotes_existing_user 11%N 23%N "sub-123"
              "alice@acme.example" db_with_platform db_with_platform
              12%N fresh_connection Examples.alice)
    as (d' & c' & Hrun & _ & _ & _ & Hin & _).
  - reflexivity.
  - unfold slugs_unique. cbn. apply NoDup_cons. split.
    + rewrite list_elem_of_singleton. discriminate.
    + apply NoDup_singleton.
  - unfold subjects_unique. cbn. apply NoDup_cons. split.
    + rewrite list_elem_of_singleton. discriminate.
    + apply NoDup_singleton.
  - unfold user_ids_unique. cbn. apply NoDup_cons. split.
    + rewrite list_elem_of_singleton. discriminate.
    + apply NoDup_singleton.
  - left. exists platform_row.
    split; [cbn; apply list_elem_of_further, list_elem_of_here|].
    split; [reflexivity|]. split; reflexivity.
  - cbn. apply list_elem_of_here.
  - reflexivity.
  - reflexivity.
  - by exists d', c'.
Defined.

Lemma platform_after_has_company uuid4_company d dA pid :
  platform_after uuid4_company d dA pid →
  users dA = users d ∧ pid ∈ Company.id <$> companies dA.
Proof.
  intros [(platform & Hmem & Hslug & -> & ->)|(Hnotin & Hins & ->)].
  - split; [done|]. apply list_elem_of_fmap. by exists platform.
  - unfold insert_company in Hins.
    repeat match type of Hins with
           | context [too_long ?n ?v] =>
               destruct (too_long n v); [discriminate|]
           end.
    repeat case_bool_decide; try discriminate. injection Hins as <-.
    split; [done|]. cbn [companies with_companies].
    rewrite fmap_app, elem_of_app. right. apply list_elem_of_here.
Qed.

(** X23.  [seed] for a subject that has no row tries to create one.
    With subject and email within the lengths of their columns (128 and
    255 characters) it creates the row and commits, together with the
    platform company if that had to be inserted: the new row is the one
    row added, it has the superadmin flag and the active flag, and its
    company is the platform company, which is in the tables; but when the
    new UUID is already the id of a row, the insert violates the primary
    key and [seed] raises.  With a subject that the column refuses (more
    than 128 characters, and not only spaces beyond them) [seed] raises a
    [DataError].  Whenever it raises, the tables are as they were before
    the script started, the platform company included. *)
Theorem seed_creates_superadmin
    (uuid4_company uuid4_user : uuid) (cognito_sub email : string)
    (d dA : database) (pid : uuid) (c : connection) :
  tx c = None →
  slugs_unique d →
  subjects_unique d →
  platform_after uuid4_company d dA pid →
  cognito_sub ∉ User.cognito_sub <$> users d →
  let new := User.stored (clock dA)
               (seeded_user uuid4_user pid cognito_sub email) in
  ((String.length cognito_sub ≤ 128)%nat →
   (String.length email ≤ 255)%nat →
   uuid4_user ∉ User.id <$> users d →
   ∃ c', run_seed uuid4_company uuid4_user cognito_sub email d c
         = (Return tt, with_users (users d ++ [new]) dA, c')
         ∧ User.is_superadmin new = true
         ∧ User.is_active new = true
         ∧ User.company_id new ∈ Company.id <$> companies dA)
  ∧ ((String.length cognito_sub ≤ 128)%nat →
     (String.length email ≤ 255)%nat →
     uuid4_user ∈ User.id <$> users d →
     ∃ c', run_seed uuid4_company uuid4_user cognito_sub email d c
           = (Raise (IntegrityError "users_pkey"), d, c'))
  ∧ (overlong 128 cognito_sub →
     ∃ c', run_seed uuid4_company uuid4_user cognito_sub email d c
           = (Raise (DataError
                       "value too long for type character varying(128)"),
              d, c')).
Proof.
  intros Htx Hslugs Hsubs Hplat Hfresh new.
  destruct (run_seed_cases uuid4_company uuid4_user cognito_sub email d c
              dA pid Htx Hslugs Hsubs Hplat)
    as (r & d' & c' & Hrun & Husers & Hcases).
  rewrite bool_decide_eq_false_2 in Hcases by done.
  destruct (platform_after_has_company _ _ _ _ Hplat) as [_ Hpid].
  split; [|split].
  - intros Hl1 Hl2 Hid.
    rewrite (insert_user_ok (seeded_user uuid4_user pid cognito_sub email) dA)
      in Hcases by (rewrite ?Husers; (done || by apply too_long_false)).
    destruct Hcases as [-> ->]. exists c'. by rewrite <- Husers.
  - intros Hl1 Hl2 Hid.
    assert (insert_user (seeded_user uuid4_user pid cognito_sub email) dA
            = Raise (IntegrityError "users_pkey")) as Hins.
    { unfold insert_user. cbn [seeded_user User.new_cognito_sub
                                 User.new_email User.new_id].
      rewrite !too_long_false by done.
      rewrite bool_decide_eq_true_2; [done|]. by rewrite Husers. }
    rewrite Hins in Hcases. destruct Hcases as [-> ->]. by exists c'.
  - intros Hlong.
    assert (insert_user (seeded_user uuid4_user pid cognito_sub email) dA
            = Raise (value_too_long 128)) as Hins.
    { unfold insert_user. cbn [seeded_user User.new_cognito_sub].
      by rewrite too_long_true. }
    rewrite Hins in Hcases. destruct Hcases as [-> ->]. by exists c'.
Qed.

Lemma seed_creates_superadmin_witness :
  ∃ c', run_seed 11%N 23%N "sub-new" "ops@platform.example"
          db_with_platform fresh_connection
        = (Return tt,
           with_users
             (users db_with_platform
                ++ [User.stored 5 (seeded_user 23%N 12%N "sub-new"
                                     "ops@platform.example")])
             db_with_platform, c')
        ∧ User.is_superadmin
            (User.stored 5 (seeded_user 23%N 12%N "sub-new"
                              "ops@platform.example")) = true
        ∧ User.is_active
            (User.stored 5 (seeded_user 23%N 12%N "sub-new"
                              "ops@platform.example")) = true
        ∧ User.company_id
            (User.stored 5 (seeded_user 23%N 12%N "sub-new"
                              "ops@platform.example"))
          ∈ Company.id <$> companies db_with_platform.
Proof.
  refine (proj1 (seed_creates_superadmin 11%N 23%N "sub-new"
                   "ops@platform.example" db_with_platform db_with_platform
                   12%N fresh_connection _ _ _ _ _) _ _ _).
  - reflexivity.
  - unfold slugs_unique. cbn. apply NoDup_cons. split.
    + rewrite list_elem_of_singleton. discriminate.
    + apply NoDup_singleton.
  - unfold subjects_unique. cbn. apply NoDup_cons. split.
    + rewrite list_elem_of_singleton. discriminate.
    + apply NoDup_singleton.
  - left. exists platform_row.
    split; [cbn; apply list_elem_of_further, list_elem_of_here|].
    split; [reflexivity|]. split; reflexivity.
  - cbn. rewrite !not_elem_of_cons. repeat split; try discriminate.
    apply not_elem_of_nil.
  - vm_compute. lia.
  - vm_compute. lia.
  - cbn. rewrite !not_elem_of_cons. repeat split; try discriminate.
    apply not_elem_of_nil.
Defined.

(** ** The seed script keeps the constraints and can be run again *)

Lemma insert_company_constraints o d d1 :
  insert_company o d = Return d1 →
  constraints_hold d → constraints_hold d1.
Proof.
  unfold insert_company. do 2 (destruct (too_long _ _); [discriminate|]).
  repeat case_bool_decide; try discriminate.
  intros Hd (Hsubs & Hids & Hcids & Hslugs & Hfk). injection Hd as <-.
  unfold constraints_hold, subjects_unique, user_ids_unique,
    company_ids_unique, slugs_unique, users_have_company.
  cbn [users companies with_companies]. rewrite !fmap_app.
  split; [done|]. split; [done|].
  split; [by apply NoDup_snoc_fresh|]. split; [by apply NoDup_snoc_fresh|].
  eapply Forall_impl; [exact Hfk|]. intros u Hu. cbn beta in *.
  apply elem_of_app. by left.
Qed.

Lemma insert_user_constraints o d d2 :
  insert_user o d = Return d2 →
  constraints_hold d → constraints_hold d2.
Proof.
  unfold insert_user. do 2 (destruct (too_long _ _); [discriminate|]).
  repeat case_bool_decide; try discriminate.
  intros Hd (Hsubs & Hids & Hcids & Hslugs & Hfk). injection Hd as <-.
  unfold constraints_hold, subjects_unique, user_ids_unique,
    company_ids_unique, slugs_unique, users_have_company.
  cbn [users companies with_users]. rewrite !fmap_app.
  split; [by apply NoDup_snoc_fresh|]. split; [by apply NoDup_snoc_fresh|].
  split; [done|]. split; [done|].
  apply Forall_app. split; [done|]. by repeat constructor.
Qed.

Lemma update_is_superadmin_constraints id v d :
  constraints_hold d → constraints_hold (update_is_superadmin id v d).
Proof.
  intros (Hsubs & Hids & Hcids & Hslugs & Hfk).
  unfold constraints_hold, subjects_unique, user_ids_unique,
    company_ids_unique, slugs_unique, users_have_company,
    update_is_superadmin.
  cbn [users companies with_users].
  assert (∀ (K : Type) (f : User.t → K),
            (∀ u, f (User.with_is_superadmin (clock d) v u) = f u) →
            f <$> map (fun u => if bool_decide (User.id u = id)
                                then User.with_is_superadmin (clock d) v u
                                else u) (users d)
            = f <$> users d) as Hkeep.
  { intros K f Hf. induction (users d) as [|u l IH]; [done|].
    cbn [map fmap list_fmap]. f_equal; [|exact IH].
    by case_bool_decide. }
  rewrite !Hkeep by done.
  split; [done|]. split; [done|]. split; [done|]. split; [done|].
  apply Forall_forall. intros u Hu.
  apply list_elem_of_fmap in Hu as (u0 & -> & Hu0).
  unfold users_have_company in Hfk.
  rewrite Forall_forall in Hfk. specialize (Hfk u0 Hu0).
  by case_bool_decide.
Qed.

(** The first half of [seed] either leaves tables to go on with, or makes
    the whole script raise with the tables as they were. *)
Lemma platform_after_or_fails uuid4_company d c :
  tx c = None →
  slugs_unique d →
  (∃ dA pid, platform_after uuid4_company d dA pid)
  ∨ (∃ e c', ∀ uuid4_user cognito_sub email,
       run_seed uuid4_company uuid4_user cognito_sub email d c
       = (Raise e, d, c')).
Proof.
  intros Htx Hslugs.
  destruct (decide (PLATFORM_COMPANY_SLUG ∈ Company.slug <$> companies d))
    as [Hin|Hnotin].
  - left. apply list_elem_of_fmap in Hin as (platform & Hslug & Hmem).
    exists d, (Company.id platform). left. by exists platform.
  - destruct (insert_company
                {| Company.new_id := uuid4_company;
                   Company.new_name := PLATFORM_COMPANY_NAME;
                   Company.new_slug := PLATFORM_COMPANY_SLUG |} d)
      as [dA|e] eqn:Hins.
    + left. exists dA, uuid4_company. by right.
    + right.
      destruct (seed_platform_cases uuid4_company d c Htx Hslugs)
        as (r1 & s1 & Hrun & Hp1 & Hcases).
      cbv zeta in Hcases.
      rewrite bool_decide_eq_false_2, Hins in Hcases by done.
      destruct Hcases as [-> Hclose].
      exists e, (snd (close s1)). intros uuid4_user cognito_sub email.
      unfold run_seed. by rewrite seed_halves, Hrun, Hclose.
Qed.

Lemma platform_after_constraints uuid4_company d dA pid :
  platform_after uuid4_company d dA pid →
  constraints_hold d → constraints_hold dA.
Proof.
  intros [(platform & _ & _ & -> & _)|(_ & Hins & _)] Hd; [done|].
  exact (insert_company_constraints _ d dA Hins Hd).
Qed.

Lemma seed_keeps_constraints_aux
    uuid4_company uuid4_user cognito_sub email d d' c c' (r : result unit) :
  tx c = None →
  constraints_hold d →
  run_seed uuid4_company uuid4_user cognito_sub email d c = (r, d', c') →
  constraints_hold d'.
Proof.
  intros Htx Hd Hrun.
  pose proof Hd as (Hsubs & Hids & Hcids & Hslugs & Hfk).
  destruct (platform_after_or_fails uuid4_company d c Htx Hslugs)
    as [(dA & pid & Hplat)|(e & c0 & Hfail)].
  2:{ rewrite Hfail in Hrun. by simplify_eq. }
  pose proof (platform_after_constraints _ _ _ _ Hplat Hd) as HdA.
  destruct (run_seed_cases uuid4_company uuid4_user cognito_sub email d c
              dA pid Htx Hslugs Hsubs Hplat)
    as (r0 & d0 & c0 & Hrun0 & Husers & Hcases).
  rewrite Hrun in Hrun0. injection Hrun0 as <- <- <-.
  case_bool_decide as Hin.
  - destruct Hcases as (existing & _ & _ & _ & ->).
    destruct (User.is_superadmin existing); [done|].
    by apply update_is_superadmin_constraints.
  - destruct (insert_user _ dA) as [d2|e] eqn:Hins.
    + destruct Hcases as [_ ->].
      exact (insert_user_constraints _ dA _ Hins HdA).
    + by destruct Hcases as [_ ->].
Qed.

(** X24.  [seed] keeps the constraints of the tables, however it ends:
    if ids, subjects and slugs are unique and every user's company exists
    before the script runs, the same holds of the tables it leaves. *)
Theorem seed_keeps_constraints
    (uuid4_company uuid4_user : uuid) (cognito_sub email : string)
    (d d' : database) (c c' : connection) (r : result unit) :
  tx c = None →
  constraints_hold d →
  run_seed uuid4_company uuid4_user cognito_sub email d c = (r, d', c') →
  constraints_hold d'.
Proof. apply seed_keeps_constraints_aux. Qed.

Lemma seed_keeps_constraints_witness :
  constraints_hold
    (snd (fst (run_seed 11%N 23%N "sub-new" "ops@platform.example"
                 Examples.db0 fresh_connection))).
Proof.
  apply (seed_keeps_constraints 11%N 23%N "sub-new" "ops@platform.example"
           Examples.db0 _ fresh_connection
           (snd (run_seed 11%N 23%N "sub-new" "ops@platform.example"
                   Examples.db0 fresh_connection))
           (fst (fst (run_seed 11%N 23%N "sub-new" "ops@platform.example"
                        Examples.db0 fresh_connection)))).
  - reflexivity.
  - unfold constraints_hold, subjects_unique, user_ids_unique,
      company_ids_unique, slugs_unique, users_have_company. cbn.
    repeat split.
    + apply NoDup_cons. split; [|apply NoDup_singleton].
      rewrite list_elem_of_singleton. discriminate.
    + apply NoDup_cons. split; [|apply NoDup_singleton].
      rewrite list_elem_of_singleton. discriminate.
    + apply NoDup_singleton.
    + apply NoDup_singleton.
    + repeat constructor.
  - reflexivity.
Defined.

(** What a normal end of [seed] leaves: a superadmin row of the subject. *)
Lemma run_seed_leaves_superadmin uuid4_company uuid4_user cognito_sub email
    d c d' c' :
  tx c = None →
  run_seed uuid4_company uuid4_user cognito_sub email d c
  = (Return tt, d', c') →
  tx c' = None
  ∧ ∃ u, u ∈ users d'
         ∧ User.cognito_sub u = cognito_sub
         ∧ User.is_superadmin u = true.
Proof.
  intros Htx. unfold run_seed. rewrite seed_halves.
  assert (users_untouched (open_session d c)) as Hopen.
  { split; [done|]. intros t Ht. simpl in Ht. congruence. }
  destruct (seed_platform uuid4_company (open_session d c))
    as [[platform_id|e] s1] eqn:Hplatform; [|discriminate].
  pose proof (seed_platform_untouched _ _ _ _ Hopen Hplatform) as Hs1.
  destruct (seed_user uuid4_user platform_id cognito_sub email s1)
    as [r s2] eqn:Huser.
  intros H. injection H as -> <- <-. split; [done|].
  by apply (seed_user_promotes _ _ _ _ _ _ Hs1 Huser).
Qed.

(** X25.  [seed] can be run again: after a run that ended normally, a
    second run for the same subject (with any new UUIDs and any email)
    ends normally too and leaves the tables exactly as the first run left
    them, provided its first half does not raise. *)
Theorem seed_twice_is_seed_once
    (uuid4_company uuid4_user : uuid) (cognito_sub email : string)
    (d d' : database) (c c' : connection)
    (uuid4_company' uuid4_user' : uuid) (email' : string)
    (dA : database) (pid : uuid) :
  tx c = None →
  constraints_hold d →
  run_seed uuid4_company uuid4_user cognito_sub email d c
  = (Return tt, d', c') →
  platform_after uuid4_company' d' dA pid →
  ∃ c'', run_seed uuid4_company' uuid4_user' cognito_sub email' d' c'
         = (Return tt, d', c'').
Proof.
  intros Htx Hd Hrun Hplat.
  assert (constraints_hold d') as (Hsubs' & _ & _ & Hslugs' & _).
  { by apply (seed_keeps_constraints_aux _ _ _ _ _ _ _ _ _ Htx Hd Hrun). }
  destruct (run_seed_leaves_superadmin _ _ _ _ _ _ _ _ Htx Hrun)
    as (Htx' & u & Hmem & Hsub & Hflag).
  destruct (run_seed_cases uuid4_company' uuid4_user' cognito_sub email' d' c'
              dA pid Htx' Hslugs' Hsubs' Hplat)
    as (r & d2 & c2 & Hrun2 & _ & Hcases).
  rewrite bool_decide_eq_true_2 in Hcases
    by (apply list_elem_of_fmap; by exists u).
  destruct Hcases as (u' & Hmem' & Hsub' & -> & ->).
  rewrite (unique_key_eq User.cognito_sub (users d') u' u) in Hrun2
    by (done || congruence).
  rewrite Hflag in Hrun2. by exists c2.
Qed.

Lemma seed_twice_is_seed_once_witness :
  let first := run_seed 11%N 23%N "sub-new" "ops@platform.example"
                 db_with_platform fresh_connection in
  ∃ c'', run_seed 13%N 24%N "sub-new" "other@platform.example"
           (snd (fst first)) (snd first)
         = (Return tt, snd (fst first), c'').
Proof.
  apply (seed_twice_is_seed_once 11%N 23%N "sub-new" "ops@platform.example"
           db_with_platform _ fresh_connection _ 13%N 24%N
           "other@platform.example"
           (snd (fst (run_seed 11%N 23%N "sub-new" "ops@platform.example"
                        db_with_platform fresh_connection)))
           12%N).
  - reflexivity.
  - unfold constraints_hold, subjects_unique, user_ids_unique,
      company_ids_unique, slugs_unique, users_have_company. cbn.
    repeat split.
    + apply NoDup_cons. split; [|apply NoDup_singleton].
      rewrite list_elem_of_singleton. discriminate.
    + apply NoDup_cons. split; [|apply NoDup_singleton].
      rewrite list_elem_of_singleton. discriminate.
    + apply NoDup_cons. split; [|apply NoDup_singleton].
      rewrite list_elem_of_singleton. discriminate.
    + apply NoDup_cons. split; [|apply NoDup_singleton].
      rewrite list_elem_of_singleton. discriminate.
    + repeat constructor.
  - reflexivity.
  - left. exists platform_row.
    split; [vm_compute; apply list_elem_of_further, list_elem_of_here|].
    split; [reflexivity|]. split; reflexivity.
Defined.
